(** * Sakuya_bot: the favorability (affinity score) engine

    A shallow embedding of [src/plugins/favorability_plugin/plugin.py] and of
    [src/scripts/favorability_manager.py], followed by the properties of the
    score store, the band classifier, the cooldown gates, the harassment
    escalation and the daily gain cap.

    Conventions of the embedding:
    - a Python [int] is a [Z];
    - message text is a [str], the sequence of its code points, so that
      [len] is [length] and [kw in text] is a sublist test;
    - labels, dictionary keys, dates and person ids are [string]s;
    - [time.time()], a float in the source, is read from an integer clock
      (seconds) handed to each handler together with the current date;
    - the durable table and the five module-level tracker dictionaries are
      threaded explicitly through every function;
    - a store call that raises is an outcome [Raise] of the [result] type,
      and each [try ... except Exception] is a [match] on that outcome. *)

From Stdlib Require Import ZArith NArith List String Ascii Bool Lia DecimalString.
From stdpp Require Import gmap strings list fin_maps.
Import ListNotations.
Open Scope Z_scope.

(* ===================================================================== *)
(** ** Python text *)
(* ===================================================================== *)

(** A Python [str]: its code points in order. *)
Definition str : Type := list N.

Definition bytes_of_string (s : string) : list N :=
  map N_of_ascii (list_ascii_of_string s).

(** Literals are written as UTF-8 strings and decoded once; a truncated
    multi-byte sequence ends the decoding. *)
Fixpoint utf8_decode (bs : list N) : str :=
  match bs with
  | [] => []
  | b0 :: r0 =>
    if (b0 <? 128)%N then b0 :: utf8_decode r0
    else if (b0 <? 224)%N then
      match r0 with
      | b1 :: r1 =>
        N.lor (N.shiftl (N.land b0 31) 6) (N.land b1 63) :: utf8_decode r1
      | _ => []
      end
    else if (b0 <? 240)%N then
      match r0 with
      | b1 :: b2 :: r2 =>
        N.lor (N.shiftl (N.land b0 15) 12)
          (N.lor (N.shiftl (N.land b1 63) 6) (N.land b2 63)) :: utf8_decode r2
      | _ => []
      end
    else
      match r0 with
      | b1 :: b2 :: b3 :: r3 =>
        N.lor (N.shiftl (N.land b0 7) 18)
          (N.lor (N.shiftl (N.land b1 63) 12)
             (N.lor (N.shiftl (N.land b2 63) 6) (N.land b3 63))) :: utf8_decode r3
      | _ => []
      end
  end.

Definition u (s : string) : str := utf8_decode (bytes_of_string s).

(** [text.startswith(prefix)], returning what follows the prefix. *)
Fixpoint strip_prefix (prefix text : str) : option str :=
  match prefix, text with
  | [], _ => Some text
  | _ :: _, [] => None
  | p :: prefix', c :: text' =>
    if (p =? c)%N then strip_prefix prefix' text' else None
  end.

(** [needle in hay] on two strs. *)
Fixpoint py_in (needle hay : str) : bool :=
  match strip_prefix needle hay with
  | Some _ => true
  | None =>
    match hay with
    | [] => false
    | _ :: hay' => py_in needle hay'
    end
  end.

(** [any(k in text for k in keywords)]. *)
Definition any_in (keywords : list str) (text : str) : bool :=
  existsb (fun k => py_in k text) keywords.

(** [for keyword in keywords: if keyword in text: ...]: the keyword the loop
    stops at. *)
Definition first_keyword (keywords : list str) (text : str) : option str :=
  List.find (fun k => py_in k text) keywords.

(** [for label, keywords in labels.items(): if any(...): found = label; break]
    over a dict in insertion order. *)
Definition first_label (labels : list (string * list str)) (text : str)
  : option string :=
  fst <$> List.find (fun lk => any_in (snd lk) text) labels.

(** [str.isspace] on one code point, which is also the class [\s] of [re] on
    a str pattern. *)
Definition isspace (c : N) : bool :=
  ((9 <=? c) && (c <=? 13) || (28 <=? c) && (c <=? 32)
   || (c =? 133) || (c =? 160) || (c =? 5760)
   || (8192 <=? c) && (c <=? 8202)
   || (c =? 8232) || (c =? 8233) || (c =? 8239) || (c =? 8287)
   || (c =? 12288))%N.

Fixpoint drop_while (f : N -> bool) (s : str) : str :=
  match s with
  | [] => []
  | c :: s' => if f c then drop_while f s' else s
  end.

Definition lstrip (s : str) : str := drop_while isspace s.
Definition rstrip (s : str) : str := rev (drop_while isspace (rev s)).

(** [s.strip()]. *)
Definition strip (s : str) : str := rstrip (lstrip s).

(** [re.sub(r"\s+", "", s)]. *)
Definition remove_whitespace (s : str) : str :=
  List.filter (fun c => negb (isspace c)) s.

(** The longest prefix of [s] whose code points all differ from [stop], and
    the rest. *)
Fixpoint span_until (stop : N) (s : str) : str * str :=
  match s with
  | [] => ([], [])
  | c :: s' =>
    if (c =? stop)%N then ([], s)
    else let '(run, rest) := span_until stop s' in (c :: run, rest)
  end.

(** [one or more code points other than stop, then stop]: what follows. *)
Definition skip_through (stop : N) (s : str) : option str :=
  match span_until stop s with
  | (_ :: _, _ :: rest) => Some rest
  | _ => None
  end.

(** A match of the quoted-reply pattern
    [\[回复<[^>]+>\s*的消息：[^\]]+\]] at the start of [s]: what follows the
    match.  Every repetition of the pattern is followed by a code point that
    it excludes, so the greedy match is the only one. *)
Definition match_quoted_reply (s : str) : option str :=
  s1 ← strip_prefix (u "[回复<") s;
  s2 ← skip_through 62 s1;
  s3 ← strip_prefix (u "的消息：") (drop_while isspace s2);
  skip_through 93 s3.

(** [re.sub(pattern, '', s)] for that pattern: matches are found left to
    right and do not overlap; [skip] counts the code points of the current
    match that are still to be dropped. *)
Fixpoint remove_quoted_replies_from (skip : nat) (s : str) : str :=
  match s with
  | [] => []
  | c :: s' =>
    match skip with
    | S k => remove_quoted_replies_from k s'
    | O =>
      match match_quoted_reply s with
      | Some rest =>
        remove_quoted_replies_from (length s' - length rest)%nat s'
      | None => c :: remove_quoted_replies_from O s'
      end
    end
  end.

Definition remove_quoted_replies (s : str) : str :=
  remove_quoted_replies_from O s.

(** The functions of the host that the plugin calls and that are given here
    by their signature only: [str.lower] (the Unicode case mapping) and
    [get_person_id] of [src.person_info]. *)
Class Host := {
  lower : str -> str;
  get_person_id : str -> str -> string;
}.

(** [str.lower] on texts whose cased letters are all ASCII. *)
Definition ascii_lower (s : str) : str :=
  map (fun c => if ((65 <=? c) && (c <=? 90))%N then (c + 32)%N else c) s.

(* ===================================================================== *)
(** ** The band classifier (plugin.py, [get_favorability_level]) *)
(* ===================================================================== *)

Definition get_favorability_level (favorability : Z) : string :=
  if favorability >=? 120 then "至亲"
  else if favorability >=? 90 then "挚友"
  else if favorability >=? 70 then "好友"
  else if favorability >=? 50 then "熟人"
  else if favorability >=? 30 then "认识"
  else if favorability >=? 10 then "陌生"
  else if favorability >=? -10 then "厌恶"
  else if favorability >=? -30 then "敌视"
  else "死敌".

(** The nine bands under the names the specification gives them, from the
    lowest to the highest. *)
Inductive Band : Type :=
  | nemesis | hostile | disliked | stranger | known
  | acquaintance | friend | bestfriend | kin.

(** The label the program stores and displays for each band. *)
Definition band_label (b : Band) : string :=
  match b with
  | kin => "至亲"
  | bestfriend => "挚友"
  | friend => "好友"
  | acquaintance => "熟人"
  | known => "认识"
  | stranger => "陌生"
  | disliked => "厌恶"
  | hostile => "敌视"
  | nemesis => "死敌"
  end.

Definition band_rank (b : Band) : nat :=
  match b with
  | nemesis => 0 | hostile => 1 | disliked => 2 | stranger => 3 | known => 4
  | acquaintance => 5 | friend => 6 | bestfriend => 7 | kin => 8
  end.

Definition all_bands : list Band :=
  [nemesis; hostile; disliked; stranger; known;
   acquaintance; friend; bestfriend; kin].

(** The position of a stored label in the order of the bands; a text that is
    no band label has none. *)
Definition label_rank (label : string) : option nat :=
  band_rank <$> List.find (fun b => bool_decide (band_label b = label)) all_bands.

(** The table of section 4.1 of the specification, as written there: nine
    closed integer ranges and the band of each. *)
Definition spec_band_table : list (Z * Z * Band) :=
  [ (120, 150, kin); (90, 119, bestfriend); (70, 89, friend);
    (50, 69, acquaintance); (30, 49, known); (10, 29, stranger);
    (-10, 9, disliked); (-30, -11, hostile); (-50, -31, nemesis) ].

(** The band the table gives a score: the range that contains it. *)
Definition spec_band (score : Z) : option Band :=
  snd <$> List.find (fun r => (fst (fst r) <=? score) && (score <=? snd (fst r)))
            spec_band_table.

(* ===================================================================== *)
(** ** The durable store *)
(* ===================================================================== *)

(** A row of the [Favorability] table; its [person_id] column is the key the
    row is stored under. *)
Record Favorability : Type := mkFavorability {
  favorability : Z;
  level : string;
  total_interactions : Z;
  positive_interactions : Z;
  negative_interactions : Z;
  last_interaction : Z;
  created_at : Z;
}.

(** The table keyed by [person_id], whether a read and whether a write of
    the store raises in this world, and what [logger.error] has been given. *)
Record World : Type := mkWorld {
  table : gmap string Favorability;
  read_raises : bool;
  write_raises : bool;
  error_log : list string;
}.

Definition with_table (w : World) (t : gmap string Favorability) : World :=
  {| table := t; read_raises := read_raises w;
     write_raises := write_raises w; error_log := error_log w |}.

Definition logger_error (w : World) (message : string) : World :=
  {| table := table w; read_raises := read_raises w;
     write_raises := write_raises w; error_log := error_log w ++ [message] |}.

(** The outcome of a call that may raise. *)
Inductive result (A : Type) : Type :=
  | Ok (a : A)
  | Raise.
Arguments Ok {A} a.
Arguments Raise {A}.

#[global] Instance result_bind : MBind result :=
  fun A B k r =>
    match r with
    | Ok a => k a
    | Raise => Raise
    end.

(** [Favorability.get_or_none(Favorability.person_id == person_id)]. *)
Definition get_or_none (w : World) (pid : string) : result (option Favorability) :=
  if read_raises w then Raise else Ok (table w !! pid).

(** [record.save()] on the row fetched for [pid]: the row replaces the
    stored one, or nothing is written. *)
Definition save (w : World) (pid : string) (record : Favorability) : result World :=
  if write_raises w then Raise
  else Ok (with_table w (<[pid := record]> (table w))).

(** [Favorability.create(person_id=pid, ...)]. *)
Definition create (w : World) (pid : string) (record : Favorability) : result World :=
  if write_raises w then Raise
  else Ok (with_table w (<[pid := record]> (table w))).

(** [max(-50, min(150, value))]. *)
Definition clamp_score (value : Z) : Z := Z.max (-50) (Z.min 150 value).

(* ===================================================================== *)
(** ** Store operations of the plugin (plugin.py, lines 35-125) *)
(* ===================================================================== *)

Definition get_favorability (w : World) (pid : string) : Z * World :=
  match get_or_none w pid with
  | Ok (Some record) => (favorability record, w)
  | Ok None => (50, w)
  | Raise => (50, logger_error w "获取好感度失败")
  end.

Definition get_favorability_record (w : World) (pid : string)
  : option Favorability * World :=
  match get_or_none w pid with
  | Ok record => (record, w)
  | Raise => (None, logger_error w "获取好感度记录失败")
  end.

Definition set_favorability (w : World) (now : Z) (pid : string) (value : Z)
  : bool * World :=
  let value := clamp_score value in
  let level := get_favorability_level value in
  let body :=
    record ← get_or_none w pid;
    match record with
    | Some record =>
      save w pid
        {| favorability := value;
           level := level;
           total_interactions := total_interactions record;
           positive_interactions := positive_interactions record;
           negative_interactions := negative_interactions record;
           last_interaction := now;
           created_at := created_at record |}
    | None =>
      create w pid
        {| favorability := value;
           level := level;
           total_interactions := 0;
           positive_interactions := 0;
           negative_interactions := 0;
           last_interaction := now;
           created_at := now |}
    end in
  match body with
  | Ok w' => (true, w')
  | Raise => (false, logger_error w "设置好感度失败")
  end.

Definition add_favorability (w : World) (now : Z) (pid : string) (delta : Z)
    (interaction_type : string) : Z * World :=
  let body :=
    record ← get_or_none w pid;
    let current := match record with Some r => favorability r | None => 50 end in
    let new_value := clamp_score (current + delta) in
    let level := get_favorability_level new_value in
    w' ←
      match record with
      | Some record =>
        save w pid
          {| favorability := new_value;
             level := level;
             total_interactions := total_interactions record + 1;
             positive_interactions :=
               if bool_decide (interaction_type = "positive")
               then positive_interactions record + 1
               else positive_interactions record;
             negative_interactions :=
               if bool_decide (interaction_type = "positive")
               then negative_interactions record
               else if bool_decide (interaction_type = "negative")
               then negative_interactions record + 1
               else negative_interactions record;
             last_interaction := now;
             created_at := created_at record |}
      | None =>
        create w pid
          {| favorability := new_value;
             level := level;
             total_interactions := 1;
             positive_interactions :=
               if bool_decide (interaction_type = "positive") then 1 else 0;
             negative_interactions :=
               if bool_decide (interaction_type = "negative") then 1 else 0;
             last_interaction := now;
             created_at := now |}
      end;
    Ok (new_value, w') in
  match body with
  | Ok r => r
  | Raise => (50, logger_error w "更新好感度失败")
  end.

(* ===================================================================== *)
(** ** The administration script (scripts/favorability_manager.py) *)
(* ===================================================================== *)

Module favorability_manager.

Definition get_favorability_level (fav : Z) : string :=
  if fav >=? 90 then "挚友"
  else if fav >=? 70 then "好友"
  else if fav >=? 50 then "熟人"
  else if fav >=? 30 then "认识"
  else if fav >=? 10 then "陌生"
  else "厌恶".

(** [modify_favorability] has no [try]: what the store raises reaches the
    caller. *)
Definition modify_favorability (w : World) (now : Z) (pid : string) (new_value : Z)
  : result World :=
  let new_value := Z.max 0 (Z.min 150 new_value) in
  let new_level := get_favorability_level new_value in
  record ← get_or_none w pid;
  match record with
  | Some record =>
    save w pid
      {| favorability := new_value;
         level := new_level;
         total_interactions := total_interactions record;
         positive_interactions := positive_interactions record;
         negative_interactions := negative_interactions record;
         last_interaction := last_interaction record;
         created_at := created_at record |}
  | None =>
    create w pid
      {| favorability := new_value;
         level := new_level;
         total_interactions := 0;
         positive_interactions := 0;
         negative_interactions := 0;
         last_interaction := now;
         created_at := now |}
  end.

End favorability_manager.

(* ===================================================================== *)
(** ** Configuration, messages and the tracker dictionaries *)
(* ===================================================================== *)

(** The values a configuration key can hold here: [None], a [bool], an [int]
    or a table.  Floats and texts are left out of the value universe. *)
Inductive PyValue : Type :=
  | PyNone
  | PyBool (b : bool)
  | PyInt (z : Z)
  | PyDict.

Definition Config : Type := gmap string PyValue.

(** [self.get_config(key, default)]. *)
Definition get_config (cfg : Config) (key : string) (dflt : PyValue) : PyValue :=
  default dflt (cfg !! key).

(** The truth value of [if value:]; [PyDict] is a table with entries. *)
Definition truthy (v : PyValue) : bool :=
  match v with
  | PyNone => false
  | PyBool b => b
  | PyInt z => negb (z =? 0)
  | PyDict => true
  end.

(** The number a value is compared as ([True] is 1); [None] and a table are
    no numbers. *)
Definition number_of (v : PyValue) : option Z :=
  match v with
  | PyBool b => Some (Z.b2z b)
  | PyInt z => Some z
  | PyNone | PyDict => None
  end.

(** [message.message_base_info]: a missing key and an empty text are read
    alike ([.get(key, '') or '']). *)
Record BaseInfo : Type := mkBaseInfo {
  platform : str;
  user_id : str;
  planner_reasoning : str;
}.

Record UserInfo : Type := mkUserInfo {
  ui_user_id : str;
}.

Record MessageInfo : Type := mkMessageInfo {
  user_info : option UserInfo;
  mi_platform : str;
}.

Record MaiMessages : Type := mkMaiMessages {
  message_base_info : option BaseInfo;
  plain_text : str;
  llm_response_reasoning : str;
  message_info : option MessageInfo;
}.

(** The five module-level dictionaries of plugin.py and the store. *)
Record State : Type := mkState {
  _negative_behavior_tracker : gmap string (list (Z * str));
  _normal_interaction_tracker : gmap string Z;
  _positive_interaction_tracker : gmap string Z;
  _negative_interaction_tracker : gmap string Z;
  _daily_normal_gain_tracker : gmap string (string * Z);
  world : World;
}.

Definition set_negative_behavior (st : State) (pid : string) (log : list (Z * str))
  : State :=
  {| _negative_behavior_tracker := <[pid := log]> (_negative_behavior_tracker st);
     _normal_interaction_tracker := _normal_interaction_tracker st;
     _positive_interaction_tracker := _positive_interaction_tracker st;
     _negative_interaction_tracker := _negative_interaction_tracker st;
     _daily_normal_gain_tracker := _daily_normal_gain_tracker st;
     world := world st |}.

Definition set_normal_interaction (st : State) (pid : string) (t : Z) : State :=
  {| _negative_behavior_tracker := _negative_behavior_tracker st;
     _normal_interaction_tracker := <[pid := t]> (_normal_interaction_tracker st);
     _positive_interaction_tracker := _positive_interaction_tracker st;
     _negative_interaction_tracker := _negative_interaction_tracker st;
     _daily_normal_gain_tracker := _daily_normal_gain_tracker st;
     world := world st |}.

Definition set_positive_interaction (st : State) (pid : string) (t : Z) : State :=
  {| _negative_behavior_tracker := _negative_behavior_tracker st;
     _normal_interaction_tracker := _normal_interaction_tracker st;
     _positive_interaction_tracker := <[pid := t]> (_positive_interaction_tracker st);
     _negative_interaction_tracker := _negative_interaction_tracker st;
     _daily_normal_gain_tracker := _daily_normal_gain_tracker st;
     world := world st |}.

Definition set_negative_interaction (st : State) (pid : string) (t : Z) : State :=
  {| _negative_behavior_tracker := _negative_behavior_tracker st;
     _normal_interaction_tracker := _normal_interaction_tracker st;
     _positive_interaction_tracker := _positive_interaction_tracker st;
     _negative_interaction_tracker := <[pid := t]> (_negative_interaction_tracker st);
     _daily_normal_gain_tracker := _daily_normal_gain_tracker st;
     world := world st |}.

Definition set_daily_normal_gain (st : State) (pid : string) (entry : string * Z)
  : State :=
  {| _negative_behavior_tracker := _negative_behavior_tracker st;
     _normal_interaction_tracker := _normal_interaction_tracker st;
     _positive_interaction_tracker := _positive_interaction_tracker st;
     _negative_interaction_tracker := _negative_interaction_tracker st;
     _daily_normal_gain_tracker := <[pid := entry]> (_daily_normal_gain_tracker st);
     world := world st |}.

Definition set_world (st : State) (w : World) : State :=
  {| _negative_behavior_tracker := _negative_behavior_tracker st;
     _normal_interaction_tracker := _normal_interaction_tracker st;
     _positive_interaction_tracker := _positive_interaction_tracker st;
     _negative_interaction_tracker := _negative_interaction_tracker st;
     _daily_normal_gain_tracker := _daily_normal_gain_tracker st;
     world := w |}.

(** [new_fav = add_favorability(person_id, delta, kind)] inside a handler: the
    returned score only goes to the log. *)
Definition apply_delta (st : State) (now : Z) (pid : string) (delta : Z)
    (interaction_type : string) : State :=
  set_world st (snd (add_favorability (world st) now pid delta interaction_type)).

(** [_negative_behavior_tracker[person_id].append((current_time, tag))]
    followed by the comprehension that keeps the entries of the window. *)
Definition record_negative_behavior (st : State) (now : Z) (pid : string)
    (tag : str) (harassment_window : Z) : State :=
  let log := default [] (_negative_behavior_tracker st !! pid) ++ [(now, tag)] in
  set_negative_behavior st pid
    (List.filter (fun entry => now - fst entry <? harassment_window) log).

(** [len(_negative_behavior_tracker[person_id])]. *)
Definition recent_count (st : State) (pid : string) : Z :=
  Z.of_nat (length (default [] (_negative_behavior_tracker st !! pid))).

Definition is_empty (s : str) : bool :=
  match s with
  | [] => true
  | _ => false
  end.

(* ===================================================================== *)
(** ** FavorabilityEventHandler (plugin.py, lines 449-941) *)
(* ===================================================================== *)

Module FavorabilityEventHandler.

Definition _get_int_config (value : PyValue) (dflt : Z) : Z :=
  match value with
  | PyBool _ | PyNone => dflt
  | PyInt z => z
  | PyDict => dflt
  end.

Definition AFFECTIONATE_KEYWORDS : list str :=
[
  u "咲夜姐姐"; u "咲夜妹妹"; u "咲夜学姐"; u "咲夜学妹"; u "咲夜酱"; u "小咲夜"; u "我家咲夜";
  u "咲夜宝贝"; u "女仆长大人"; u "完美女仆长"; u "喜欢咲夜"; u "最喜欢咲夜"; u "爱咲夜"; u "好喜欢你";
  u "最喜欢你"; u "爱你哦"; u "亲亲"; u "么么哒"; u "mua"; u "比心"; u "贴贴"
].

Definition SOFTEN_NEGATIVE_KEYWORDS : list str :=
[
  u "抱歉"; u "不好意思"; u "对不起"; u "失礼"; u "冒犯了"; u "打扰了"; u "抱怨下"; u "吐槽一下";
  u "只是吐槽"
].

Definition POSITIVE_KEYWORDS : list str :=
[
  u "谢谢"; u "感谢"; u "谢谢你"; u "非常感谢"; u "太感谢了"; u "辛苦了"; u "感恩"; u "你真好";
  u "你真棒"; u "学到了"; u "受教了"; u "佩服"; u "厉害"; u "好厉害"; u "太强了"; u "真棒";
  u "棒棒哒"; u "晚安"; u "早安"; u "上午好"; u "下午好"; u "吃了吗"; u "赞"; u "好赞";
  u "666"; u "可爱"; u "萌"; u "漂亮"; u "保重身体"; u "注意休息"; u "别太累"; u "加油"
].

Definition NEGATIVE_KEYWORDS : list str :=
[
  u "傻逼"; u "智障"; u "废物"; u "垃圾"; u "去死"; u "滚"; u "闭嘴"; u "sb"; u "cnm";
  u "nmsl"; u "脑残"; u "白痴"; u "弱智"; u "nc"; u "傻子"; u "蠢货"; u "混蛋"; u "贱";
  u "婊"; u "妈的"; u "狗东西"; u "死妈"; u "你妈死了"; u "全家"; u "祖宗"; u "死全家";
  u "人渣"; u "败类"; u "畜生"; u "狗娘养"; u "杂种"; u "恶心"; u "讨厌你"; u "滚开"; u "消失";
  u "死开"; u "脑子有病"; u "有病吧"; u "神经病"; u "变态"; u "恶心死了"; u "low"; u "垃圾货";
  u "废柴"; u "没用"; u "丢人"; u "丢脸"; u "蠢死了"; u "笨死了"
].

Definition MILD_NEGATIVE_KEYWORDS : list str :=
[
  u "有点烦"; u "有点烦人"; u "烦死了"; u "无语"; u "有点无语"; u "不太行"; u "不太好"; u "不太满意";
  u "一般般"; u "就这"; u "有点尴尬"; u "不太对"; u "怪怪的"; u "emmm"; u "额..."
].

Definition SEVERE_KEYWORDS : list str :=
[
  u "傻逼"; u "去死"; u "cnm"; u "nmsl"; u "死妈"; u "死全家"; u "人渣"; u "畜生";
  u "杂种"; u "狗娘养"; u "弄死你"; u "打死你"; u "揍你"
].

Definition REASONING_BEHAVIOR_LABELS : list (string * list str) :=
  [
    ("insult",
     [u "辱骂"; u "人身攻击"; u "恶意攻击"]);
    ("harassment",
     [u "骚扰"; u "性暗示"; u "色情"; u "淫秽"; u "调戏"; u "非礼"; u "越界"]);
    ("threat",
     [u "威胁"; u "恐吓"]);
    ("rude",
     [u "不尊重"; u "下流"; u "不雅"; u "开黄腔"; u "荤段子"])
  ].

Definition REASONING_POSITIVE_LABELS : list (string * list str) :=
  [
    ("high",
     [u "信任"; u "喜欢"; u "关心"; u "鼓励"; u "支持"]);
    ("mid",
     [u "感谢"; u "夸赞"; u "称赞"; u "认可"; u "肯定"; u "表扬"]);
    ("low",
     [u "友好"])
  ].

Definition REASONING_OTHERS_TARGET : list str :=
[
  u "对他人"; u "对别人"; u "对群友"; u "对某人"; u "针对别人"; u "针对群友"; u "群友之间"; u "对他";
  u "对她"
].

Definition REASONING_HEDGE_KEYWORDS : list str :=
[
  u "可能"; u "也许"; u "似乎"; u "推测"; u "猜测"; u "不确定"; u "疑似"; u "像是"; u "感觉像";
  u "玩笑"; u "开玩笑"; u "调侃"
].

Definition NOT_TALKING_TO_ME_KEYWORDS : list str :=
[
  u "不是在和我说话"; u "不是对我说的"; u "不是说给我"; u "不是跟我说"; u "与我无关"; u "跟我无关";
  u "和我无关"; u "群友之间"; u "群友们在聊"; u "群友在讨论"; u "群友自己"; u "他们在聊"; u "他们之间";
  u "他们自己"; u "别人的对话"; u "别人在聊"; u "别人的话题"; u "没有提到我"; u "没有叫我"; u "没有@我";
  u "没有呼叫我"; u "不是针对我"; u "不需要我回复"; u "无需回复"; u "旁观"; u "围观"; u "看热闹";
  u "吃瓜"
].

Section Execute.

Context `{Host}.
Variable cfg : Config.
(** [time.time()] and [datetime.now().strftime("%Y-%m-%d")] of this event. *)
Variable current_time : Z.
Variable today : string.

Definition int_config (key : string) (dflt : Z) : Z :=
  _get_int_config (get_config cfg key (PyInt dflt)) dflt.

Definition positive_delta : Z := int_config "favorability.positive_delta" 1.
Definition affectionate_delta : Z := int_config "favorability.affectionate_delta" 3.
Definition negative_delta : Z := int_config "favorability.negative_delta" (-5).
Definition mild_negative_delta : Z := int_config "favorability.mild_negative_delta" 0.
Definition severe_delta : Z := int_config "favorability.severe_delta" (-5).
Definition harassment_delta : Z := int_config "favorability.harassment_delta" (-5).
Definition harassment_window : Z :=
  int_config "favorability.harassment_window_seconds" 300.
Definition harassment_threshold : Z := int_config "favorability.harassment_threshold" 3.
Definition positive_cooldown : Z :=
  int_config "favorability.positive_cooldown_seconds" 120.
Definition negative_cooldown : Z :=
  int_config "favorability.negative_cooldown_seconds" 120.
Definition min_positive_len : Z := int_config "favorability.min_positive_length" 4.
Definition min_normal_len : Z := int_config "favorability.min_normal_length" 6.
Definition positive_bonus_delta : Z := int_config "favorability.positive_bonus_delta" 1.
Definition reasoning_positive_delta : Z :=
  int_config "favorability.reasoning_positive_delta" 1.
Definition reasoning_positive_bonus_high : Z :=
  int_config "favorability.reasoning_positive_bonus_high" 2.
Definition reasoning_positive_bonus_mid : Z :=
  int_config "favorability.reasoning_positive_bonus_mid" 1.
Definition reasoning_positive_bonus_low : Z :=
  int_config "favorability.reasoning_positive_bonus_low" 1.
Definition normal_delta : Z := int_config "favorability.normal_delta" 1.
Definition normal_cooldown : Z :=
  int_config "favorability.normal_cooldown_seconds" 600.
Definition daily_limit : Z := int_config "favorability.daily_normal_limit" 10.

(** What [execute] has in hand once the sender and the text are known. *)
Record Event : Type := mkEvent {
  ev_person_id : string;
  content_lower : str;
  content_len_no_space : Z;
  combined_reasoning : str;
}.

(** Lines 604-677: the early returns, the removal of the quoted reply, and
    the texts the checks read.  [None] is a return before any check. *)
Definition read_event (message : option MaiMessages) : option Event :=
  match message with
  | None => None
  | Some message =>
    if negb (truthy (get_config cfg "favorability.enabled" (PyBool true))) then None
    else
      let person_id :=
        match message_base_info message with
        | Some info =>
          if negb (is_empty (platform info)) && negb (is_empty (user_id info))
          then Some (get_person_id (platform info) (user_id info))
          else None
        | None => None
        end in
      let content := plain_text message in
      match person_id with
      | None => None
      | Some pid =>
        if bool_decide (pid = "") then None
        else if is_empty content then None
        else
          let content := strip (remove_quoted_replies content) in
          if is_empty content then None
          else
            let llm_reasoning := llm_response_reasoning message in
            let planner :=
              match message_base_info message with
              | Some info => planner_reasoning info
              | None => []
              end in
            Some {| ev_person_id := pid;
                    content_lower := lower content;
                    content_len_no_space :=
                      Z.of_nat (length (remove_whitespace content));
                    combined_reasoning :=
                      lower (llm_reasoning ++ u " " ++ planner) |}
      end
  end.

(** In every check below [Some st'] is a [return] with the state [st'] and
    [None] is falling through to the next check. *)

(** Lines 679-718. *)
Definition is_not_talking_to_me (e : Event) : bool :=
  truthy (get_config cfg "favorability.skip_penalty_when_not_talking_to_me"
            (PyBool true))
  && any_in NOT_TALKING_TO_ME_KEYWORDS (combined_reasoning e).

Definition check_not_talking_to_me (e : Event) (st : State) : option State :=
  let pid := ev_person_id e in
  if is_not_talking_to_me e then
    let others_targeted := any_in REASONING_OTHERS_TARGET (combined_reasoning e) in
    let behavior_label := first_label REASONING_BEHAVIOR_LABELS (combined_reasoning e) in
    if others_targeted
       && match behavior_label with
          | Some label =>
            bool_decide (label = "insult") || bool_decide (label = "harassment")
            || bool_decide (label = "threat")
          | None => false
          end
    then
      let last_negative := default 0 (_negative_interaction_tracker st !! pid) in
      if current_time - last_negative >=? negative_cooldown then
        Some (set_negative_interaction
                (apply_delta st current_time pid negative_delta "negative")
                pid current_time)
      else Some st
    else
      let cooldown_seconds :=
        get_config cfg "favorability.interaction_cooldown_seconds" (PyInt 120) in
      let last_interaction := default 0 (_normal_interaction_tracker st !! pid) in
      match number_of cooldown_seconds with
      | Some cooldown_seconds =>
        if current_time - last_interaction >=? cooldown_seconds then
          Some (set_normal_interaction st pid current_time)
        else Some st
      | None => Some st   (* the comparison raises TypeError: nothing is written *)
      end
  else None.

(** Lines 721-785. *)
Definition reasoning_detection_enabled (e : Event) : bool :=
  negb (is_empty (strip (combined_reasoning e)))
  && truthy (get_config cfg "favorability.reasoning_detection_enabled"
               (PyBool false)).

Definition tier_bonus (positive_tier : string) : Z :=
  if bool_decide (positive_tier = "high") then reasoning_positive_bonus_high
  else if bool_decide (positive_tier = "mid") then reasoning_positive_bonus_mid
  else if bool_decide (positive_tier = "low") then reasoning_positive_bonus_low
  else reasoning_positive_bonus_mid.

Definition check_reasoning_negative (e : Event) (st : State) : option State :=
  let pid := ev_person_id e in
  let hedge_detected := any_in REASONING_HEDGE_KEYWORDS (combined_reasoning e) in
  match first_label REASONING_BEHAVIOR_LABELS (combined_reasoning e) with
  | Some behavior_label =>
    if hedge_detected then Some st
    else
      let last_negative := default 0 (_negative_interaction_tracker st !! pid) in
      if current_time - last_negative >=? negative_cooldown then
        let delta :=
          if bool_decide (behavior_label = "rude") then mild_negative_delta
          else negative_delta in
        if negb (delta =? 0) then
          Some (set_negative_interaction
                  (apply_delta st current_time pid delta "negative")
                  pid current_time)
        else Some st
      else None
  | None => None
  end.

Definition check_reasoning_positive (e : Event) (st : State) : option State :=
  let pid := ev_person_id e in
  match first_label REASONING_POSITIVE_LABELS (combined_reasoning e) with
  | Some positive_tier =>
    let last_positive := default 0 (_positive_interaction_tracker st !! pid) in
    if current_time - last_positive >=? positive_cooldown then
      let delta := reasoning_positive_delta + tier_bonus positive_tier - 1 in
      Some (set_positive_interaction
              (apply_delta st current_time pid delta "positive")
              pid current_time)
    else None
  | None => None
  end.

Definition check_reasoning (e : Event) (st : State) : option State :=
  if reasoning_detection_enabled e then
    match check_reasoning_negative e st with
    | Some st' => Some st'
    | None => check_reasoning_positive e st
    end
  else None.

(** Lines 788-820: the block run for the first severe keyword found. *)
Definition severe_hit (e : Event) (keyword : str) (st : State) : State :=
  let pid := ev_person_id e in
  let st := record_negative_behavior st current_time pid keyword harassment_window in
  let last_negative := default 0 (_negative_interaction_tracker st !! pid) in
  if recent_count st pid >=? harassment_threshold then
    set_negative_interaction
      (apply_delta st current_time pid harassment_delta "negative")
      pid current_time
  else if current_time - last_negative <? negative_cooldown then st
  else
    set_negative_interaction
      (apply_delta st current_time pid severe_delta "negative")
      pid current_time.

Definition check_severe (e : Event) (st : State) : option State :=
  match first_keyword SEVERE_KEYWORDS (content_lower e) with
  | Some keyword => Some (severe_hit e keyword st)
  | None => None
  end.

(** Lines 823-832. *)
Definition mild_negative_hit (e : Event) (st : State) : State :=
  let pid := ev_person_id e in
  let last_negative := default 0 (_negative_interaction_tracker st !! pid) in
  if current_time - last_negative <? negative_cooldown then st
  else
    set_negative_interaction
      (apply_delta st current_time pid mild_negative_delta "negative")
      pid current_time.

Definition check_mild_negative (e : Event) (st : State) : option State :=
  match first_keyword MILD_NEGATIVE_KEYWORDS (content_lower e) with
  | Some keyword => Some (mild_negative_hit e st)
  | None => None
  end.

(** The float nearest to the integer [m >= 0], as an integer: [m] itself up
    to 53 bits, and beyond that [m] rounded to a significand of 53 bits, a
    tie going to the even significand. *)
Definition round_to_float (m : Z) : Z :=
  let bits := Z.log2 m + 1 in
  if bits <=? 53 then m
  else
    let shift := bits - 53 in
    let q := Z.shiftr m shift in
    let r := Z.land m (Z.ones shift) in
    let half := Z.shiftl 1 (shift - 1) in
    let q := if (half <? r) || ((r =? half) && Z.odd q) then q + 1 else q in
    Z.shiftl q shift.

(** [int(n / 2)] for an int [n].  [/] is the true division of two ints: it
    gives the float nearest to the quotient, which is half the float nearest
    to [n], and raises [OverflowError] ([None]) when that float would be
    2^1024 or more in magnitude; [int] drops the fraction. *)
Definition int_of_half (n : Z) : option Z :=
  let m := round_to_float (Z.abs n) in
  if 2 ^ 1025 <=? m then None
  else Some (Z.sgn n * (m / 2)).

(** Lines 838-840: [negative_delta], or [min(-1, int(negative_delta / 2))]
    with a softening marker in the text. *)
Definition adjusted_negative_delta (soften_negative : bool) : option Z :=
  if soften_negative then Z.min (-1) <$> int_of_half negative_delta
  else Some negative_delta.

(** Lines 835-869.  When the halving raises, [execute] is left by the
    exception before the hit is logged and before anything is written. *)
Definition negative_hit (e : Event) (keyword : str) (st : State) : State :=
  let pid := ev_person_id e in
  let soften_negative := any_in SOFTEN_NEGATIVE_KEYWORDS (content_lower e) in
  match adjusted_negative_delta soften_negative with
  | None => st
  | Some adjusted_negative_delta =>
    let st := record_negative_behavior st current_time pid keyword harassment_window in
    let last_negative := default 0 (_negative_interaction_tracker st !! pid) in
    if recent_count st pid >=? harassment_threshold then
      set_negative_interaction
        (apply_delta st current_time pid harassment_delta "negative")
        pid current_time
    else if current_time - last_negative <? negative_cooldown then st
    else
      set_negative_interaction
        (apply_delta st current_time pid adjusted_negative_delta "negative")
        pid current_time
  end.

Definition check_negative (e : Event) (st : State) : option State :=
  match first_keyword NEGATIVE_KEYWORDS (content_lower e) with
  | Some keyword => Some (negative_hit e keyword st)
  | None => None
  end.

(** Lines 874-884. *)
Definition affectionate_hit (e : Event) (st : State) : State :=
  let pid := ev_person_id e in
  if content_len_no_space e <? min_positive_len then st
  else
    let last_positive := default 0 (_positive_interaction_tracker st !! pid) in
    if current_time - last_positive <? positive_cooldown then st
    else
      set_positive_interaction
        (apply_delta st current_time pid affectionate_delta "positive")
        pid current_time.

Definition check_affectionate (e : Event) (st : State) : option State :=
  match first_keyword AFFECTIONATE_KEYWORDS (content_lower e) with
  | Some keyword => Some (affectionate_hit e st)
  | None => None
  end.

(** Lines 887-900. *)
Definition boost_delta (e : Event) : Z :=
  if content_len_no_space e >=? min_positive_len * 3
  then positive_delta + positive_bonus_delta
  else positive_delta.

Definition positive_hit (e : Event) (st : State) : State :=
  let pid := ev_person_id e in
  if content_len_no_space e <? min_positive_len then st
  else
    let last_positive := default 0 (_positive_interaction_tracker st !! pid) in
    if current_time - last_positive <? positive_cooldown then st
    else
      set_positive_interaction
        (apply_delta st current_time pid (boost_delta e) "positive")
        pid current_time.

Definition check_positive (e : Event) (st : State) : option State :=
  match first_keyword POSITIVE_KEYWORDS (content_lower e) with
  | Some keyword => Some (positive_hit e st)
  | None => None
  end.

(** Lines 902-941.  [tracker] is the dictionary stored under the person, so
    the entry made for a new person and the reset at a new date stay in
    [_daily_normal_gain_tracker] also when the event returns at the cap. *)
Definition normal_interaction (e : Event) (st : State) : State :=
  let pid := ev_person_id e in
  if content_len_no_space e >=? min_normal_len then
    let last_interaction := default 0 (_normal_interaction_tracker st !! pid) in
    if current_time - last_interaction <? normal_cooldown then st
    else
      let tracker := default (today, 0) (_daily_normal_gain_tracker st !! pid) in
      let tracker :=
        if bool_decide (fst tracker ≠ today) then (today, 0) else tracker in
      let st := set_daily_normal_gain st pid tracker in
      if snd tracker >=? daily_limit then st
      else
        let st := set_normal_interaction st pid current_time in
        let st := set_daily_normal_gain st pid (fst tracker, snd tracker + normal_delta) in
        apply_delta st current_time pid normal_delta "neutral"
  else st.

(** The keyword checks in the order of the source, lines 788-941. *)
Definition keyword_checks (e : Event) (st : State) : State :=
  match check_severe e st with
  | Some st' => st'
  | None =>
  match check_mild_negative e st with
  | Some st' => st'
  | None =>
  match check_negative e st with
  | Some st' => st'
  | None =>
  match check_affectionate e st with
  | Some st' => st'
  | None =>
  match check_positive e st with
  | Some st' => st'
  | None => normal_interaction e st
  end end end end end.

(** All the checks, lines 679-941. *)
Definition score_event (e : Event) (st : State) : State :=
  match check_not_talking_to_me e st with
  | Some st' => st'
  | None =>
  match check_reasoning e st with
  | Some st' => st'
  | None => keyword_checks e st
  end end.

(** [FavorabilityEventHandler.execute]; every path returns the same tuple
    [(True, False, None, None, None)], so the state is the whole result. *)
Definition execute (message : option MaiMessages) (st : State) : State :=
  match read_event message with
  | Some e => score_event e st
  | None => st
  end.

End Execute.

(** The keyword tier of a lowered text: the first of the five keyword
    checks that finds one of its keywords, with that keyword. *)
Inductive Tier : Type :=
  | SevereNegative (keyword : str)
  | MildNegative (keyword : str)
  | OrdinaryNegative (keyword : str)
  | Affectionate (keyword : str)
  | Positive (keyword : str)
  | NoKeyword.

Definition keyword_tier (content_lower : str) : Tier :=
  match first_keyword SEVERE_KEYWORDS content_lower with
  | Some keyword => SevereNegative keyword
  | None =>
  match first_keyword MILD_NEGATIVE_KEYWORDS content_lower with
  | Some keyword => MildNegative keyword
  | None =>
  match first_keyword NEGATIVE_KEYWORDS content_lower with
  | Some keyword => OrdinaryNegative keyword
  | None =>
  match first_keyword AFFECTIONATE_KEYWORDS content_lower with
  | Some keyword => Affectionate keyword
  | None =>
  match first_keyword POSITIVE_KEYWORDS content_lower with
  | Some keyword => Positive keyword
  | None => NoKeyword
  end end end end end.

Definition is_positive_tier (t : Tier) : bool :=
  match t with
  | Affectionate _ | Positive _ => true
  | _ => false
  end.

Definition is_escalating_tier (t : Tier) : bool :=
  match t with
  | SevereNegative _ | OrdinaryNegative _ => true
  | _ => false
  end.

Definition is_negative_tier (t : Tier) : bool :=
  match t with
  | SevereNegative _ | MildNegative _ | OrdinaryNegative _ => true
  | _ => false
  end.

(** The block of the tier raises before anything is logged or written:
    only the halving of a softened ordinary-negative delta can. *)
Definition tier_raises (cfg : Config) (e : Event) (t : Tier) : bool :=
  match t with
  | OrdinaryNegative _ =>
    match adjusted_negative_delta cfg
            (any_in SOFTEN_NEGATIVE_KEYWORDS (content_lower e)) with
    | Some _ => false
    | None => true
    end
  | _ => false
  end.

(** The delta a tier applies by itself, escalation aside (0 where the tier
    raises and applies none). *)
Definition tier_delta (cfg : Config) (e : Event) (t : Tier) : Z :=
  match t with
  | SevereNegative _ => severe_delta cfg
  | MildNegative _ => mild_negative_delta cfg
  | OrdinaryNegative _ =>
    default 0
      (adjusted_negative_delta cfg
         (any_in SOFTEN_NEGATIVE_KEYWORDS (content_lower e)))
  | Affectionate _ => affectionate_delta cfg
  | Positive _ => boost_delta cfg e
  | NoKeyword => normal_delta cfg
  end.

(** The state once a severe or ordinary-negative hit has been entered in the
    log of the person and the log pruned to the window; the other tiers keep
    no log. *)
Definition logged_state (cfg : Config) (current_time : Z) (e : Event) (t : Tier)
    (st : State) : State :=
  match t with
  | SevereNegative keyword | OrdinaryNegative keyword =>
    record_negative_behavior st current_time (ev_person_id e) keyword
      (harassment_window cfg)
  | _ => st
  end.

(** The hit is escalated: its tier keeps a log and the pruned log, this hit
    included, holds [harassment_threshold] entries or more. *)
Definition escalates (cfg : Config) (current_time : Z) (e : Event) (t : Tier)
    (st : State) : bool :=
  is_escalating_tier t
  && (recent_count (logged_state cfg current_time e t st) (ev_person_id e)
      >=? harassment_threshold cfg).

(** The event is not stopped before the keyword checks: the reasoning does
    not say the message is for someone else, and the reasoning-based
    detection falls through. *)
Definition reaches_keyword_checks (cfg : Config) (current_time : Z)
    (e : Event) (st : State) : Prop :=
  is_not_talking_to_me cfg e = false ∧ check_reasoning cfg current_time e st = None.

(** [_tracker.get(person_id, 0)] for the two cooldown dictionaries and the
    normal-interaction one. *)
Definition last_positive (st : State) (pid : string) : Z :=
  default 0 (_positive_interaction_tracker st !! pid).

Definition last_negative (st : State) (pid : string) : Z :=
  default 0 (_negative_interaction_tracker st !! pid).

Definition last_interaction (st : State) (pid : string) : Z :=
  default 0 (_normal_interaction_tracker st !! pid).

End FavorabilityEventHandler.

(* ===================================================================== *)
(** ** UserSentimentEventHandler (plugin.py, lines 944-1029) *)
(* ===================================================================== *)

Module UserSentimentEventHandler.

Section Execute.

Context `{Host}.
Variable cfg : Config.
Variable current_time : Z.

Definition int_config (key : string) (dflt : Z) : Z :=
  FavorabilityEventHandler._get_int_config (get_config cfg key (PyInt dflt)) dflt.

Definition severe_delta : Z := int_config "favorability.severe_delta" (-15).
Definition harassment_delta : Z := int_config "favorability.harassment_delta" (-25).
Definition harassment_window : Z :=
  int_config "favorability.harassment_window_seconds" 300.
Definition harassment_threshold : Z := int_config "favorability.harassment_threshold" 3.

(** Lines 952-985: the sender and the lowered text, or an early return. *)
Definition read_message (message : option MaiMessages) : option (string * str) :=
  match message with
  | None => None
  | Some message =>
    if negb (truthy (get_config cfg "favorability.enabled" (PyBool true))) then None
    else
      let content := plain_text message in
      if is_empty content then None
      else
        let content := strip (remove_quoted_replies content) in
        if is_empty content then None
        else
          let content_lower := lower content in
          match message_info message with
          | None => None
          | Some message_info =>
            match user_info message_info with
            | Some user_info =>
              if is_empty (mi_platform message_info) then None
              else
                Some (get_person_id (mi_platform message_info) (ui_user_id user_info),
                      content_lower)
            | None => None
            end
          end
  end.

(** Lines 1005-1029: no cooldown is read or written here. *)
Definition check_severe (pid : string) (content_lower : str) (st : State) : State :=
  match first_keyword FavorabilityEventHandler.SEVERE_KEYWORDS content_lower with
  | Some keyword =>
    let st :=
      record_negative_behavior st current_time pid (u "user_input:" ++ keyword)
        harassment_window in
    if recent_count st pid >=? harassment_threshold then
      apply_delta st current_time pid harassment_delta "negative"
    else
      apply_delta st current_time pid severe_delta "negative"
  | None => st
  end.

Definition execute (message : option MaiMessages) (st : State) : State :=
  match read_message message with
  | Some (pid, content_lower) => check_severe pid content_lower st
  | None => st
  end.

End Execute.

End UserSentimentEventHandler.

(* ===================================================================== *)
(** ** A host and a first state to run the handlers on *)
(* ===================================================================== *)

(** Person ids are ["platform:user_id"] and [lower] is the ASCII case
    mapping, which is [str.lower] on the texts used below. *)
Definition string_of_str (s : str) : string :=
  string_of_list_ascii (map ascii_of_N s).

Definition plain_host : Host :=
  {| lower := ascii_lower;
     get_person_id := fun platform user_id =>
       (string_of_str platform ++ ":" ++ string_of_str user_id)%string |}.

Definition healthy_world : World :=
  {| table := ∅; read_raises := false; write_raises := false; error_log := [] |}.

Definition initial_state : State :=
  {| _negative_behavior_tracker := ∅;
     _normal_interaction_tracker := ∅;
     _positive_interaction_tracker := ∅;
     _negative_interaction_tracker := ∅;
     _daily_normal_gain_tracker := ∅;
     world := healthy_world |}.

(** A message of user [user_id] on platform ["qq"], seen by both handlers. *)
Definition message_from (user : string) (text reasoning : string) : MaiMessages :=
  {| message_base_info :=
       Some {| platform := u "qq"; user_id := u user; planner_reasoning := u reasoning |};
     plain_text := u text;
     llm_response_reasoning := [];
     message_info :=
       Some {| user_info := Some {| ui_user_id := u user |}; mi_platform := u "qq" |} |}.

(** The score stored for a person, if any. *)
Definition stored_score (st : State) (pid : string) : option Z :=
  favorability <$> (table (world st) !! pid).

Definition stored_level (st : State) (pid : string) : option string :=
  level <$> (table (world st) !! pid).

(** The score the engine reads for a person: the stored one, or the default
    50 when the person has no row. *)
Definition current_score (w : World) (pid : string) : Z :=
  match table w !! pid with
  | Some record => favorability record
  | None => 50
  end.

(** Every stored score lies in the range of the engine. *)
Definition scores_in_range (t : gmap string Favorability) : Prop :=
  ∀ pid record, t !! pid = Some record → -50 ≤ favorability record ≤ 150.

(** Every stored label is the engine's band of the stored score. *)
Definition bands_consistent (t : gmap string Favorability) : Prop :=
  ∀ pid record, t !! pid = Some record →
    level record = get_favorability_level (favorability record).

(** The configuration in which only the reasoning-based detection is turned
    on; every other key has the default written in the handler. *)
Definition reasoning_enabled_config : Config :=
  <["favorability.reasoning_detection_enabled" := PyBool true]> ∅.

(** The same with a harassment penalty that can be told from the ordinary
    one. *)
Definition harsh_config : Config :=
  <["favorability.harassment_delta" := PyInt (-25)]> ∅.

Definition event_of (pid : string) (text reasoning : string) (len : Z)
  : FavorabilityEventHandler.Event :=
  {| FavorabilityEventHandler.ev_person_id := pid;
     FavorabilityEventHandler.content_lower := u text;
     FavorabilityEventHandler.content_len_no_space := len;
     FavorabilityEventHandler.combined_reasoning := u reasoning |}.

(** The first state with a daily counter already stored for user 42. *)
Definition state_with_daily_gain (date : string) (count : Z) : State :=
  set_daily_normal_gain initial_state "qq:42" (date, count).

(** A score of 10 already stored for user 42. *)
Definition state_with_score_10 : State :=
  set_world initial_state
    (with_table healthy_world
       {["qq:42" := {| favorability := 10;
                       level := "陌生";
                       total_interactions := 3;
                       positive_interactions := 0;
                       negative_interactions := 3;
                       last_interaction := 990000;
                       created_at := 980000 |}]}).

(** User 42 sends the same text at each of the given times and the
    post-response handler sees every message. *)
Definition run_hits (cfg : Config) (text : string) (times : list Z) (st : State)
  : State :=
  fold_left
    (fun st t =>
       @FavorabilityEventHandler.execute plain_host cfg t "2026-01-01"
         (Some (message_from "42" text "")) st)
    times st.

(** A store that holds a row for alice and raises on a write, and one that
    raises on a read. *)
Definition alice_row : Favorability :=
  {| favorability := 70;
     level := "好友";
     total_interactions := 12;
     positive_interactions := 9;
     negative_interactions := 1;
     last_interaction := 999000;
     created_at := 990000 |}.

Definition write_failing_world : World :=
  {| table := {["alice" := alice_row]};
     read_raises := false; write_raises := true; error_log := [] |}.

Definition read_failing_world : World :=
  {| table := {["alice" := alice_row]};
     read_raises := true; write_raises := false; error_log := [] |}.

(* ===================================================================== *)
(** ** What one event may do to the state *)
(* ===================================================================== *)

(** The store after an event: as before, or after one call of
    [add_favorability] for the person [pid]. *)
Definition at_most_one_delta (now : Z) (pid : string) (w w' : World) : Prop :=
  w' = w ∨ ∃ delta interaction_type,
             w' = snd (add_favorability w now pid delta interaction_type).

(** Everything kept for a person other than [pid] is the same in [st] and
    [st']: the row and the entries of the five dictionaries. *)
Definition others_untouched (pid : string) (st st' : State) : Prop :=
  ∀ other, other ≠ pid →
    table (world st') !! other = table (world st) !! other
    ∧ _negative_behavior_tracker st' !! other = _negative_behavior_tracker st !! other
    ∧ _normal_interaction_tracker st' !! other = _normal_interaction_tracker st !! other
    ∧ _positive_interaction_tracker st' !! other
      = _positive_interaction_tracker st !! other
    ∧ _negative_interaction_tracker st' !! other
      = _negative_interaction_tracker st !! other
    ∧ _daily_normal_gain_tracker st' !! other = _daily_normal_gain_tracker st !! other.

(** What can happen to the state of the engine, one step at a time: the two
    handlers see a message, [set_favorability] is called, or the store
    starts or stops raising. *)
Inductive Action : Type :=
  | AfterLLM (cfg : Config) (now : Z) (today : string) (message : option MaiMessages)
  | OnMessage (cfg : Config) (now : Z) (message : option MaiMessages)
  | SetFavorability (now : Z) (pid : string) (value : Z)
  | StoreHealth (read_raises write_raises : bool).

Definition act `{Host} (st : State) (a : Action) : State :=
  match a with
  | AfterLLM cfg now today message =>
    FavorabilityEventHandler.execute cfg now today message st
  | OnMessage cfg now message =>
    UserSentimentEventHandler.execute cfg now message st
  | SetFavorability now pid value =>
    set_world st (snd (set_favorability (world st) now pid value))
  | StoreHealth r w =>
    set_world st {| table := table (world st); read_raises := r;
                    write_raises := w; error_log := error_log (world st) |}
  end.

Definition run `{Host} (actions : list Action) (st : State) : State :=
  fold_left act actions st.

(** The message with another text. *)
Definition with_plain_text (message : MaiMessages) (text : str) : MaiMessages :=
  {| message_base_info := message_base_info message;
     plain_text := text;
     llm_response_reasoning := llm_response_reasoning message;
     message_info := message_info message |}.

(** The configuration that switches the plugin off. *)
Definition disabled_config : Config :=
  <["favorability.enabled" := PyBool false]> ∅.

(** Lines 692-698: the reasoning names someone else as the target and gives
    one of the labels insult, harassment or threat. *)
Definition abuse_of_others (e : FavorabilityEventHandler.Event) : bool :=
  any_in FavorabilityEventHandler.REASONING_OTHERS_TARGET
    (FavorabilityEventHandler.combined_reasoning e)
  && match first_label FavorabilityEventHandler.REASONING_BEHAVIOR_LABELS
             (FavorabilityEventHandler.combined_reasoning e) with
     | Some label =>
       bool_decide (label = "insult") || bool_decide (label = "harassment")
       || bool_decide (label = "threat")
     | None => false
     end.

(** The delta of a behaviour label found in the reasoning (lines 744-747). *)
Definition behavior_delta (cfg : Config) (behavior_label : string) : Z :=
  if bool_decide (behavior_label = "rude")
  then FavorabilityEventHandler.mild_negative_delta cfg
  else FavorabilityEventHandler.negative_delta cfg.

(** The daily counters stay below the cap plus one gain. *)
Definition daily_gain_bounded (cfg : Config) (st : State) : Prop :=
  ∀ pid date count,
    _daily_normal_gain_tracker st !! pid = Some (date, count) →
    count ≤ FavorabilityEventHandler.daily_limit cfg
            + FavorabilityEventHandler.normal_delta cfg - 1.

(** The counters of every row make sense: none is negative and the positive
    and negative interactions are among the interactions counted in total. *)
Definition counters_consistent (t : gmap string Favorability) : Prop :=
  ∀ pid record, t !! pid = Some record →
    0 ≤ positive_interactions record
    ∧ 0 ≤ negative_interactions record
    ∧ positive_interactions record + negative_interactions record
      ≤ total_interactions record.

(** A later state of the same row: made at the same time, and no counter
    lower than before. *)
Definition row_evolves (old new : Favorability) : Prop :=
  created_at new = created_at old
  ∧ total_interactions old ≤ total_interactions new
  ∧ positive_interactions old ≤ positive_interactions new
  ∧ negative_interactions old ≤ negative_interactions new.

(** Every row of [t] is still in [t'], evolved. *)
Definition table_evolves (t t' : gmap string Favorability) : Prop :=
  ∀ pid old, t !! pid = Some old → ∃ new, t' !! pid = Some new ∧ row_evolves old new.

(** The row of [state_with_score_10]. *)
Definition row_at_10 : Favorability :=
  {| favorability := 10;
     level := "陌生";
     total_interactions := 3;
     positive_interactions := 0;
     negative_interactions := 3;
     last_interaction := 990000;
     created_at := 980000 |}.

(** The store after the script has been asked to set alice to 130 at time 5. *)
Definition world_after_manager_130 : World :=
  with_table healthy_world
    {["alice" := {| favorability := 130;
                    level := "挚友";
                    total_interactions := 0;
                    positive_interactions := 0;
                    negative_interactions := 0;
                    last_interaction := 5;
                    created_at := 5 |}]}.

(* ===================================================================== *)
(** ** Names, prompts and statistics (plugin.py, lines 150-301) *)
(* ===================================================================== *)

(** A row of the [PersonInfo] table; a column that is [None] and one that is
    empty are read alike by [or]. *)
Record PersonInfo : Type := mkPersonInfo {
  nickname : str;
  person_name : str;
}.

(** The [PersonInfo] table by [person_id], and whether reading it raises. *)
Record People : Type := mkPeople {
  persons : gmap string PersonInfo;
  persons_raise : bool;
}.

(** [str(n)] for an int and the line feed. *)
Definition str_of_Z (n : Z) : str := u (NilZero.string_of_int (Z.to_int n)).
Definition nl : str := [10%N].

(** [a or b] on two texts. *)
Definition or_else (a b : str) : str := if is_empty a then b else a.

(** [get_person_name_by_id]: [person_id[:4]] is the first four code points. *)
Definition get_person_name_by_id (people : People) (pid : string) : str :=
  let fallback := u "用户" ++ take 4 (u pid) in
  if persons_raise people then fallback
  else
    match persons people !! pid with
    | Some person => or_else (nickname person) (or_else (person_name person) fallback)
    | None => fallback
    end.

(** What follows the name in each entry of [prompts]. *)
Definition relationship_prompts : list (string * str) :=
  [ ("至亲",
     u "是你最信任的人之一，你会主动关心ta的近况，语气温柔亲昵，但仍保持女仆长的优雅与体贴。");
    ("挚友",
     u "是你很重要的朋友，你会放松语气，带一点小俏皮与亲近，会主动照顾ta。");
    ("好友",
     u "是你的朋友，你乐于聊天与帮忙，语气轻松自然，偶尔温柔调侃。");
    ("熟人",
     u "是你认识的对象，语气礼貌得体，愿意帮忙但保持分寸。");
    ("认识",
     u "只是认识，态度克制，少闲聊，必要时简洁回应。");
    ("陌生",
     u "你不太了解，保持礼貌但谨慎，请ta先说明情况再回应。");
    ("厌恶",
     u "让你不舒服，你会明确设边界、拒绝不当请求，但避免人身攻击。");
    ("敌视",
     u "让你很反感，你会冷静拒绝互动，语气疏离但不失礼。");
    ("死敌",
     u "是你不想回应的对象，可选择不回复；若必须回复，保持简短并要求停止打扰。") ].

(** [d.get(key, "")] on a dict from labels to texts. *)
Definition dict_get (d : list (string * str)) (key : string) : option str :=
  snd <$> List.find (fun kv => bool_decide (fst kv = key)) d.

Definition get_relationship_prompt (w : World) (people : People) (pid : string)
  : str * World :=
  let '(fav, w) := get_favorability w pid in
  let level := get_favorability_level fav in
  let person_name := get_person_name_by_id people pid in
  (match dict_get relationship_prompts level with
   | Some rest => person_name ++ rest
   | None => []
   end, w).

(** Lines 195-212. *)
Definition tone_rule (fav : Z) : str :=
  if fav >=? 120 then
    u "至亲无间：语气极度亲昵温柔，允许撒娇与小俏皮，但仍保持优雅体贴。会主动关心对方的状态与需求。"
  else if fav >=? 90 then
    u "亲密挚友：语气温柔亲近，会主动照顾、轻声关心，偶尔害羞的小可爱。"
  else if fav >=? 70 then
    u "友好亲切：语气轻松自然，愿意主动帮忙与记住细节，带一点温柔的玩笑。"
  else if fav >=? 50 then
    u "熟悉有礼：保持礼貌与分寸，语气温和，偏解决问题但不疏离。"
  else if fav >=? 30 then
    u "初识克制：态度谨慎但不冷漠，保持礼貌，先了解情况再回应。"
  else if fav >=? 10 then
    u "略显距离：语气简洁克制，避免深入闲聊，但不失礼。"
  else if fav >=? -10 then
    u "不太愉快：明确设边界，拒绝不当请求，语气冷静但不攻击。"
  else if fav >=? -30 then
    u "强烈反感：保持距离并减少互动，必要时冷静拒绝。"
  else
    u "极度反感：可选择不回应；若回应，保持简短并要求停止打扰。".

Definition positive_hints : list str :=
  [ u "谢谢"; u "感谢"; u "辛苦了"; u "抱歉"; u "对不起"; u "麻烦你"; u "请";
    u "拜托"; u "理解你"; u "慢慢来"; u "不急"; u "你真好" ].

(** Lines 230-239. *)
Definition soften_rule (fav : Z) (last_lower : str) : str :=
  let softened := any_in positive_hints last_lower && (fav >=? 30) in
  if fav <? 10 then
    u "对方的善意不会明显改变你的态度，你会保持边界与克制。"
  else if fav <? 30 then
    u "对方的善意可能让你稍微缓和，但仍保持谨慎与分寸。"
  else if softened then
    u "对方刚表现出善意/耐心：本次回复应明显软化，露出害羞或开心的小反差。"
  else
    u "如果对方持续表现出善意与耐心，可逐步软化，增加温柔与亲近感。".

(** The text returned at lines 245-252. *)
Definition role_feedback_text (person_name : str) (level : string) (fav : Z)
    (last_lower relationship_hint : str) : str :=
  u "[关系与语气调节（好感度系统）]" ++ nl
  ++ u "你当前对 " ++ person_name ++ u " 的关系：" ++ u level
  ++ u " (好感度: " ++ str_of_Z fav ++ u ")。" ++ nl
  ++ u "语气策略：" ++ tone_rule fav ++ nl
  ++ u "软化规则：" ++ soften_rule fav last_lower ++ nl
  ++ u "注意：如果用户询问好感度，请直接告诉他真实的数值和等级，不要隐瞒。" ++ nl
  ++ (if is_empty relationship_hint then []
      else u "补充关系描述：" ++ relationship_hint ++ nl).

Definition get_favorability_role_feedback_prompt `{Host} (w : World)
    (people : People) (pid : string) (last_user_text : str) : str * World :=
  let '(fav, w) := get_favorability w pid in
  let level := get_favorability_level fav in
  let person_name := get_person_name_by_id people pid in
  let last_lower := lower last_user_text in
  let '(relationship_hint, w) := get_relationship_prompt w people pid in
  (role_feedback_text person_name level fav last_lower relationship_hint, w).

(** Lines 255-273. *)
Definition _favorability_tone_band (fav : Z) : str :=
  if fav >=? 120 then u "120-150(至亲)：完全信任，宠溺撒娇"
  else if fav >=? 90 then u "90-119(挚友)：亲昵撒娇，依赖温柔"
  else if fav >=? 70 then u "70-89(好友)：友好微傲娇，轻松愉快"
  else if fav >=? 50 then u "50-69(熟人)：标准傲娇，保持距离"
  else if fav >=? 30 then u "30-49(认识)：冷淡疏离，敷衍应对"
  else if fav >=? 10 then u "10-29(陌生)：厌烦讽刺，不耐烦"
  else if fav >=? -10 then u "-10-9(厌恶)：反感攻击，直接表达不满"
  else if fav >=? -30 then u "-30--11(敌视)：敌对态度，主动挖苦攻击"
  else u "-50--31(死敌)：彻底拉黑，无视或极度恶劣".

(** The part of the result of [get_all_favorability_stats] that is counted
    in integers; ["average_favorability"] is
    [round(total_fav / total_users, 1)] on floats (0 without users) and is
    kept here as the sum [total_fav] it is computed from. *)
Record Stats : Type := mkStats {
  total_users : Z;
  level_distribution : gmap string Z;
  total_fav : Z;
}.

Definition empty_stats : Stats :=
  {| total_users := 0;
     level_distribution :=
       list_to_map
         [ ("至亲", 0); ("挚友", 0); ("好友", 0); ("熟人", 0); ("认识", 0);
           ("陌生", 0); ("厌恶", 0); ("敌视", 0); ("死敌", 0) ];
     total_fav := 0 |}.

(** The body of [for record in records]. *)
Definition count_record (stats : Stats) (record : Favorability) : Stats :=
  {| total_users := total_users stats + 1;
     level_distribution :=
       <[level record := default 0 (level_distribution stats !! level record) + 1]>
         (level_distribution stats);
     total_fav := total_fav stats + favorability record |}.

(** [get_all_favorability_stats]: [None] is the empty dict returned when the
    store raises. *)
Definition get_all_favorability_stats (w : World) : option Stats * World :=
  if read_raises w then (None, logger_error w "获取好感度统计失败")
  else (Some (fold_left count_record (snd <$> map_to_list (table w)) empty_stats), w).

(** The sum of the counts of a distribution. *)
Definition distribution_total (d : gmap string Z) : Z :=
  map_fold (fun _ count acc => count + acc) 0 d.

(** The same store with the label stored for [pid], if any, replaced. *)
Definition relabel (w : World) (pid : string) (label : string) : World :=
  with_table w
    (alter (fun record =>
              {| favorability := favorability record;
                 level := label;
                 total_interactions := total_interactions record;
                 positive_interactions := positive_interactions record;
                 negative_interactions := negative_interactions record;
                 last_interaction := last_interaction record;
                 created_at := created_at record |})
       pid (table w)).

(** The rows of the table, as [Favorability.select()] yields them. *)
Definition select_rows (w : World) : list Favorability := snd <$> map_to_list (table w).

Definition no_people : People := {| persons := ∅; persons_raise := false |}.

(* ===================================================================== *)
(** ** The prompt injector and the query command
       (plugin.py, lines 374-428 and 1032-1081) *)
(* ===================================================================== *)

(** The message the injector is given: the message of the handlers above
    together with its [llm_prompt]. *)
Record PromptMessage : Type := mkPromptMessage {
  pm_message : MaiMessages;
  llm_prompt : str;
}.

Module FavorabilityPromptInjectorHandler.

(** [execute]: the message with its prompt changed by [modify_llm_prompt], or
    [None] where the handler returns no message; the first two components of
    the tuple are [True] on every path. *)
Definition execute `{Host} (cfg : Config) (w : World) (people : People)
    (message : option PromptMessage) : option PromptMessage * World :=
  match message with
  | None => (None, w)
  | Some message =>
    if negb (truthy (get_config cfg "favorability.enabled" (PyBool true)))
    then (None, w)
    else if negb (truthy (get_config cfg "favorability.inject_prompt_enabled"
                            (PyBool true)))
    then (None, w)
    else if is_empty (llm_prompt message) then (None, w)
    else
      let platform :=
        match message_base_info (pm_message message) with
        | Some info => platform info
        | None => []
        end in
      let user_id :=
        match message_base_info (pm_message message) with
        | Some info => user_id info
        | None => []
        end in
      if is_empty platform || is_empty user_id then (None, w)
      else
        let person_id := get_person_id platform user_id in
        let '(fav, w) := get_favorability w person_id in
        let '(inject_block, w) :=
          get_favorability_role_feedback_prompt w people person_id
            (plain_text (pm_message message)) in
        let new_prompt := strip (llm_prompt message ++ nl ++ nl ++ inject_block) in
        (Some {| pm_message := pm_message message; llm_prompt := new_prompt |}, w)
  end.

End FavorabilityPromptInjectorHandler.

(** [self.message.message_info.user_info] as the command reads it. *)
Record CommandSender : Type := mkCommandSender {
  cs_user_id : str;
  cs_user_nickname : str;
  cs_user_cardname : str;
}.

(** What the command sends with [send_text] and the tuple it returns:
    [(True, result_text, intercept_level)]. *)
Record CommandReply : Type := mkCommandReply {
  sent_text : str;
  result_text : str;
  intercept_level : Z;
}.

Module FavorabilityCommand.

Definition level_emoji : list (string * str) :=
  [ ("挚友", u "💕"); ("好友", u "😊"); ("熟人", u "🙂");
    ("认识", u "👋"); ("陌生", u "🤔"); ("厌恶", u "😒") ].

(** The message built at lines 1065-1077. *)
Definition reply_text (person_name : str) (level : string) (fav : Z)
    (record : option Favorability) : str :=
  let emoji := default [] (dict_get level_emoji level) in
  let msg :=
    u "📋 " ++ person_name ++ u " 的好感度信息" ++ nl
    ++ emoji ++ u " 关系等级：" ++ u level ++ nl
    ++ u "📊 好感度：" ++ str_of_Z fav ++ u "/150" ++ nl in
  match record with
  | Some record =>
    msg ++ u "💬 互动次数：" ++ str_of_Z (total_interactions record) ++ nl
    ++ u "✨ 正面：" ++ str_of_Z (positive_interactions record)
    ++ u " | 负面：" ++ str_of_Z (negative_interactions record)
  | None => msg
  end.

Definition execute `{Host} (w : World) (people : People)
    (user_info : option CommandSender) (platform : str) : CommandReply * World :=
  match user_info with
  | Some user_info =>
    if is_empty platform then
      ({| sent_text := u "无法获取你的信息哦~";
          result_text := u "无法获取用户信息";
          intercept_level := 2 |}, w)
    else
      let person_id := get_person_id platform (cs_user_id user_info) in
      let '(fav, w) := get_favorability w person_id in
      let level := get_favorability_level fav in
      let '(record, w) := get_favorability_record w person_id in
      let person_name :=
        or_else (cs_user_nickname user_info)
          (or_else (cs_user_cardname user_info)
             (get_person_name_by_id people person_id)) in
      ({| sent_text := reply_text person_name level fav record;
          result_text := u "查询好感度: " ++ str_of_Z fav;
          intercept_level := 2 |}, w)
  | None =>
    ({| sent_text := u "无法获取你的信息哦~";
        result_text := u "无法获取用户信息";
        intercept_level := 2 |}, w)
  end.

End FavorabilityCommand.

(** A message about to be answered with the prompt [prompt], and a sender of
    the query command. *)
Definition with_prompt (message : MaiMessages) (prompt : string) : PromptMessage :=
  {| pm_message := message; llm_prompt := u prompt |}.

Definition sender_42 : CommandSender :=
  {| cs_user_id := u "42"; cs_user_nickname := u "bob"; cs_user_cardname := [] |}.

(* ===================================================================== *)
(** * Properties *)
(* ===================================================================== *)

(** ** The band classifier *)

Lemma clamp_score_range (value : Z) : -50 ≤ clamp_score value ≤ 150.
Proof. unfold clamp_score. lia. Qed.

Lemma clamp_score_id (value : Z) :
  -50 ≤ value ≤ 150 → clamp_score value = value.
Proof. unfold clamp_score. lia. Qed.

(** The classifier written as a choice of band, read off the comparisons. *)
Lemma get_favorability_level_cases (s : Z) :
  (120 ≤ s ∧ get_favorability_level s = band_label kin)
  ∨ (90 ≤ s ≤ 119 ∧ get_favorability_level s = band_label bestfriend)
  ∨ (70 ≤ s ≤ 89 ∧ get_favorability_level s = band_label friend)
  ∨ (50 ≤ s ≤ 69 ∧ get_favorability_level s = band_label acquaintance)
  ∨ (30 ≤ s ≤ 49 ∧ get_favorability_level s = band_label known)
  ∨ (10 ≤ s ≤ 29 ∧ get_favorability_level s = band_label stranger)
  ∨ (-10 ≤ s ≤ 9 ∧ get_favorability_level s = band_label disliked)
  ∨ (-30 ≤ s ≤ -11 ∧ get_favorability_level s = band_label hostile)
  ∨ (s ≤ -31 ∧ get_favorability_level s = band_label nemesis).
Proof.
  unfold get_favorability_level.
  repeat (match goal with
          | |- context [?a >=? ?b] =>
            let E := fresh "E" in destruct (Z.geb_spec a b) as [E | E]
          end);
    cbn [band_label]; try lia;
    repeat (first [ left; split; [lia | reflexivity] | right ]);
    split; [lia | reflexivity].
Qed.

Lemma label_rank_band_label (b : Band) : label_rank (band_label b) = Some (band_rank b).
Proof. destruct b; vm_compute; reflexivity. Qed.

Lemma spec_band_cases (s : Z) (b : Band) (lo hi : Z) :
  In (lo, hi, b) spec_band_table → lo ≤ s ≤ hi → spec_band s = Some b.
Proof.
  intros Hin Hs. unfold spec_band, spec_band_table in *.
  cbn [In] in Hin.
  repeat (destruct Hin as [Hin | Hin];
          [ injection Hin as <- <- <-;
            cbn [List.find fst snd];
            repeat (match goal with
                    | |- context [(?a <=? ?b) && (?c <=? ?d)] =>
                      destruct (Z.leb_spec a b); destruct (Z.leb_spec c d);
                      cbn [andb]; try lia
                    end); reflexivity
          | ]).
  destruct Hin.
Qed.

(** C2.  The band classifier is a total function of the score alone; on
    [-50,150] it is the nine-range table of section 4.1 (each range with both
    ends included: 120 is in the kin band and 119 in the bestfriend band), and
    a larger score never has a lower band. *)
Theorem band_classifier_is_the_step_function :
  (∀ s : Z, -50 ≤ s ≤ 150 →
     ∃ b, spec_band s = Some b ∧ get_favorability_level s = band_label b)
  ∧ (∀ s : Z, ∃ b, get_favorability_level s = band_label b)
  ∧ get_favorability_level 120 = band_label kin
  ∧ get_favorability_level 119 = band_label bestfriend
  ∧ (∀ s1 s2 : Z, s1 ≤ s2 →
       ∃ r1 r2, label_rank (get_favorability_level s1) = Some r1
                ∧ label_rank (get_favorability_level s2) = Some r2
                ∧ (r1 ≤ r2)%nat).
Proof.
  split; [| split; [| split; [| split]]].
  - intros s Hs.
    destruct (get_favorability_level_cases s)
      as [[H ->]|[[H ->]|[[H ->]|[[H ->]|[[H ->]|[[H ->]|[[H ->]|[[H ->]|[H ->]]]]]]]]];
      eexists; (split; [| reflexivity]).
    + apply (spec_band_cases s kin 120 150); [cbn; tauto | lia].
    + apply (spec_band_cases s bestfriend 90 119); [cbn; tauto | lia].
    + apply (spec_band_cases s friend 70 89); [cbn; tauto | lia].
    + apply (spec_band_cases s acquaintance 50 69); [cbn; tauto | lia].
    + apply (spec_band_cases s known 30 49); [cbn; tauto | lia].
    + apply (spec_band_cases s stranger 10 29); [cbn; tauto | lia].
    + apply (spec_band_cases s disliked (-10) 9); [cbn; tauto | lia].
    + apply (spec_band_cases s hostile (-30) (-11)); [cbn; tauto | lia].
    + apply (spec_band_cases s nemesis (-50) (-31)); [cbn; tauto | lia].
  - intros s.
    destruct (get_favorability_level_cases s)
      as [[H ->]|[[H ->]|[[H ->]|[[H ->]|[[H ->]|[[H ->]|[[H ->]|[[H ->]|[H ->]]]]]]]]];
      eexists; reflexivity.
  - reflexivity.
  - reflexivity.
  - intros s1 s2 Hle.
    destruct (get_favorability_level_cases s1)
      as [[H1 ->]|[[H1 ->]|[[H1 ->]|[[H1 ->]|[[H1 ->]|[[H1 ->]|[[H1 ->]|[[H1 ->]|[H1 ->]]]]]]]]];
    destruct (get_favorability_level_cases s2)
      as [[H2 ->]|[[H2 ->]|[[H2 ->]|[[H2 ->]|[[H2 ->]|[[H2 ->]|[[H2 ->]|[[H2 ->]|[H2 ->]]]]]]]]];
      try lia;
      rewrite !label_rank_band_label; do 2 eexists;
      (split; [reflexivity | split; [reflexivity | cbn; lia]]).
Qed.

(** ** The store operations *)

(** What [add_favorability] writes for a person when the store answers. *)
Lemma add_favorability_healthy (w : World) (now : Z) (pid : string) (delta : Z)
    (itype : string) :
  read_raises w = false → write_raises w = false →
  ∃ record,
    add_favorability w now pid delta itype
    = (clamp_score (current_score w pid + delta),
       with_table w (<[pid := record]> (table w)))
    ∧ favorability record = clamp_score (current_score w pid + delta)
    ∧ level record = get_favorability_level (favorability record)
    ∧ total_interactions record
      = match table w !! pid with
        | Some old => total_interactions old + 1
        | None => 1
        end.
Proof.
  intros Hr Hw.
  unfold add_favorability, get_or_none, save, create, current_score.
  rewrite Hr. cbn [mbind result_bind].
  destruct (table w !! pid) as [old |]; rewrite Hw; cbn [mbind result_bind];
    eexists; (split; [reflexivity |]); cbn; auto.
Qed.

(** A call during which the store raises returns 50, writes nothing and
    reports the failure. *)
Lemma add_favorability_faulty (w : World) (now : Z) (pid : string) (delta : Z)
    (itype : string) :
  read_raises w = true ∨ write_raises w = true →
  add_favorability w now pid delta itype = (50, logger_error w "更新好感度失败").
Proof.
  intros Hfault.
  unfold add_favorability, get_or_none, save, create.
  destruct (read_raises w) eqn:Hr; [reflexivity |].
  destruct Hfault as [Hf | Hf]; [discriminate |].
  cbn [mbind result_bind].
  destruct (table w !! pid); rewrite Hf; reflexivity.
Qed.

Lemma set_favorability_healthy (w : World) (now : Z) (pid : string) (value : Z) :
  read_raises w = false → write_raises w = false →
  ∃ record,
    set_favorability w now pid value
    = (true, with_table w (<[pid := record]> (table w)))
    ∧ favorability record = clamp_score value
    ∧ level record = get_favorability_level (favorability record).
Proof.
  intros Hr Hw.
  unfold set_favorability, get_or_none, save, create.
  rewrite Hr. cbn [mbind result_bind].
  destruct (table w !! pid) as [old |]; rewrite Hw;
    eexists; (split; [reflexivity |]); cbn; auto.
Qed.

Lemma set_favorability_faulty (w : World) (now : Z) (pid : string) (value : Z) :
  read_raises w = true ∨ write_raises w = true →
  set_favorability w now pid value = (false, logger_error w "设置好感度失败").
Proof.
  intros Hfault.
  unfold set_favorability, get_or_none, save, create.
  destruct (read_raises w) eqn:Hr; [reflexivity |].
  destruct Hfault as [Hf | Hf]; [discriminate |].
  cbn [mbind result_bind].
  destruct (table w !! pid); rewrite Hf; reflexivity.
Qed.

Lemma bool_cases (b c : bool) :
  (b = false ∧ c = false) ∨ (b = true ∨ c = true).
Proof. destruct b, c; auto. Qed.

(** Whatever the store does, [add_favorability] leaves every other person's
    row alone. *)
Lemma add_favorability_other (w : World) (now : Z) (pid other : string) (delta : Z)
    (itype : string) :
  pid ≠ other →
  table (snd (add_favorability w now pid delta itype)) !! other = table w !! other.
Proof.
  intros Hne.
  destruct (bool_cases (read_raises w) (write_raises w)) as [[Hr Hw] | Hf].
  - destruct (add_favorability_healthy w now pid delta itype Hr Hw) as (r & -> & _).
    cbn. by rewrite lookup_insert_ne.
  - by rewrite add_favorability_faulty.
Qed.

(** The two invariants of the table are kept by both write paths of the
    plugin, whether or not the store raises. *)
Lemma add_favorability_keeps_invariants (w : World) (now : Z) (pid : string)
    (delta : Z) (itype : string) :
  scores_in_range (table w) ∧ bands_consistent (table w) →
  scores_in_range (table (snd (add_favorability w now pid delta itype)))
  ∧ bands_consistent (table (snd (add_favorability w now pid delta itype))).
Proof.
  intros [Hrange Hband].
  destruct (bool_cases (read_raises w) (write_raises w)) as [[Hr Hw] | Hf].
  - destruct (add_favorability_healthy w now pid delta itype Hr Hw)
      as (r & -> & Hfav & Hlevel & _).
    cbn. split; intros p r' Hp;
      (destruct (decide (pid = p)) as [-> | Hne];
       [ rewrite lookup_insert_eq in Hp; injection Hp as <-
       | rewrite lookup_insert_ne in Hp by done ]); eauto.
    rewrite Hfav. apply clamp_score_range.
  - rewrite add_favorability_faulty by done. cbn. auto.
Qed.

Lemma set_favorability_keeps_invariants (w : World) (now : Z) (pid : string)
    (value : Z) :
  scores_in_range (table w) ∧ bands_consistent (table w) →
  scores_in_range (table (snd (set_favorability w now pid value)))
  ∧ bands_consistent (table (snd (set_favorability w now pid value))).
Proof.
  intros [Hrange Hband].
  destruct (bool_cases (read_raises w) (write_raises w)) as [[Hr Hw] | Hf].
  - destruct (set_favorability_healthy w now pid value Hr Hw)
      as (r & -> & Hfav & Hlevel).
    cbn. split; intros p r' Hp;
      (destruct (decide (pid = p)) as [-> | Hne];
       [ rewrite lookup_insert_eq in Hp; injection Hp as <-
       | rewrite lookup_insert_ne in Hp by done ]); eauto.
    rewrite Hfav. apply clamp_score_range.
  - rewrite set_favorability_faulty by done. cbn. auto.
Qed.

(** C1.  With a store that answers, [add_favorability] returns and stores
    [max(-50, min(150, old + delta))], where [old] is the stored score or 50
    for a person without a row, and [set_favorability] stores
    [max(-50, min(150, value))]; both stored scores lie in [-50,150] whatever
    the size of [delta] or [value]. *)
Theorem score_mutation_is_clamped (w : World) (now : Z) (pid : string)
    (delta value : Z) (itype : string) :
  read_raises w = false → write_raises w = false →
  let new_score := Z.max (-50) (Z.min 150 (current_score w pid + delta)) in
  fst (add_favorability w now pid delta itype) = new_score
  ∧ favorability <$> table (snd (add_favorability w now pid delta itype)) !! pid
    = Some new_score
  ∧ -50 ≤ new_score ≤ 150
  ∧ favorability <$> table (snd (set_favorability w now pid value)) !! pid
    = Some (Z.max (-50) (Z.min 150 value))
  ∧ -50 ≤ Z.max (-50) (Z.min 150 value) ≤ 150.
Proof.
  intros Hr Hw new_score.
  destruct (add_favorability_healthy w now pid delta itype Hr Hw)
    as (r & -> & Hfav & _).
  destruct (set_favorability_healthy w now pid value Hr Hw)
    as (r' & -> & Hfav' & _).
  cbn [fst snd table with_table]. rewrite !lookup_insert_eq. cbn.
  rewrite Hfav, Hfav'. unfold clamp_score, new_score.
  repeat split; lia.
Qed.

Lemma score_mutation_is_clamped_witness :
  fst (add_favorability healthy_world 0 "alice" 1000 "positive") = 150
  ∧ fst (add_favorability healthy_world 0 "alice" (-1000) "negative") = -50.
Proof.
  split.
  - exact (proj1 (score_mutation_is_clamped healthy_world 0 "alice" 1000 0
                    "positive" eq_refl eq_refl)).
  - exact (proj1 (score_mutation_is_clamped healthy_world 0 "alice" (-1000) 0
                    "negative" eq_refl eq_refl)).
Defined.

(** C3, at the input where the administration script departs from it: asked
    to set 130, [modify_favorability] stores the score 130 under the label of
    the band below the one the engine gives 130, and asked to set -20, a
    score of the engine's range, it stores 0. *)
Theorem manager_stores_a_stale_band :
  (∃ w' record,
     favorability_manager.modify_favorability healthy_world 0 "alice" 130 = Ok w'
     ∧ table w' !! "alice" = Some record
     ∧ favorability record = 130
     ∧ level record = band_label bestfriend
     ∧ get_favorability_level 130 = band_label kin
     ∧ level record ≠ get_favorability_level (favorability record))
  ∧ (∃ w' record,
       favorability_manager.modify_favorability healthy_world 0 "alice" (-20) = Ok w'
       ∧ table w' !! "alice" = Some record
       ∧ favorability record = 0
       ∧ clamp_score (-20) = -20).
Proof.
  split; do 2 eexists; (split; [reflexivity |]);
    (split; [vm_compute; reflexivity |]); cbn; repeat split; discriminate.
Qed.

(** C8, refuted as stated: after the score of a person without a row has
    been read, the person still has no row. *)
Lemma read_creates_no_record :
  table healthy_world !! "alice" = None
  ∧ fst (get_favorability healthy_world "alice") = 50
  ∧ ¬ is_Some (table (snd (get_favorability healthy_world "alice")) !! "alice")
  ∧ ¬ is_Some (table (snd (get_favorability_record healthy_world "alice")) !! "alice").
Proof.
  vm_compute. repeat split; try reflexivity; intros [r Hr]; discriminate.
Qed.

(** C8, as the code has it: for a person without a row the read accessors
    report the default score 50 and no record, and leave the table as it
    was; the row is made by the first score mutation, [add_favorability] or
    [set_favorability], with a store that answers. *)
Theorem read_of_unknown_person (w : World) (now : Z) (pid : string)
    (delta value : Z) (itype : string) :
  table w !! pid = None →
  fst (get_favorability w pid) = 50
  ∧ fst (get_favorability_record w pid) = None
  ∧ table (snd (get_favorability w pid)) = table w
  ∧ table (snd (get_favorability_record w pid)) = table w
  ∧ (read_raises w = false → write_raises w = false →
     is_Some (table (snd (add_favorability w now pid delta itype)) !! pid)
     ∧ is_Some (table (snd (set_favorability w now pid value)) !! pid)).
Proof.
  intros Hnone.
  split; [| split; [| split; [| split]]].
  1-4: unfold get_favorability, get_favorability_record, get_or_none;
    destruct (read_raises w); cbn; rewrite ?Hnone; reflexivity.
  intros Hr Hw. split.
  - destruct (add_favorability_healthy w now pid delta itype Hr Hw) as (r & -> & _).
    cbn. rewrite lookup_insert_eq. by eexists.
  - destruct (set_favorability_healthy w now pid value Hr Hw) as (r & -> & _).
    cbn. rewrite lookup_insert_eq. by eexists.
Qed.

Lemma read_of_unknown_person_witness :
  fst (get_favorability healthy_world "alice") = 50
  ∧ table (snd (get_favorability healthy_world "alice")) = table healthy_world
  ∧ is_Some (table (snd (set_favorability healthy_world 0 "alice" 70)) !! "alice").
Proof.
  pose proof (read_of_unknown_person healthy_world 0 "alice" 1 70 "positive" eq_refl)
    as (H1 & _ & H3 & _ & Hmade).
  destruct (Hmade eq_refl eq_refl) as [_ Hset].
  exact (conj H1 (conj H3 Hset)).
Defined.

(** C9.  When the store raises, on the read or on the write, each store
    operation of the plugin handles it: the failure is given to
    [logger.error], [get_favorability] and [add_favorability] return 50,
    [get_favorability_record] returns no record and [set_favorability]
    returns [False], and the table is as before the call.  The operations
    return a plain value in every case, never a raised exception. *)
Theorem store_failure_degrades_to_default (w : World) (now : Z) (pid : string)
    (delta value : Z) (itype : string) :
  read_raises w = true ∨ write_raises w = true →
  (read_raises w = true →
     get_favorability w pid = (50, logger_error w "获取好感度失败")
     ∧ get_favorability_record w pid = (None, logger_error w "获取好感度记录失败"))
  ∧ fst (add_favorability w now pid delta itype) = 50
  ∧ table (snd (add_favorability w now pid delta itype)) = table w
  ∧ error_log (snd (add_favorability w now pid delta itype))
    = error_log w ++ ["更新好感度失败"]
  ∧ fst (set_favorability w now pid value) = false
  ∧ table (snd (set_favorability w now pid value)) = table w
  ∧ error_log (snd (set_favorability w now pid value))
    = error_log w ++ ["设置好感度失败"].
Proof.
  intros Hfault.
  rewrite add_favorability_faulty, set_favorability_faulty by done.
  cbn [fst snd table error_log logger_error].
  split; [| repeat split; reflexivity].
  intros Hread.
  unfold get_favorability, get_favorability_record, get_or_none.
  rewrite Hread. split; reflexivity.
Qed.

Lemma store_failure_degrades_to_default_witness :
  (fst (add_favorability write_failing_world 1000000 "alice" 5 "positive") = 50
   ∧ table (snd (add_favorability write_failing_world 1000000 "alice" 5 "positive"))
     = table write_failing_world)
  ∧ fst (get_favorability read_failing_world "alice") = 50.
Proof.
  split.
  - pose proof (store_failure_degrades_to_default write_failing_world 1000000
                  "alice" 5 0 "positive" (or_intror eq_refl))
      as (_ & Hret & Htable & _).
    exact (conj Hret Htable).
  - pose proof (store_failure_degrades_to_default read_failing_world 1000000
                  "alice" 5 0 "positive" (or_introl eq_refl))
      as (Hread & _).
    destruct (Hread eq_refl) as [Hget _].
    rewrite Hget. reflexivity.
Defined.

(** ** The post-response handler: which block an event runs *)

Import FavorabilityEventHandler.

Section Dispatch.

Context `{Host}.
Variables (cfg : Config) (now : Z) (today : string).

Lemma execute_score_event (message : option MaiMessages) (e : Event) (st : State) :
  read_event cfg message = Some e →
  execute cfg now today message st = score_event cfg now today e st.
Proof. intros He. unfold execute. by rewrite He. Qed.

Lemma check_not_talking_to_me_off (e : Event) (st : State) :
  is_not_talking_to_me cfg e = false → check_not_talking_to_me cfg now e st = None.
Proof. intros Hoff. unfold check_not_talking_to_me. by rewrite Hoff. Qed.

Lemma score_event_keyword_checks (e : Event) (st : State) :
  reaches_keyword_checks cfg now e st →
  score_event cfg now today e st = keyword_checks cfg now today e st.
Proof.
  intros [Hoff Hfall]. unfold score_event.
  by rewrite check_not_talking_to_me_off, Hfall.
Qed.

(** The keyword checks run the block of the tier of the lowered text. *)
Lemma keyword_checks_by_tier (e : Event) (st : State) :
  keyword_checks cfg now today e st
  = match keyword_tier (content_lower e) with
    | SevereNegative keyword => severe_hit cfg now e keyword st
    | MildNegative _ => mild_negative_hit cfg now e st
    | OrdinaryNegative keyword => negative_hit cfg now e keyword st
    | Affectionate _ => affectionate_hit cfg now e st
    | Positive _ => positive_hit cfg now e st
    | NoKeyword => normal_interaction cfg now today e st
    end.
Proof.
  unfold keyword_checks, keyword_tier, check_severe, check_mild_negative,
    check_negative, check_affectionate, check_positive.
  destruct (first_keyword SEVERE_KEYWORDS _); [reflexivity |].
  destruct (first_keyword MILD_NEGATIVE_KEYWORDS _); [reflexivity |].
  destruct (first_keyword NEGATIVE_KEYWORDS _); [reflexivity |].
  destruct (first_keyword AFFECTIONATE_KEYWORDS _); [reflexivity |].
  destruct (first_keyword POSITIVE_KEYWORDS _); reflexivity.
Qed.

Lemma execute_by_tier (message : option MaiMessages) (e : Event) (st : State) :
  read_event cfg message = Some e →
  reaches_keyword_checks cfg now e st →
  execute cfg now today message st
  = match keyword_tier (content_lower e) with
    | SevereNegative keyword => severe_hit cfg now e keyword st
    | MildNegative _ => mild_negative_hit cfg now e st
    | OrdinaryNegative keyword => negative_hit cfg now e keyword st
    | Affectionate _ => affectionate_hit cfg now e st
    | Positive _ => positive_hit cfg now e st
    | NoKeyword => normal_interaction cfg now today e st
    end.
Proof.
  intros He Hreach.
  rewrite (execute_score_event _ _ _ He), (score_event_keyword_checks _ _ Hreach).
  apply keyword_checks_by_tier.
Qed.

(** With the reasoning-based detection switched off, as it is unless the
    configuration turns it on, the detection falls through. *)
Lemma check_reasoning_disabled (e : Event) (st : State) :
  reasoning_detection_enabled cfg e = false → check_reasoning cfg now e st = None.
Proof. intros Hoff. unfold check_reasoning. by rewrite Hoff. Qed.

End Dispatch.

(** Two scenarios of the specification, run on the handler: a first long
    message of thanks from a new person gives 52 in the acquaintance band,
    and a severe keyword from a person at 10 gives 5 in the disliked band. *)
Example scenario_first_long_positive :
  let st :=
    @execute plain_host ∅ 1000000 "2026-01-01"
      (Some (message_from "42" "谢谢 this is a long message" "")) initial_state in
  stored_score st "qq:42" = Some 52
  ∧ stored_level st "qq:42" = Some (band_label acquaintance).
Proof. vm_compute. split; reflexivity. Qed.

Example scenario_severe_at_ten :
  let st :=
    @execute plain_host ∅ 1000000 "2026-01-01"
      (Some (message_from "42" "nmsl" "")) state_with_score_10 in
  stored_score st "qq:42" = Some 5
  ∧ stored_level st "qq:42" = Some (band_label disliked).
Proof. vm_compute. split; reflexivity. Qed.

(** ** Softened ordinary-negative hits *)

Lemma world_set_negative_interaction (st : State) (pid : string) (t : Z) :
  world (set_negative_interaction st pid t) = world st.
Proof. reflexivity. Qed.

Lemma world_set_positive_interaction (st : State) (pid : string) (t : Z) :
  world (set_positive_interaction st pid t) = world st.
Proof. reflexivity. Qed.

Lemma world_record_negative_behavior (st : State) (now : Z) (pid : string)
    (tag : str) (window : Z) :
  world (record_negative_behavior st now pid tag window) = world st.
Proof. reflexivity. Qed.

Lemma world_apply_delta (st : State) (now : Z) (pid : string) (delta : Z)
    (itype : string) :
  world (apply_delta st now pid delta itype)
  = snd (add_favorability (world st) now pid delta itype).
Proof. reflexivity. Qed.

(** [int(n / 2)] is the quotient truncated towards zero as long as [n] is a
    float itself, that is up to 2^53 in magnitude. *)
Lemma round_to_float_exact (m : Z) : 0 ≤ m ≤ 2 ^ 53 → round_to_float m = m.
Proof.
  intros Hm. destruct (decide (m = 2 ^ 53)) as [-> | Hne]; [reflexivity |].
  unfold round_to_float.
  destruct (Z.leb_spec (Z.log2 m + 1) 53) as [_ | Hbits]; [reflexivity |].
  destruct (decide (m = 0)) as [-> | Hpos]; [discriminate Hbits |].
  assert (Z.log2 m < 53) by (apply Z.log2_lt_pow2; lia). lia.
Qed.

Lemma int_of_half_exact (n : Z) :
  Z.abs n ≤ 2 ^ 53 → int_of_half n = Some (Z.quot n 2).
Proof.
  intros Hn. unfold int_of_half.
  rewrite round_to_float_exact by lia.
  destruct (Z.leb_spec (2 ^ 1025) (Z.abs n)) as [Hbig | _].
  { assert (2 ^ 53 < 2 ^ 1025) by (apply Z.pow_lt_mono_r; lia). lia. }
  f_equal. rewrite Z.quot_div by lia.
  change (Z.sgn 2) with 1. change (Z.abs 2) with 2. lia.
Qed.



(** [OverflowError] needs a delta far outside the integers that are
    floats. *)
Lemma int_of_half_raises (n : Z) : int_of_half n = None → 2 ^ 53 < Z.abs n.
Proof.
  intros Hnone. destruct (Z.le_gt_cases (Z.abs n) (2 ^ 53)) as [Hsmall | Hbig];
    [| lia].
  rewrite (int_of_half_exact n Hsmall) in Hnone. discriminate.
Qed.

(** A tier raises only under a negative delta that is no float. *)
Lemma tier_raises_overflow (cfg : Config) (e : Event) (t : Tier) :
  tier_raises cfg e t = true → 2 ^ 53 < Z.abs (negative_delta cfg).
Proof.
  destruct t; try discriminate. cbn [tier_raises]. unfold adjusted_negative_delta.
  destruct (any_in SOFTEN_NEGATIVE_KEYWORDS (content_lower e)); [| discriminate].
  destruct (int_of_half (negative_delta cfg)) eqn:Hhalf; [discriminate |].
  intros _. by apply int_of_half_raises.
Qed.




(** ** Reasoning-based positive tiers *)

(** A delta applied as ["positive"] is counted among the positive
    interactions of the person. *)
Lemma add_favorability_counts_positive (w : World) (now : Z) (pid : string)
    (delta : Z) :
  read_raises w = false → write_raises w = false →
  ∃ record,
    table (snd (add_favorability w now pid delta "positive")) !! pid = Some record
    ∧ favorability record = clamp_score (current_score w pid + delta)
    ∧ positive_interactions record
      = match table w !! pid with
        | Some old => positive_interactions old + 1
        | None => 1
        end
    ∧ negative_interactions record
      = match table w !! pid with
        | Some old => negative_interactions old
        | None => 0
        end.
Proof.
  intros Hr Hw.
  unfold add_favorability, get_or_none, save, create, current_score.
  rewrite Hr. cbn [mbind result_bind].
  destruct (table w !! pid) as [old |]; rewrite Hw; cbn [mbind result_bind];
    cbn [snd table with_table]; rewrite lookup_insert_eq;
    eexists; (split; [reflexivity |]); cbn; auto.
Qed.

Lemma first_label_positive_tiers (text : str) (tier : string) :
  first_label REASONING_POSITIVE_LABELS text = Some tier →
  tier = "high" ∨ tier = "mid" ∨ tier = "low".
Proof.
  unfold first_label, REASONING_POSITIVE_LABELS.
  cbn [List.find snd].
  repeat (match goal with
          | |- context [if any_in ?l text then _ else _] =>
            destruct (any_in l text)
          end);
    cbn [fmap option_fmap option_map fst]; intros Heq; inversion Heq; auto.
Qed.

(** C10, refuted as stated: the reasoning-based detection is on, the
    reasoning holds no behaviour label and a word of the high positive tier,
    and the positive cooldown is over; but the reasoning also says that the
    sender is looking on, so the handler returns from the not-addressed guard
    before the detection: no delta is applied and no row is made. *)
Lemma reasoning_positive_tier_not_addressed :
  let message := Some (message_from "42" "hello there" "围观群众表达了关心") in
  let e := event_of "qq:42" "hello there" " 围观群众表达了关心" 10 in
  let st' :=
    @execute plain_host reasoning_enabled_config 1000000 "2026-01-01" message
      initial_state in
  @read_event plain_host reasoning_enabled_config message = Some e
  ∧ reasoning_detection_enabled reasoning_enabled_config e = true
  ∧ first_label REASONING_BEHAVIOR_LABELS (combined_reasoning e) = None
  ∧ first_label REASONING_POSITIVE_LABELS (combined_reasoning e) = Some "high"
  ∧ positive_cooldown reasoning_enabled_config
    ≤ 1000000 - last_positive initial_state "qq:42"
  ∧ is_not_talking_to_me reasoning_enabled_config e = true
  ∧ world st' = world initial_state
  ∧ stored_score st' "qq:42" = None.
Proof. vm_compute. repeat split; try reflexivity; discriminate. Qed.

(** C10, as the code has it.  For an event the handler reads and whose
    reasoning does not stop it at the not-addressed guard: with the
    reasoning-based detection on, no behaviour label found,
    the positive tier [tier] found and the positive cooldown over, the
    handler applies [reasoning_positive_delta + bonus(tier) - 1] as a
    positive interaction, [bonus] being the configured bonus of the tier
    found; with the defaults written in the handler that is +2 for the high
    tier and +1 for the mid and the low tier. *)
Theorem reasoning_positive_tier_delta `{Host} (cfg : Config) (now : Z)
    (today : string) (message : option MaiMessages) (e : Event) (st : State)
    (tier : string) :
  read_event cfg message = Some e →
  is_not_talking_to_me cfg e = false →
  reasoning_detection_enabled cfg e = true →
  first_label REASONING_BEHAVIOR_LABELS (combined_reasoning e) = None →
  first_label REASONING_POSITIVE_LABELS (combined_reasoning e) = Some tier →
  positive_cooldown cfg ≤ now - last_positive st (ev_person_id e) →
  let pid := ev_person_id e in
  let bonus :=
    if bool_decide (tier = "high") then reasoning_positive_bonus_high cfg
    else if bool_decide (tier = "mid") then reasoning_positive_bonus_mid cfg
    else reasoning_positive_bonus_low cfg in
  let delta := reasoning_positive_delta cfg + bonus - 1 in
  execute cfg now today message st
  = set_positive_interaction (apply_delta st now pid delta "positive") pid now
  ∧ world (execute cfg now today message st)
    = snd (add_favorability (world st) now pid delta "positive")
  ∧ (read_raises (world st) = false → write_raises (world st) = false →
     ∃ record,
       table (world (execute cfg now today message st)) !! pid = Some record
       ∧ favorability record = clamp_score (current_score (world st) pid + delta)
       ∧ positive_interactions record
         = match table (world st) !! pid with
           | Some old => positive_interactions old + 1
           | None => 1
           end)
  ∧ reasoning_positive_delta reasoning_enabled_config
    + reasoning_positive_bonus_high reasoning_enabled_config - 1 = 2
  ∧ reasoning_positive_delta reasoning_enabled_config
    + reasoning_positive_bonus_mid reasoning_enabled_config - 1 = 1
  ∧ reasoning_positive_delta reasoning_enabled_config
    + reasoning_positive_bonus_low reasoning_enabled_config - 1 = 1.
Proof.
  intros He Hoff Hon Hneg Hpos Hcool pid bonus delta.
  assert (Hbonus : tier_bonus cfg tier = bonus).
  { unfold tier_bonus, bonus.
    destruct (first_label_positive_tiers _ _ Hpos) as [-> | [-> | ->]];
      reflexivity. }
  assert (Hexec : execute cfg now today message st
                  = set_positive_interaction
                      (apply_delta st now pid delta "positive") pid now).
  { rewrite (execute_score_event cfg now today message e st He).
    unfold score_event.
    rewrite (check_not_talking_to_me_off cfg now e st Hoff).
    unfold check_reasoning. rewrite Hon.
    unfold check_reasoning_negative. rewrite Hneg.
    unfold check_reasoning_positive. rewrite Hpos.
    fold pid. change (default 0 (_positive_interaction_tracker st !! pid))
      with (last_positive st pid).
    destruct (Z.geb_spec (now - last_positive st pid) (positive_cooldown cfg));
      [| unfold pid in *; lia].
    rewrite Hbonus. reflexivity. }
  split; [exact Hexec |].
  split; [rewrite Hexec; reflexivity |].
  split; [| repeat split; vm_compute; reflexivity].
  intros Hr Hw. rewrite Hexec. cbn [world set_positive_interaction].
  rewrite world_apply_delta.
  destruct (add_favorability_counts_positive (world st) now pid delta Hr Hw)
    as (record & Hrow & Hfav & Hcnt & _).
  exists record. auto.
Qed.

Lemma reasoning_positive_tier_delta_witness :
  stored_score
    (@execute plain_host reasoning_enabled_config 1000000 "2026-01-01"
       (Some (message_from "42" "hello there" "用户表达了关心")) initial_state)
    "qq:42"
  = Some 52.
Proof.
  pose proof (@reasoning_positive_tier_delta plain_host reasoning_enabled_config
                1000000 "2026-01-01"
                (Some (message_from "42" "hello there" "用户表达了关心"))
                (event_of "qq:42" "hello there" " 用户表达了关心" 10)
                initial_state "high") as Hthm.
  destruct Hthm as (_ & Hworld & _).
  - vm_compute; reflexivity.
  - vm_compute; reflexivity.
  - vm_compute; reflexivity.
  - vm_compute; reflexivity.
  - vm_compute; reflexivity.
  - vm_compute; discriminate.
  - unfold stored_score. rewrite Hworld. vm_compute; reflexivity.
Defined.

(** ** The daily cap on normal-interaction gains *)



(** ** The keyword tiers in one form per family *)

Section Families.

Context `{Host}.
Variables (cfg : Config) (now : Z) (today : string).

(** A hit of a negative keyword tier: left by an exception before anything
    is done, or escalated, or held back by the cooldown, or scored with the
    delta of its tier. *)
Lemma negative_tier_hit (message : option MaiMessages) (e : Event) (st : State) :
  read_event cfg message = Some e →
  reaches_keyword_checks cfg now e st →
  is_negative_tier (keyword_tier (content_lower e)) = true →
  let pid := ev_person_id e in
  let t := keyword_tier (content_lower e) in
  let logged := logged_state cfg now e t st in
  execute cfg now today message st
  = if tier_raises cfg e t then st
    else if escalates cfg now e t st then
      set_negative_interaction
        (apply_delta logged now pid (harassment_delta cfg) "negative") pid now
    else if now - last_negative st pid <? negative_cooldown cfg then logged
    else
      set_negative_interaction
        (apply_delta logged now pid (tier_delta cfg e t) "negative") pid now.
Proof.
  intros He Hreach Hneg pid t logged.
  rewrite (execute_by_tier cfg now today message e st He Hreach).
  unfold logged, escalates. fold t in Hneg |- *.
  destruct t as [keyword | keyword | keyword | keyword | keyword |];
    try discriminate;
    cbn [is_escalating_tier andb logged_state tier_delta tier_raises].
  - unfold severe_hit. fold pid. reflexivity.
  - unfold mild_negative_hit. fold pid. reflexivity.
  - unfold negative_hit. fold pid.
    destruct (adjusted_negative_delta cfg _); reflexivity.
Qed.

(** A hit of a positive keyword tier: dropped when the text is too short or
    the cooldown runs, scored with the delta of its tier otherwise. *)
Lemma positive_tier_hit (message : option MaiMessages) (e : Event) (st : State) :
  read_event cfg message = Some e →
  reaches_keyword_checks cfg now e st →
  is_positive_tier (keyword_tier (content_lower e)) = true →
  let pid := ev_person_id e in
  let t := keyword_tier (content_lower e) in
  execute cfg now today message st
  = if content_len_no_space e <? min_positive_len cfg then st
    else if now - last_positive st pid <? positive_cooldown cfg then st
    else
      set_positive_interaction
        (apply_delta st now pid (tier_delta cfg e t) "positive") pid now.
Proof.
  intros He Hreach Hpos pid t.
  rewrite (execute_by_tier cfg now today message e st He Hreach).
  fold t in Hpos |- *.
  destruct t as [keyword | keyword | keyword | keyword | keyword |];
    try discriminate; cbn [tier_delta].
  - unfold affectionate_hit. fold pid. reflexivity.
  - unfold positive_hit. fold pid. reflexivity.
Qed.

End Families.

Lemma escalates_true_iff (cfg : Config) (now : Z) (e : Event) (t : Tier)
    (st : State) :
  is_escalating_tier t = true →
  (escalates cfg now e t st = true
   ↔ harassment_threshold cfg
     ≤ recent_count (logged_state cfg now e t st) (ev_person_id e)).
Proof.
  intros Ht. unfold escalates. rewrite Ht. cbn [andb].
  destruct (Z.geb_spec (recent_count (logged_state cfg now e t st) (ev_person_id e))
              (harassment_threshold cfg)); split; intros; try done; lia.
Qed.

(** When no logged hit of the person has left the window, the pruned log
    grows by the hit just entered. *)
Lemma recent_count_record (st : State) (now : Z) (pid : string) (tag : str)
    (window : Z) :
  0 < window →
  Forall (fun entry => now - fst entry < window)
    (default [] (_negative_behavior_tracker st !! pid)) →
  recent_count (record_negative_behavior st now pid tag window) pid
  = recent_count st pid + 1.
Proof.
  intros Hwin Hall.
  unfold recent_count, record_negative_behavior.
  cbn [_negative_behavior_tracker set_negative_behavior].
  rewrite lookup_insert_eq. cbn [from_option id].
  set (log := default [] (_negative_behavior_tracker st !! pid)) in *.
  rewrite List.filter_app, length_app.
  replace (List.filter (λ entry, now - fst entry <? window) log) with log.
  2:{ clear -Hall. induction Hall as [| entry log Hentry _ IH]; [reflexivity |].
      cbn [List.filter]. rewrite <- IH.
      by rewrite (proj2 (Z.ltb_lt _ _) Hentry). }
  cbn [List.filter fst].
  rewrite (proj2 (Z.ltb_lt (now - now) window)) by lia.
  cbn [length]. lia.
Qed.

(** ** Harassment escalation *)

Lemma world_logged_state (cfg : Config) (now : Z) (e : Event) (t : Tier)
    (st : State) :
  world (logged_state cfg now e t st) = world st.
Proof. destruct t; reflexivity. Qed.

Lemma negative_interaction_logged_state (cfg : Config) (now : Z)
    (e : Event) (t : Tier) (st : State) :
  _negative_interaction_tracker (logged_state cfg now e t st)
  = _negative_interaction_tracker st.
Proof. destruct t; reflexivity. Qed.

(** C5, refuted as stated: with threshold 3 and a harassment penalty of -25,
    four ordinary-negative hits one second apart move the score
    50, 45, 45, 20, -5: the second hit is held back by the cooldown, and both
    the third and the fourth hit are scored with the harassment penalty. *)
Lemma four_hits_escalate_twice :
  harassment_threshold harsh_config = 3
  ∧ harassment_delta harsh_config = -25
  ∧ negative_delta harsh_config = -5
  ∧ map (fun times => stored_score (run_hits harsh_config "sb" times initial_state) "qq:42")
      [ [1000000];
        [1000000; 1000001];
        [1000000; 1000001; 1000002];
        [1000000; 1000001; 1000002; 1000003] ]
    = [Some 45; Some 45; Some 20; Some (-5)].
Proof. vm_compute. repeat split; reflexivity. Qed.

(** C5, as the code has it.  For a severe or ordinary-negative hit, [logged]
    being the state with the hit entered and the log pruned to the window.
    A softened ordinary-negative hit whose halving raises, which needs a
    negative delta beyond 2^53 in magnitude, leaves the handler before it is
    logged, with the state as it was.  For every other hit:
    - when the pruned log holds [harassment_threshold] entries or more, the
      hit is scored with the harassment delta in place of the delta of its
      tier, whatever the negative cooldown, and the negative timestamp is
      set to the current time;
    - below the threshold the hit is scored with the delta of its tier once
      the cooldown is over and leaves the store alone inside the cooldown;
    - when no earlier hit has left the window, the pruned log is one longer
      than before, so a hit that finds [harassment_threshold - 1] hits or more
      in the log is escalated: the hit that reaches the threshold and every
      hit after it, not only one. *)
Theorem escalation_at_and_after_threshold `{Host} (cfg : Config) (now : Z)
    (today : string) (message : option MaiMessages) (e : Event) (st : State) :
  read_event cfg message = Some e →
  reaches_keyword_checks cfg now e st →
  is_escalating_tier (keyword_tier (content_lower e)) = true →
  let pid := ev_person_id e in
  let t := keyword_tier (content_lower e) in
  let logged := logged_state cfg now e t st in
  let st' := execute cfg now today message st in
  let escalated :=
    world st'
    = snd (add_favorability (world st) now pid (harassment_delta cfg) "negative")
    ∧ _negative_interaction_tracker st' !! pid = Some now in
  (tier_raises cfg e t = true →
   2 ^ 53 < Z.abs (negative_delta cfg) ∧ st' = st)
  ∧ (tier_raises cfg e t = false →
     (harassment_threshold cfg ≤ recent_count logged pid → escalated)
     ∧ (recent_count logged pid < harassment_threshold cfg →
        negative_cooldown cfg ≤ now - last_negative st pid →
        world st'
        = snd (add_favorability (world st) now pid (tier_delta cfg e t) "negative"))
     ∧ (recent_count logged pid < harassment_threshold cfg →
        now - last_negative st pid < negative_cooldown cfg →
        world st' = world st)
     ∧ (0 < harassment_window cfg →
        Forall (fun entry => now - fst entry < harassment_window cfg)
          (default [] (_negative_behavior_tracker st !! pid)) →
        harassment_threshold cfg ≤ recent_count st pid + 1 →
        escalated)).
Proof.
  intros He Hreach Hesc pid t logged st' escalated.
  assert (Hneg : is_negative_tier (keyword_tier (content_lower e)) = true).
  { fold t in Hesc |- *. by destruct t. }
  pose proof (negative_tier_hit cfg now today message e st He Hreach Hneg) as Hexec.
  cbv zeta in Hexec. fold pid t logged st' in Hexec.
  split.
  { intros Hraise. split; [by apply (tier_raises_overflow cfg e t) |].
    by rewrite Hexec, Hraise. }
  intros Hraise. rewrite Hraise in Hexec.
  pose proof (escalates_true_iff cfg now e t st Hesc) as Hiff.
  fold logged pid in Hiff.
  assert (Hup : harassment_threshold cfg ≤ recent_count logged pid → escalated).
  { intros Hcount. unfold escalated. rewrite Hexec.
    rewrite (proj2 Hiff Hcount).
    cbn [world set_negative_interaction _negative_interaction_tracker].
    rewrite world_apply_delta. unfold logged.
    rewrite world_logged_state, lookup_insert_eq. split; reflexivity. }
  assert (Hno : recent_count logged pid < harassment_threshold cfg →
                escalates cfg now e t st = false).
  { intros Hcount. apply not_true_is_false. intros Hcase.
    apply Hiff in Hcase. lia. }
  split; [exact Hup |].
  split; [| split].
  - intros Hcount Hcool. rewrite Hexec, (Hno Hcount).
    destruct (Z.ltb_spec (now - last_negative st pid) (negative_cooldown cfg));
      [lia |].
    cbn [world set_negative_interaction]. rewrite world_apply_delta.
    unfold logged. by rewrite world_logged_state.
  - intros Hcount Hcool. rewrite Hexec, (Hno Hcount).
    destruct (Z.ltb_spec (now - last_negative st pid) (negative_cooldown cfg));
      [| lia].
    unfold logged. by rewrite world_logged_state.
  - intros Hwin Hall Hprev. apply Hup.
    assert (Hgrow : recent_count logged pid = recent_count st pid + 1).
    { pose proof Hesc as Ht. fold t in Ht. unfold logged.
      clear -Ht Hwin Hall. clearbody t.
      destruct t; try discriminate; cbn [logged_state];
        by apply recent_count_record. }
    lia.
Qed.

Lemma escalation_at_and_after_threshold_witness :
  stored_score (run_hits harsh_config "sb" [1000000; 1000001; 1000002] initial_state)
    "qq:42"
  = Some 20.
Proof.
  pose proof (@escalation_at_and_after_threshold plain_host harsh_config 1000002
                "2026-01-01" (Some (message_from "42" "sb" ""))
                (event_of "qq:42" "sb" " " 2)
                (run_hits harsh_config "sb" [1000000; 1000001] initial_state))
    as Hthm.
  destruct Hthm as (_ & Hscored).
  - vm_compute; reflexivity.
  - split; vm_compute; reflexivity.
  - vm_compute; reflexivity.
  - destruct Hscored as (Hescalated & _); [vm_compute; reflexivity |].
    destruct Hescalated as [Hworld _]; [vm_compute; discriminate |].
    unfold stored_score, run_hits. cbn [fold_left].
    unfold run_hits in Hworld. cbn [fold_left] in Hworld.
    rewrite Hworld. vm_compute; reflexivity.
Defined.

(** ** Cooldowns *)

Lemma positive_interaction_set (st : State) (pid : string) (t : Z) :
  last_positive (set_positive_interaction st pid t) pid = t.
Proof.
  unfold last_positive. cbn [_positive_interaction_tracker set_positive_interaction].
  by rewrite lookup_insert_eq.
Qed.

Lemma negative_interaction_set (st : State) (pid : string) (t : Z) :
  last_negative (set_negative_interaction st pid t) pid = t.
Proof.
  unfold last_negative. cbn [_negative_interaction_tracker set_negative_interaction].
  by rewrite lookup_insert_eq.
Qed.

(** The on-message handler scores every severe keyword it finds and neither
    reads nor writes a cooldown timestamp. *)
Lemma on_message_hit_is_always_scored `{Host} (cfg : Config) (now : Z)
    (message : option MaiMessages) (pid : string) (text keyword : str) (st : State) :
  UserSentimentEventHandler.read_message cfg message = Some (pid, text) →
  first_keyword SEVERE_KEYWORDS text = Some keyword →
  let st' := UserSentimentEventHandler.execute cfg now message st in
  (∃ delta, world st' = snd (add_favorability (world st) now pid delta "negative"))
  ∧ _negative_interaction_tracker st' = _negative_interaction_tracker st
  ∧ _positive_interaction_tracker st' = _positive_interaction_tracker st.
Proof.
  intros Hread Hkw st'. unfold st', UserSentimentEventHandler.execute.
  rewrite Hread. unfold UserSentimentEventHandler.check_severe. rewrite Hkw.
  match goal with
  | |- context [if ?c then _ else _] => destruct c
  end; (split; [eexists; reflexivity | split; reflexivity]).
Qed.

(** The reasoning tiers apply a delta of their own only when the cooldown of
    their family is over, and then set the timestamp of that family. *)
Lemma reasoning_tier_gate (cfg : Config) (now : Z) (e : Event)
    (st st' : State) :
  check_reasoning cfg now e st = Some st' →
  st' = st
  ∨ (negative_cooldown cfg ≤ now - last_negative st (ev_person_id e)
     ∧ ∃ delta,
         st' = set_negative_interaction
                 (apply_delta st now (ev_person_id e) delta "negative")
                 (ev_person_id e) now)
  ∨ (positive_cooldown cfg ≤ now - last_positive st (ev_person_id e)
     ∧ ∃ delta,
         st' = set_positive_interaction
                 (apply_delta st now (ev_person_id e) delta "positive")
                 (ev_person_id e) now).
Proof.
  unfold check_reasoning, check_reasoning_negative, check_reasoning_positive.
  change (default 0 (_negative_interaction_tracker st !! ev_person_id e))
    with (last_negative st (ev_person_id e)).
  change (default 0 (_positive_interaction_tracker st !! ev_person_id e))
    with (last_positive st (ev_person_id e)).
  destruct (reasoning_detection_enabled cfg e); [| discriminate].
  assert (Hpositive :
    match first_label REASONING_POSITIVE_LABELS (combined_reasoning e) with
    | Some positive_tier =>
      if now - last_positive st (ev_person_id e) >=? positive_cooldown cfg
      then Some (set_positive_interaction
                   (apply_delta st now (ev_person_id e)
                      (reasoning_positive_delta cfg + tier_bonus cfg positive_tier - 1)
                      "positive")
                   (ev_person_id e) now)
      else None
    | None => None
    end = Some st' →
    positive_cooldown cfg ≤ now - last_positive st (ev_person_id e)
    ∧ ∃ delta,
        st' = set_positive_interaction
                (apply_delta st now (ev_person_id e) delta "positive")
                (ev_person_id e) now).
  { destruct (first_label REASONING_POSITIVE_LABELS _); [| discriminate].
    destruct (Z.geb_spec (now - last_positive st (ev_person_id e))
                (positive_cooldown cfg)); [| discriminate].
    intros [= <-]. split; [lia | eexists; reflexivity]. }
  destruct (first_label REASONING_BEHAVIOR_LABELS _) as [label |];
    [| intros Hst; right; right; by apply Hpositive].
  destruct (any_in REASONING_HEDGE_KEYWORDS _); [intros [= <-]; by left |].
  destruct (Z.geb_spec (now - last_negative st (ev_person_id e))
              (negative_cooldown cfg));
    [| intros Hst; right; right; by apply Hpositive].
  destruct (negb _); intros [= <-]; [| by left].
  right; left. split; [lia | eexists; reflexivity].
Qed.

(** C4, refuted as stated, on two paths.  A severe hit scored by the
    post-response handler sets the negative timestamp; one second later, well
    inside the cooldown of 120 seconds, the on-message handler finds a severe
    keyword from the same person and lowers the stored score again.  And in
    the post-response handler itself the third ordinary-negative hit, two
    seconds after the first was scored, is inside the cooldown and still
    lowers the score, because it is escalated. *)
Lemma hits_scored_inside_cooldown :
  let st1 :=
    @FavorabilityEventHandler.execute plain_host ∅ 1000000 "2026-01-01"
      (Some (message_from "42" "nmsl" "")) initial_state in
  let st2 :=
    @UserSentimentEventHandler.execute plain_host ∅ 1000001
      (Some (message_from "42" "nmsl" "")) st1 in
  let st3 := run_hits ∅ "sb" [1000000; 1000001] initial_state in
  let st4 := run_hits ∅ "sb" [1000000; 1000001; 1000002] initial_state in
  (keyword_tier (u "nmsl") = SevereNegative (u "nmsl")
   ∧ last_negative st1 "qq:42" = 1000000
   ∧ 1000001 - last_negative st1 "qq:42" < negative_cooldown ∅
   ∧ stored_score st1 "qq:42" = Some 45
   ∧ stored_score st2 "qq:42" = Some 30
   ∧ world st2 ≠ world st1)
  ∧ (keyword_tier (u "sb") = OrdinaryNegative (u "sb")
     ∧ last_negative st3 "qq:42" = 1000000
     ∧ 1000002 - last_negative st3 "qq:42" < negative_cooldown ∅
     ∧ stored_score st3 "qq:42" = Some 45
     ∧ stored_score st4 "qq:42" = Some 40
     ∧ world st4 ≠ world st3).
Proof.
  vm_compute. repeat split; try reflexivity; discriminate.
Qed.

(** C4, as the code has it.  In the post-response handler the two positive
    keyword tiers read and write one timestamp per person and the three
    negative keyword tiers another.  Of two hits of the positive family of
    which the second comes inside the positive cooldown of the first, the
    first is scored and the second changes nothing at all; of two hits of the
    negative family of which the second comes inside the negative cooldown
    and is not escalated, the first (unless the halving of its softened
    delta raises) is scored and the second leaves the store and the
    timestamp alone.  The reasoning tiers apply a delta of their own
    only when the cooldown of their family is over and then set the same
    timestamp.  The on-message handler has no cooldown: it scores every
    severe keyword and leaves both timestamps as they are. *)
Theorem cooldown_suppresses_second_hit `{Host} (cfg : Config) (t1 t2 : Z)
    (today1 today2 : string) (m1 m2 : option MaiMessages) (e1 e2 : Event)
    (st : State) :
  read_event cfg m1 = Some e1 →
  read_event cfg m2 = Some e2 →
  ev_person_id e2 = ev_person_id e1 →
  reaches_keyword_checks cfg t1 e1 st →
  reaches_keyword_checks cfg t2 e2 (execute cfg t1 today1 m1 st) →
  let pid := ev_person_id e1 in
  let tier1 := keyword_tier (content_lower e1) in
  let tier2 := keyword_tier (content_lower e2) in
  let st1 := execute cfg t1 today1 m1 st in
  let st2 := execute cfg t2 today2 m2 st1 in
  (is_positive_tier tier1 = true → is_positive_tier tier2 = true →
   min_positive_len cfg ≤ content_len_no_space e1 →
   positive_cooldown cfg ≤ t1 - last_positive st pid →
   t2 - t1 < positive_cooldown cfg →
   world st1
   = snd (add_favorability (world st) t1 pid (tier_delta cfg e1 tier1) "positive")
   ∧ last_positive st1 pid = t1
   ∧ st2 = st1)
  ∧ (is_negative_tier tier1 = true → is_negative_tier tier2 = true →
     tier_raises cfg e1 tier1 = false →
     escalates cfg t1 e1 tier1 st = true
     ∨ negative_cooldown cfg ≤ t1 - last_negative st pid →
     t2 - t1 < negative_cooldown cfg →
     escalates cfg t2 e2 tier2 st1 = false →
     (∃ delta,
        world st1 = snd (add_favorability (world st) t1 pid delta "negative"))
     ∧ last_negative st1 pid = t1
     ∧ world st2 = world st1
     ∧ last_negative st2 pid = t1)
  ∧ (∀ (now : Z) (e : Event) (s s' : State),
       check_reasoning cfg now e s = Some s' →
       s' = s
       ∨ (negative_cooldown cfg ≤ now - last_negative s (ev_person_id e)
          ∧ ∃ delta,
              s' = set_negative_interaction
                     (apply_delta s now (ev_person_id e) delta "negative")
                     (ev_person_id e) now)
       ∨ (positive_cooldown cfg ≤ now - last_positive s (ev_person_id e)
          ∧ ∃ delta,
              s' = set_positive_interaction
                     (apply_delta s now (ev_person_id e) delta "positive")
                     (ev_person_id e) now))
  ∧ (∀ (now : Z) (message : option MaiMessages) (sender : string)
       (text keyword : str) (s : State),
       UserSentimentEventHandler.read_message cfg message = Some (sender, text) →
       first_keyword SEVERE_KEYWORDS text = Some keyword →
       (∃ delta,
          world (UserSentimentEventHandler.execute cfg now message s)
          = snd (add_favorability (world s) now sender delta "negative"))
       ∧ _negative_interaction_tracker
           (UserSentimentEventHandler.execute cfg now message s)
         = _negative_interaction_tracker s
       ∧ _positive_interaction_tracker
           (UserSentimentEventHandler.execute cfg now message s)
         = _positive_interaction_tracker s).
Proof.
  intros He1 He2 Hpid Hreach1 Hreach2 pid tier1 tier2 st1 st2.
  split; [| split; [| split; [exact (reasoning_tier_gate cfg) |]]].
  - intros Hpos1 Hpos2 Hlen Hcool Hinside.
    pose proof (positive_tier_hit cfg t1 today1 m1 e1 st He1 Hreach1 Hpos1) as Hst1.
    cbv zeta in Hst1. fold pid tier1 st1 in Hst1.
    destruct (Z.ltb_spec (content_len_no_space e1) (min_positive_len cfg));
      [lia |].
    destruct (Z.ltb_spec (t1 - last_positive st pid) (positive_cooldown cfg));
      [lia |].
    assert (Hlast : last_positive st1 pid = t1).
    { rewrite Hst1. apply positive_interaction_set. }
    split; [by rewrite Hst1 |].
    split; [exact Hlast |].
    pose proof (positive_tier_hit cfg t2 today2 m2 e2 st1 He2 Hreach2 Hpos2) as Hst2.
    cbv zeta in Hst2. rewrite Hpid in Hst2. fold pid tier2 st2 in Hst2.
    rewrite Hlast in Hst2.
    destruct (Z.ltb_spec (t2 - t1) (positive_cooldown cfg)); [| lia].
    by destruct (content_len_no_space e2 <? min_positive_len cfg).
  - intros Hneg1 Hneg2 Hraise1 Hscored Hinside Hplain.
    pose proof (negative_tier_hit cfg t1 today1 m1 e1 st He1 Hreach1 Hneg1) as Hst1.
    cbv zeta in Hst1. fold pid tier1 st1 in Hst1. rewrite Hraise1 in Hst1.
    assert (Hfirst : (∃ delta, world st1
                        = snd (add_favorability (world st) t1 pid delta "negative"))
                     ∧ last_negative st1 pid = t1).
    { destruct (escalates cfg t1 e1 tier1 st) eqn:Hesc.
      - rewrite Hst1. split; [| apply negative_interaction_set].
        eexists. cbn [world set_negative_interaction].
        by rewrite world_apply_delta, world_logged_state.
      - destruct Hscored as [Habs | Hcool]; [discriminate |].
        destruct (Z.ltb_spec (t1 - last_negative st pid) (negative_cooldown cfg));
          [lia |].
        rewrite Hst1. split; [| apply negative_interaction_set].
        eexists. cbn [world set_negative_interaction].
        by rewrite world_apply_delta, world_logged_state. }
    destruct Hfirst as [Hworld1 Hlast].
    split; [exact Hworld1 |]. split; [exact Hlast |].
    pose proof (negative_tier_hit cfg t2 today2 m2 e2 st1 He2 Hreach2 Hneg2) as Hst2.
    cbv zeta in Hst2. rewrite Hpid in Hst2. fold pid tier2 st2 in Hst2.
    rewrite Hplain, Hlast in Hst2.
    destruct (Z.ltb_spec (t2 - t1) (negative_cooldown cfg)); [| lia].
    rewrite Hst2. destruct (tier_raises cfg e2 tier2); [by split |].
    split; [apply world_logged_state |].
    unfold last_negative. rewrite negative_interaction_logged_state. exact Hlast.
  - intros now message sender text keyword s Hread Hkw.
    exact (on_message_hit_is_always_scored cfg now message sender text keyword s
             Hread Hkw).
Qed.

Lemma cooldown_suppresses_second_hit_witness :
  let st1 :=
    @execute plain_host ∅ 1000000 "2026-01-01"
      (Some (message_from "42" "mua mua" "")) initial_state in
  let st2 :=
    @execute plain_host ∅ 1000060 "2026-01-01"
      (Some (message_from "42" "666 nice" "")) st1 in
  let st3 :=
    @execute plain_host ∅ 1000000 "2026-01-01"
      (Some (message_from "42" "nmsl" "")) initial_state in
  let st4 :=
    @execute plain_host ∅ 1000060 "2026-01-01"
      (Some (message_from "42" "sb" "")) st3 in
  (stored_score st1 "qq:42" = Some 53 ∧ st2 = st1)
  ∧ (last_negative st3 "qq:42" = 1000000 ∧ world st4 = world st3).
Proof.
  split.
  - pose proof (@cooldown_suppresses_second_hit plain_host ∅ 1000000 1000060
                  "2026-01-01" "2026-01-01"
                  (Some (message_from "42" "mua mua" ""))
                  (Some (message_from "42" "666 nice" ""))
                  (event_of "qq:42" "mua mua" " " 6)
                  (event_of "qq:42" "666 nice" " " 7)
                  initial_state) as Hthm.
    destruct Hthm as (Hpositive & _).
    + vm_compute; reflexivity.
    + vm_compute; reflexivity.
    + reflexivity.
    + split; vm_compute; reflexivity.
    + split; vm_compute; reflexivity.
    + destruct Hpositive as (Hworld & _ & Hsame).
      * vm_compute; reflexivity.
      * vm_compute; reflexivity.
      * vm_compute; discriminate.
      * vm_compute; discriminate.
      * vm_compute; reflexivity.
      * split; [| exact Hsame].
        unfold stored_score. rewrite Hworld. vm_compute; reflexivity.
  - pose proof (@cooldown_suppresses_second_hit plain_host ∅ 1000000 1000060
                  "2026-01-01" "2026-01-01"
                  (Some (message_from "42" "nmsl" ""))
                  (Some (message_from "42" "sb" ""))
                  (event_of "qq:42" "nmsl" " " 4)
                  (event_of "qq:42" "sb" " " 2)
                  initial_state) as Hthm.
    destruct Hthm as (_ & Hnegative & _).
    + vm_compute; reflexivity.
    + vm_compute; reflexivity.
    + reflexivity.
    + split; vm_compute; reflexivity.
    + split; vm_compute; reflexivity.
    + destruct Hnegative as (_ & Hlast & Hworld & _).
      * vm_compute; reflexivity.
      * vm_compute; reflexivity.
      * vm_compute; reflexivity.
      * right. vm_compute; discriminate.
      * vm_compute; reflexivity.
      * vm_compute; reflexivity.
      * exact (conj Hlast Hworld).
Defined.

(* ===================================================================== *)
(** * Further properties of the handlers and of the store operations *)
(* ===================================================================== *)

(** ** One event, one person, at most one delta *)

Lemma at_most_one_delta_refl (now : Z) (pid : string) (w : World) :
  at_most_one_delta now pid w w.
Proof. by left. Qed.

Lemma at_most_one_delta_apply (st : State) (now : Z) (pid : string) (delta : Z)
    (itype : string) :
  at_most_one_delta now pid (world st) (world (apply_delta st now pid delta itype)).
Proof. right. by do 2 eexists. Qed.

Lemma others_untouched_refl (pid : string) (st : State) : others_untouched pid st st.
Proof. intros other _. repeat split. Qed.

Lemma others_untouched_trans (pid : string) (st1 st2 st3 : State) :
  others_untouched pid st1 st2 → others_untouched pid st2 st3 →
  others_untouched pid st1 st3.
Proof.
  intros H12 H23 other Hne.
  destruct (H12 other Hne) as (? & ? & ? & ? & ? & ?).
  destruct (H23 other Hne) as (? & ? & ? & ? & ? & ?).
  repeat split; congruence.
Qed.

Lemma others_untouched_apply_delta (st : State) (now : Z) (pid : string)
    (delta : Z) (itype : string) :
  others_untouched pid st (apply_delta st now pid delta itype).
Proof.
  intros other Hne. cbn [apply_delta set_world world
    _negative_behavior_tracker _normal_interaction_tracker
    _positive_interaction_tracker _negative_interaction_tracker
    _daily_normal_gain_tracker].
  repeat split. by apply add_favorability_other.
Qed.

Lemma others_untouched_setters (pid : string) (st : State) (t : Z)
    (log : list (Z * str)) (entry : string * Z) :
  others_untouched pid st (set_negative_behavior st pid log)
  ∧ others_untouched pid st (set_normal_interaction st pid t)
  ∧ others_untouched pid st (set_positive_interaction st pid t)
  ∧ others_untouched pid st (set_negative_interaction st pid t)
  ∧ others_untouched pid st (set_daily_normal_gain st pid entry).
Proof.
  repeat split; cbn; try reflexivity; by rewrite lookup_insert_ne.
Qed.

Ltac unfold_state_updates :=
  cbn [apply_delta set_world set_negative_behavior set_normal_interaction
       set_positive_interaction set_negative_interaction set_daily_normal_gain
       record_negative_behavior world _negative_behavior_tracker
       _normal_interaction_tracker _positive_interaction_tracker
       _negative_interaction_tracker _daily_normal_gain_tracker].

(** A state built from [st] by the setters of the person [pid] and by
    [apply_delta] for [pid]. *)
Ltac solve_effect :=
  split;
  [ unfold at_most_one_delta; unfold_state_updates;
    first [ by left | right; by do 2 eexists ]
  | intros other Hne; unfold_state_updates;
    rewrite ?lookup_insert_ne by done;
    repeat split; try reflexivity; by apply add_favorability_other ].

Section Effect.

Context `{Host}.
Variables (cfg : Config) (now : Z) (today : string).

Lemma check_not_talking_to_me_effect (e : Event) (st st' : State) :
  check_not_talking_to_me cfg now e st = Some st' →
  at_most_one_delta now (ev_person_id e) (world st) (world st')
  ∧ others_untouched (ev_person_id e) st st'.
Proof.
  unfold check_not_talking_to_me. intros Hcheck.
  repeat case_match; simplify_eq; solve_effect.
Qed.

Lemma check_reasoning_effect (e : Event) (st st' : State) :
  check_reasoning cfg now e st = Some st' →
  at_most_one_delta now (ev_person_id e) (world st) (world st')
  ∧ others_untouched (ev_person_id e) st st'.
Proof.
  intros Hcheck.
  destruct (reasoning_tier_gate cfg now e st st' Hcheck)
    as [-> | [[_ [delta ->]] | [_ [delta ->]]]]; solve_effect.
Qed.

Lemma keyword_checks_effect (e : Event) (st : State) :
  at_most_one_delta now (ev_person_id e) (world st)
    (world (keyword_checks cfg now today e st))
  ∧ others_untouched (ev_person_id e) st (keyword_checks cfg now today e st).
Proof.
  rewrite keyword_checks_by_tier.
  destruct (keyword_tier (content_lower e));
    unfold severe_hit, mild_negative_hit, negative_hit, affectionate_hit,
      positive_hit, normal_interaction;
    repeat case_match; solve_effect.
Qed.

Lemma score_event_effect (e : Event) (st : State) :
  at_most_one_delta now (ev_person_id e) (world st)
    (world (score_event cfg now today e st))
  ∧ others_untouched (ev_person_id e) st (score_event cfg now today e st).
Proof.
  unfold score_event.
  destruct (check_not_talking_to_me cfg now e st) as [st' |] eqn:Hguard;
    [by apply check_not_talking_to_me_effect |].
  destruct (check_reasoning cfg now e st) as [st' |] eqn:Hreason;
    [by apply check_reasoning_effect |].
  apply keyword_checks_effect.
Qed.

End Effect.

(** What either handler does to the store, whatever the message. *)
Lemma execute_world `{Host} (cfg : Config) (now : Z) (today : string)
    (message : option MaiMessages) (st : State) :
  ∃ pid, at_most_one_delta now pid (world st)
           (world (execute cfg now today message st)).
Proof.
  unfold execute. destruct (read_event cfg message) as [e |].
  - exists (ev_person_id e). apply score_event_effect.
  - exists EmptyString. by left.
Qed.

Lemma on_message_world `{Host} (cfg : Config) (now : Z)
    (message : option MaiMessages) (st : State) :
  ∃ pid, at_most_one_delta now pid (world st)
           (world (UserSentimentEventHandler.execute cfg now message st)).
Proof.
  unfold UserSentimentEventHandler.execute.
  destruct (UserSentimentEventHandler.read_message cfg message) as [[pid text] |];
    [| exists EmptyString; by left].
  exists pid. unfold UserSentimentEventHandler.check_severe.
  destruct (first_keyword SEVERE_KEYWORDS text) as [keyword |]; [| by left].
  right. case_match; by eexists _, _.
Qed.

(** X1.  The post-response handler, for an event it reads: the store is as before
    or one [add_favorability] of the sender away, and nothing kept for
    another person changes; for a message it returns on before any check,
    the state is as before. *)
Theorem post_response_event_touches_one_person `{Host} (cfg : Config) (now : Z)
    (today : string) (message : option MaiMessages) (st : State) :
  match read_event cfg message with
  | Some e =>
    at_most_one_delta now (ev_person_id e) (world st)
      (world (execute cfg now today message st))
    ∧ others_untouched (ev_person_id e) st (execute cfg now today message st)
  | None => execute cfg now today message st = st
  end.
Proof.
  unfold execute. destruct (read_event cfg message) as [e |]; [| reflexivity].
  apply score_event_effect.
Qed.

(** X2.  The on-message handler: a severe keyword is always scored, by one
    negative [add_favorability] of the sender; without one, or for a message
    it does not read, the state is as before; another person is never
    touched and no timestamp is written. *)
Theorem on_message_event_touches_one_person `{Host} (cfg : Config) (now : Z)
    (message : option MaiMessages) (st : State) :
  let st' := UserSentimentEventHandler.execute cfg now message st in
  match UserSentimentEventHandler.read_message cfg message with
  | Some (pid, text) =>
    match first_keyword SEVERE_KEYWORDS text with
    | Some keyword =>
      (∃ delta, world st' = snd (add_favorability (world st) now pid delta "negative"))
      ∧ others_untouched pid st st'
    | None => st' = st
    end
  | None => st' = st
  end.
Proof.
  cbv zeta. unfold UserSentimentEventHandler.execute.
  destruct (UserSentimentEventHandler.read_message cfg message) as [[pid text] |];
    [| reflexivity].
  unfold UserSentimentEventHandler.check_severe.
  destruct (first_keyword SEVERE_KEYWORDS text) as [keyword |]; [| reflexivity].
  case_match; (split; [by eexists |]);
    intros other Hne; unfold_state_updates;
    rewrite ?lookup_insert_ne by done;
    repeat split; try reflexivity; by apply add_favorability_other.
Qed.

(** ** The invariants of the table along any run *)

Lemma at_most_one_delta_keeps_invariants (now : Z) (pid : string) (w w' : World) :
  at_most_one_delta now pid w w' →
  scores_in_range (table w) ∧ bands_consistent (table w) →
  scores_in_range (table w') ∧ bands_consistent (table w').
Proof.
  intros [-> | (delta & itype & ->)] Hinv; [exact Hinv |].
  by apply add_favorability_keeps_invariants.
Qed.

Lemma act_keeps_invariants `{Host} (st : State) (a : Action) :
  scores_in_range (table (world st)) ∧ bands_consistent (table (world st)) →
  scores_in_range (table (world (act st a)))
  ∧ bands_consistent (table (world (act st a))).
Proof.
  intros Hinv. destruct a as [cfg now today message | cfg now message
                              | now pid value | r w]; cbn [act].
  - destruct (execute_world cfg now today message st) as [pid Hdelta].
    by apply (at_most_one_delta_keeps_invariants now pid (world st)).
  - destruct (on_message_world cfg now message st) as [pid Hdelta].
    by apply (at_most_one_delta_keeps_invariants now pid (world st)).
  - cbn [world set_world]. by apply set_favorability_keeps_invariants.
  - exact Hinv.
Qed.

(** X3.  Whatever messages the two handlers see, in whatever order, under
    whatever configuration and with the store raising or answering at any
    step, and whatever [set_favorability] is asked to store: if every stored
    score is in [-50,150] and carries the label of its band before, the same
    holds after.  The dictionaries kept in memory play no part: they may hold
    anything, or be lost. *)
Theorem run_keeps_store_invariants `{Host} (actions : list Action) (st : State) :
  scores_in_range (table (world st)) ∧ bands_consistent (table (world st)) →
  scores_in_range (table (world (run actions st)))
  ∧ bands_consistent (table (world (run actions st))).
Proof.
  unfold run. revert st.
  induction actions as [| a actions IH]; intros st Hinv; [exact Hinv |].
  cbn [fold_left]. apply IH. by apply act_keeps_invariants.
Qed.

Lemma run_keeps_store_invariants_witness :
  let st :=
    @run plain_host
      [ AfterLLM ∅ 1000000 "2026-01-01" (Some (message_from "42" "mua mua" ""));
        StoreHealth false true;
        OnMessage ∅ 1000001 (Some (message_from "42" "nmsl" ""));
        StoreHealth false false;
        OnMessage ∅ 1000002 (Some (message_from "7" "nmsl" ""));
        SetFavorability 1000003 "qq:42" 1000 ]
      initial_state in
  scores_in_range (table (world st)) ∧ bands_consistent (table (world st)).
Proof.
  apply (@run_keeps_store_invariants plain_host).
  split; intros pid record Hrow; cbn in Hrow; by rewrite lookup_empty in Hrow.
Defined.

(** ** Messages the handlers do not read *)

(** X4.  With the plugin switched off, neither handler changes anything, whatever
    the message. *)
Theorem disabled_plugin_changes_nothing `{Host} (cfg : Config) (now : Z)
    (today : string) (message : option MaiMessages) (st : State) :
  truthy (get_config cfg "favorability.enabled" (PyBool true)) = false →
  execute cfg now today message st = st
  ∧ UserSentimentEventHandler.execute cfg now message st = st.
Proof.
  intros Hoff.
  unfold execute, read_event, UserSentimentEventHandler.execute,
    UserSentimentEventHandler.read_message.
  destruct message as [message |]; [| by split].
  rewrite Hoff. by split.
Qed.

Lemma disabled_plugin_changes_nothing_witness :
  @execute plain_host disabled_config 1000000 "2026-01-01"
    (Some (message_from "42" "nmsl" "")) initial_state = initial_state
  ∧ @UserSentimentEventHandler.execute plain_host disabled_config 1000000
      (Some (message_from "42" "nmsl" "")) initial_state = initial_state.
Proof.
  apply (@disabled_plugin_changes_nothing plain_host disabled_config).
  vm_compute; reflexivity.
Defined.

(** *** The quoted reply *)

Lemma strip_prefix_app (prefix text rest : str) :
  strip_prefix prefix text = Some rest → text = prefix ++ rest.
Proof.
  revert text. induction prefix as [| p prefix IH]; intros text Hstrip.
  - cbn in Hstrip. by injection Hstrip as ->.
  - destruct text as [| c text]; [discriminate |]. cbn in Hstrip.
    destruct (N.eqb_spec p c) as [-> |]; [| discriminate].
    cbn. f_equal. by apply IH.
Qed.

Lemma span_until_app (stop : N) (s : str) :
  s = fst (span_until stop s) ++ snd (span_until stop s).
Proof.
  induction s as [| c s IH]; [reflexivity |]. cbn [span_until].
  destruct (c =? stop)%N; [reflexivity |].
  destruct (span_until stop s) as [run rest]. cbn in *. by f_equal.
Qed.

Lemma skip_through_app (stop : N) (s rest : str) :
  skip_through stop s = Some rest → ∃ pre, s = pre ++ rest ∧ pre ≠ [].
Proof.
  unfold skip_through. intros Hskip.
  pose proof (span_until_app stop s) as Hs.
  destruct (span_until stop s) as [[| c run] [| d tail]]; try discriminate.
  injection Hskip as <-. cbn in Hs.
  exists ((c :: run) ++ [d]). split; [| done].
  rewrite Hs. cbn. f_equal. by rewrite <- app_assoc.
Qed.

Lemma drop_while_app (f : N → bool) (s : str) : ∃ pre, s = pre ++ drop_while f s.
Proof.
  induction s as [| c s [pre IH]]; [by exists [] |]. cbn [drop_while].
  destruct (f c); [| by exists []].
  exists (c :: pre). cbn. by f_equal.
Qed.

(** A match of the quoted-reply pattern is a non-empty prefix of the text. *)
Lemma match_quoted_reply_app (s rest : str) :
  match_quoted_reply s = Some rest → ∃ pre, s = pre ++ rest ∧ pre ≠ [].
Proof.
  unfold match_quoted_reply. intros Hmatch.
  destruct (strip_prefix (u "[回复<") s) as [s1 |] eqn:H1; [| discriminate].
  cbn [mbind option_bind] in Hmatch.
  destruct (skip_through 62 s1) as [s2 |] eqn:H2; [| discriminate].
  cbn [mbind option_bind] in Hmatch.
  destruct (strip_prefix (u "的消息：") (drop_while isspace s2)) as [s3 |] eqn:H3;
    [| discriminate].
  cbn [mbind option_bind] in Hmatch.
  apply strip_prefix_app in H1. apply strip_prefix_app in H3.
  destruct (skip_through_app _ _ _ H2) as (p2 & -> & Hp2).
  destruct (skip_through_app _ _ _ Hmatch) as (p4 & -> & Hp4).
  destruct (drop_while_app isspace s2) as [p3 Hs2].
  exists (u "[回复<" ++ p2 ++ p3 ++ u "的消息：" ++ p4).
  split.
  - rewrite H1. rewrite Hs2 at 1. rewrite H3. by rewrite <- !app_assoc.
  - destruct p2; [done |]. intros Heq. apply (f_equal length) in Heq.
    rewrite !length_app in Heq. cbn in Heq. lia.
Qed.

Lemma remove_quoted_replies_from_skip (pre rest : str) :
  remove_quoted_replies_from (length pre) (pre ++ rest)
  = remove_quoted_replies_from 0 rest.
Proof.
  induction pre as [| c pre IH]; [reflexivity |]. cbn. exact IH.
Qed.

(** [re.sub] drops a match at the start of the text and goes on behind it. *)
Lemma remove_quoted_replies_match (s rest : str) :
  match_quoted_reply s = Some rest →
  remove_quoted_replies s = remove_quoted_replies rest.
Proof.
  intros Hmatch. unfold remove_quoted_replies.
  destruct (match_quoted_reply_app s rest Hmatch) as (pre & Hs & Hpre).
  destruct pre as [| c pre]; [done |].
  destruct s as [| c' s']; [discriminate |].
  cbn [remove_quoted_replies_from]. rewrite Hmatch.
  cbn in Hs. injection Hs as -> ->.
  replace (length (pre ++ rest) - length rest)%nat with (length pre)
    by (rewrite length_app; lia).
  apply remove_quoted_replies_from_skip.
Qed.

Lemma span_until_shape (stop : N) (s : str) :
  Forall (λ c, c ≠ stop) (fst (span_until stop s))
  ∧ (snd (span_until stop s) = []
     ∨ ∃ tail, snd (span_until stop s) = stop :: tail).
Proof.
  induction s as [| c s [IHrun IHrest]]; [by split; [constructor | left] |].
  cbn [span_until]. destruct (N.eqb_spec c stop) as [-> | Hne].
  - split; [constructor | right; by eexists].
  - destruct (span_until stop s) as [run rest]. cbn [fst snd] in *.
    split; [by constructor | exact IHrest].
Qed.

Lemma skip_through_shape (stop : N) (s rest : str) :
  skip_through stop s = Some rest →
  ∃ run, s = run ++ stop :: rest ∧ run ≠ [] ∧ Forall (λ c, c ≠ stop) run.
Proof.
  unfold skip_through. intros Hskip.
  pose proof (span_until_app stop s) as Hs.
  destruct (span_until_shape stop s) as [Hrun Hrest].
  destruct (span_until stop s) as [[| c run] [| d tail]]; try discriminate.
  injection Hskip as <-. cbn [fst snd] in *.
  destruct Hrest as [Hnil | [tail' [= -> _]]]; [discriminate |].
  exists (c :: run). by split; [| split].
Qed.

Lemma drop_while_shape (f : N → bool) (s : str) :
  ∃ pre, s = pre ++ drop_while f s ∧ Forall (λ c, f c = true) pre.
Proof.
  induction s as [| c s (pre & IH & Hpre)]; [by exists [] |]. cbn [drop_while].
  destruct (f c) eqn:Hc; [| by exists []].
  exists (c :: pre). split; [cbn; by f_equal | by constructor].
Qed.

(** What the quoted-reply pattern matches at the start of a text: the
    opening, a name without [>], [>], white space, the words before the
    quote, and a quote that runs to the first [\]]. *)
Lemma match_quoted_reply_shape (s rest : str) :
  match_quoted_reply s = Some rest →
  ∃ who spaces quoted,
    s = u "[回复<" ++ who ++ 62%N :: spaces ++ u "的消息：" ++ quoted ++ 93%N :: rest
    ∧ who ≠ [] ∧ Forall (λ c, c ≠ 62%N) who
    ∧ Forall (λ c, isspace c = true) spaces
    ∧ quoted ≠ [] ∧ Forall (λ c, c ≠ 93%N) quoted.
Proof.
  unfold match_quoted_reply. intros Hmatch.
  destruct (strip_prefix (u "[回复<") s) as [s1 |] eqn:H1; [| discriminate].
  cbn [mbind option_bind] in Hmatch.
  destruct (skip_through 62 s1) as [s2 |] eqn:H2; [| discriminate].
  cbn [mbind option_bind] in Hmatch.
  destruct (strip_prefix (u "的消息：") (drop_while isspace s2)) as [s3 |] eqn:H3;
    [| discriminate].
  cbn [mbind option_bind] in Hmatch.
  apply strip_prefix_app in H1. apply strip_prefix_app in H3.
  destruct (skip_through_shape _ _ _ H2) as (who & -> & Hwho & Hwho').
  destruct (skip_through_shape _ _ _ Hmatch) as (quoted & -> & Hquoted & Hquoted').
  destruct (drop_while_shape isspace s2) as (spaces & Hs2 & Hspaces).
  exists who, spaces, quoted.
  split; [| by repeat split].
  rewrite H1. f_equal. f_equal. f_equal. rewrite Hs2 at 1. by rewrite H3.
Qed.

Lemma match_quoted_reply_nonempty (s rest : str) :
  match_quoted_reply s = Some rest → is_empty s = false.
Proof.
  intros Hmatch.
  destruct (match_quoted_reply_app s rest Hmatch) as (pre & -> & Hpre).
  by destruct pre.
Qed.

Lemma strip_remove_empty : strip (remove_quoted_replies []) = [].
Proof. reflexivity. Qed.

(** X5.  When the quoted-reply pattern matches at the start of the text,
    both handlers handle the message as they handle the text behind the
    match.  The match is the opening, a name, [>], white space, the words
    before the quote and a quote without [\]] up to the first [\]]: a quote
    that holds a closing bracket itself is cut there, and what follows that
    bracket is read as words of the sender. *)
Theorem leading_quoted_reply_is_not_read `{Host} (cfg : Config) (now : Z)
    (today : string) (message : MaiMessages) (rest : str) (st : State) :
  match_quoted_reply (plain_text message) = Some rest →
  (∃ who spaces quoted,
     plain_text message
     = u "[回复<" ++ who ++ 62%N :: spaces ++ u "的消息：" ++ quoted ++ 93%N :: rest
     ∧ Forall (λ c, c ≠ 62%N) who
     ∧ Forall (λ c, isspace c = true) spaces
     ∧ Forall (λ c, c ≠ 93%N) quoted)
  ∧ execute cfg now today (Some message) st
    = execute cfg now today (Some (with_plain_text message rest)) st
  ∧ UserSentimentEventHandler.execute cfg now (Some message) st
    = UserSentimentEventHandler.execute cfg now
        (Some (with_plain_text message rest)) st.
Proof.
  intros Hmatch.
  split.
  { destruct (match_quoted_reply_shape _ _ Hmatch)
      as (who & spaces & quoted & Hs & _ & Hwho & Hspaces & _ & Hquoted).
    by exists who, spaces, quoted. }
  pose proof (match_quoted_reply_nonempty _ _ Hmatch) as Hfull.
  pose proof (remove_quoted_replies_match _ _ Hmatch) as Hremove.
  assert (Hevent : read_event cfg (Some message)
                   = read_event cfg (Some (with_plain_text message rest))).
  { unfold read_event. cbn [with_plain_text plain_text message_base_info
      llm_response_reasoning].
    rewrite Hfull, Hremove.
    destruct rest as [| c rest]; [| reflexivity].
    rewrite strip_remove_empty. cbn [is_empty].
    repeat case_match; reflexivity. }
  assert (Hmessage : UserSentimentEventHandler.read_message cfg (Some message)
                     = UserSentimentEventHandler.read_message cfg
                         (Some (with_plain_text message rest))).
  { unfold UserSentimentEventHandler.read_message.
    cbn [with_plain_text plain_text message_info].
    rewrite Hfull, Hremove.
    destruct rest as [| c rest]; [| reflexivity].
    rewrite strip_remove_empty. cbn [is_empty].
    repeat case_match; reflexivity. }
  unfold execute, UserSentimentEventHandler.execute.
  by rewrite Hevent, Hmessage.
Qed.

Lemma leading_quoted_reply_is_not_read_witness :
  @execute plain_host ∅ 1000000 "2026-01-01"
    (Some (message_from "42" "[回复<bob:1> 的消息：nmsl] hello world" ""))
    initial_state
  = @execute plain_host ∅ 1000000 "2026-01-01"
      (Some (message_from "42" " hello world" "")) initial_state
  ∧ @execute plain_host ∅ 1000000 "2026-01-01"
      (Some (message_from "42" "[回复<bob:1> 的消息：[图片] nmsl] hello world" ""))
      initial_state
    = @execute plain_host ∅ 1000000 "2026-01-01"
        (Some (message_from "42" " nmsl] hello world" "")) initial_state.
Proof.
  split.
  - apply (@leading_quoted_reply_is_not_read plain_host ∅ 1000000 "2026-01-01"
             (message_from "42" "[回复<bob:1> 的消息：nmsl] hello world" "")
             (u " hello world") initial_state).
    vm_compute; reflexivity.
  - apply (@leading_quoted_reply_is_not_read plain_host ∅ 1000000 "2026-01-01"
             (message_from "42" "[回复<bob:1> 的消息：[图片] nmsl] hello world" "")
             (u " nmsl] hello world") initial_state).
    vm_compute; reflexivity.
Defined.

(** X6.  A text without an opening bracket has no quoted reply: it goes through
    the removal unchanged; and the removal never makes a text longer. *)
Theorem remove_quoted_replies_keeps_plain_text (s : str) :
  (Forall (fun c => c ≠ 91%N) s → remove_quoted_replies s = s)
  ∧ (length (remove_quoted_replies s) ≤ length s)%nat.
Proof.
  split.
  - unfold remove_quoted_replies. intros Hplain.
    induction Hplain as [| c s Hc _ IH]; [reflexivity |].
    cbn [remove_quoted_replies_from].
    replace (match_quoted_reply (c :: s)) with (@None str); [by rewrite IH |].
    unfold match_quoted_reply.
    replace (strip_prefix (u "[回复<") (c :: s)) with (@None str); [reflexivity |].
    change (u "[回复<") with [91; 22238; 22797; 60]%N. cbn [strip_prefix].
    by destruct (N.eqb_spec 91 c).
  - unfold remove_quoted_replies. generalize 0%nat.
    induction s as [| c s IH]; intros skip; [reflexivity |].
    cbn [remove_quoted_replies_from].
    destruct skip as [| skip].
    + destruct (match_quoted_reply (c :: s)) as [rest |].
      * pose proof (IH (length s - length rest)%nat). cbn [length]. lia.
      * cbn [length]. pose proof (IH 0%nat). lia.
    + pose proof (IH skip). cbn [length]. lia.
Qed.

(** ** Events that end without a score *)

(** X7.  When the reasoning says the message is not for the bot, the keyword
    checks are not run, whatever the text holds.  If the reasoning also
    reports insult, harassment or threat against someone else, the ordinary
    negative delta is applied and the negative timestamp set when the
    negative cooldown is over, and nothing changes inside it.  If not, the
    store is left alone and the normal-interaction timestamp is set when
    [interaction_cooldown_seconds] have passed since it was last set. *)
Theorem not_addressed_event_skips_keywords `{Host} (cfg : Config) (now : Z)
    (today : string) (message : option MaiMessages) (e : Event) (st : State) :
  read_event cfg message = Some e →
  is_not_talking_to_me cfg e = true →
  let pid := ev_person_id e in
  let st' := execute cfg now today message st in
  (abuse_of_others e = true →
   (negative_cooldown cfg ≤ now - last_negative st pid →
    st' = set_negative_interaction
            (apply_delta st now pid (negative_delta cfg) "negative") pid now
    ∧ world st'
      = snd (add_favorability (world st) now pid (negative_delta cfg) "negative")
    ∧ last_negative st' pid = now)
   ∧ (now - last_negative st pid < negative_cooldown cfg → st' = st))
  ∧ (abuse_of_others e = false →
     world st' = world st
     ∧ st' = match number_of (get_config cfg "favorability.interaction_cooldown_seconds"
                                (PyInt 120)) with
             | Some cooldown_seconds =>
               if now - last_interaction st pid >=? cooldown_seconds
               then set_normal_interaction st pid now
               else st
             | None => st
             end).
Proof.
  intros He Hguard pid st'. unfold st'.
  rewrite (execute_score_event cfg now today message e st He).
  unfold score_event, check_not_talking_to_me. rewrite Hguard.
  change (any_in REASONING_OTHERS_TARGET (combined_reasoning e)
          && match first_label REASONING_BEHAVIOR_LABELS (combined_reasoning e) with
             | Some label =>
               bool_decide (label = "insult") || bool_decide (label = "harassment")
               || bool_decide (label = "threat")
             | None => false
             end) with (abuse_of_others e).
  fold pid. change (default 0 (_negative_interaction_tracker st !! pid))
    with (last_negative st pid).
  change (default 0 (_normal_interaction_tracker st !! pid))
    with (last_interaction st pid).
  split; intros ->.
  - destruct (Z.geb_spec (now - last_negative st pid) (negative_cooldown cfg));
      cbv beta iota; (split; [| intros; lia || reflexivity]); intros Hcool;
      [| lia].
    split; [reflexivity |]. split; [reflexivity | apply negative_interaction_set].
  - destruct (number_of _) as [cooldown |];
      [destruct (_ >=? cooldown) |]; cbv beta iota; by split.
Qed.

Lemma not_addressed_event_skips_keywords_witness :
  world (@execute plain_host ∅ 1000000 "2026-01-01"
           (Some (message_from "42" "nmsl" "他们在聊别的，与我无关")) initial_state)
  = world initial_state
  ∧ stored_score
      (@execute plain_host ∅ 1000000 "2026-01-01"
         (Some (message_from "42" "hello" "群友之间互相辱骂")) initial_state)
      "qq:42"
    = Some 45.
Proof.
  split.
  - pose proof (@not_addressed_event_skips_keywords plain_host ∅ 1000000
                  "2026-01-01"
                  (Some (message_from "42" "nmsl" "他们在聊别的，与我无关"))
                  (event_of "qq:42" "nmsl" " 他们在聊别的，与我无关" 4)
                  initial_state) as Hthm.
    destruct Hthm as [_ Hquiet].
    + vm_compute; reflexivity.
    + vm_compute; reflexivity.
    + destruct Hquiet as [Hworld _]; [vm_compute; reflexivity | exact Hworld].
  - pose proof (@not_addressed_event_skips_keywords plain_host ∅ 1000000
                  "2026-01-01"
                  (Some (message_from "42" "hello" "群友之间互相辱骂"))
                  (event_of "qq:42" "hello" " 群友之间互相辱骂" 5)
                  initial_state) as Hthm.
    destruct Hthm as [Habuse _].
    + vm_compute; reflexivity.
    + vm_compute; reflexivity.
    + destruct Habuse as [Hscored _]; [vm_compute; reflexivity |].
      destruct Hscored as (_ & Hworld & _); [vm_compute; discriminate |].
      unfold stored_score. rewrite Hworld. vm_compute; reflexivity.
Defined.

(** X8.  For an event that the not-addressed guard lets through: with the
    reasoning-based detection on and a behaviour label found, the event ends
    there without any change when the reasoning also holds a word of doubt,
    and also when the cooldown is over but the delta of the label is 0 (as
    it is for the label rude under the default configuration): the keywords
    of the text are not looked at. *)
Theorem reasoning_verdict_without_score `{Host} (cfg : Config) (now : Z)
    (today : string) (message : option MaiMessages) (e : Event) (st : State)
    (label : string) :
  read_event cfg message = Some e →
  is_not_talking_to_me cfg e = false →
  reasoning_detection_enabled cfg e = true →
  first_label REASONING_BEHAVIOR_LABELS (combined_reasoning e) = Some label →
  any_in REASONING_HEDGE_KEYWORDS (combined_reasoning e) = true
  ∨ (negative_cooldown cfg ≤ now - last_negative st (ev_person_id e)
     ∧ behavior_delta cfg label = 0) →
  execute cfg now today message st = st.
Proof.
  intros He Hoff Hon Hlabel Hcase.
  rewrite (execute_score_event cfg now today message e st He).
  unfold score_event.
  rewrite (check_not_talking_to_me_off cfg now e st Hoff).
  unfold check_reasoning. rewrite Hon.
  unfold check_reasoning_negative. rewrite Hlabel.
  destruct (any_in REASONING_HEDGE_KEYWORDS (combined_reasoning e)); [reflexivity |].
  destruct Hcase as [Habs | [Hcool Hzero]]; [discriminate |].
  change (default 0 (_negative_interaction_tracker st !! ev_person_id e))
    with (last_negative st (ev_person_id e)).
  destruct (Z.geb_spec (now - last_negative st (ev_person_id e))
              (negative_cooldown cfg)); [| lia].
  change (if bool_decide (label = "rude") then mild_negative_delta cfg
          else negative_delta cfg) with (behavior_delta cfg label).
  rewrite Hzero. reflexivity.
Qed.

Lemma reasoning_verdict_without_score_witness :
  @execute plain_host reasoning_enabled_config 1000000 "2026-01-01"
    (Some (message_from "42" "nmsl" "可能是在辱骂")) initial_state
  = initial_state
  ∧ @execute plain_host reasoning_enabled_config 1000000 "2026-01-01"
      (Some (message_from "42" "nmsl" "用户言语不雅")) initial_state
    = initial_state.
Proof.
  split.
  - apply (@reasoning_verdict_without_score plain_host reasoning_enabled_config
             1000000 "2026-01-01" (Some (message_from "42" "nmsl" "可能是在辱骂"))
             (event_of "qq:42" "nmsl" " 可能是在辱骂" 4) initial_state "insult").
    + vm_compute; reflexivity.
    + vm_compute; reflexivity.
    + vm_compute; reflexivity.
    + vm_compute; reflexivity.
    + left. vm_compute; reflexivity.
  - apply (@reasoning_verdict_without_score plain_host reasoning_enabled_config
             1000000 "2026-01-01" (Some (message_from "42" "nmsl" "用户言语不雅"))
             (event_of "qq:42" "nmsl" " 用户言语不雅" 4) initial_state "rude").
    + vm_compute; reflexivity.
    + vm_compute; reflexivity.
    + vm_compute; reflexivity.
    + vm_compute; reflexivity.
    + right. split; [vm_compute; discriminate | vm_compute; reflexivity].
Defined.

(** X9.  A text whose keyword tier is affectionate or positive (it holds no
    severe, mild-negative or ordinary-negative keyword) and that is shorter,
    spaces removed, than [min_positive_length] changes nothing: no positive
    score, and no normal-interaction gain either. *)
Theorem short_positive_text_changes_nothing `{Host} (cfg : Config) (now : Z)
    (today : string) (message : option MaiMessages) (e : Event) (st : State) :
  read_event cfg message = Some e →
  reaches_keyword_checks cfg now e st →
  is_positive_tier (keyword_tier (content_lower e)) = true →
  content_len_no_space e < min_positive_len cfg →
  execute cfg now today message st = st.
Proof.
  intros He Hreach Hpos Hshort.
  rewrite (positive_tier_hit cfg now today message e st He Hreach Hpos).
  by destruct (Z.ltb_spec (content_len_no_space e) (min_positive_len cfg)); [| lia].
Qed.

Lemma short_positive_text_changes_nothing_witness :
  @execute plain_host ∅ 1000000 "2026-01-01"
    (Some (message_from "42" "谢谢" "")) initial_state
  = initial_state.
Proof.
  apply (@short_positive_text_changes_nothing plain_host ∅ 1000000 "2026-01-01"
           (Some (message_from "42" "谢谢" "")) (event_of "qq:42" "谢谢" " " 2)
           initial_state).
  - vm_compute; reflexivity.
  - split; vm_compute; reflexivity.
  - vm_compute; reflexivity.
  - vm_compute; reflexivity.
Defined.

(** ** The log of negative hits *)

Lemma record_negative_behavior_log (st : State) (now : Z) (pid : string)
    (tag : str) (window : Z) :
  let log := default [] (_negative_behavior_tracker st !! pid) in
  let log' :=
    default [] (_negative_behavior_tracker
                  (record_negative_behavior st now pid tag window) !! pid) in
  Forall (fun entry => now - fst entry < window) log'
  ∧ (length log' ≤ length log + 1)%nat
  ∧ (0 < window → last log' = Some (now, tag)).
Proof.
  cbv zeta. unfold record_negative_behavior.
  cbn [_negative_behavior_tracker set_negative_behavior].
  rewrite lookup_insert_eq. cbn [from_option id].
  set (log := default [] (_negative_behavior_tracker st !! pid)).
  split; [| split].
  - apply List.Forall_forall. intros entry Hin.
    apply List.filter_In in Hin as [_ Hin]. by apply Z.ltb_lt.
  - pose proof (List.filter_length_le
                  (fun entry : Z * str => now - fst entry <? window)
                  (log ++ [(now, tag)])) as Hle.
    rewrite length_app in Hle. cbn [length] in Hle. exact Hle.
  - intros Hwin. rewrite List.filter_app. cbn [List.filter fst].
    rewrite (proj2 (Z.ltb_lt (now - now) window)) by lia.
    apply last_snoc.
Qed.

(** X10.  After a severe or ordinary-negative hit has gone through the keyword
    checks without raising, the log of the sender holds only hits inside the
    harassment window, it has grown by one entry at most, and, for a window
    of positive length, its last entry is the hit just seen.  A hit that
    raises leaves the log as it was. *)
Theorem negative_hit_log_is_pruned `{Host} (cfg : Config) (now : Z)
    (today : string) (message : option MaiMessages) (e : Event) (st : State) :
  read_event cfg message = Some e →
  reaches_keyword_checks cfg now e st →
  is_escalating_tier (keyword_tier (content_lower e)) = true →
  let pid := ev_person_id e in
  let log := default [] (_negative_behavior_tracker st !! pid) in
  let log' :=
    default [] (_negative_behavior_tracker (execute cfg now today message st) !! pid) in
  (tier_raises cfg e (keyword_tier (content_lower e)) = true → log' = log)
  ∧ (tier_raises cfg e (keyword_tier (content_lower e)) = false →
     Forall (fun entry => now - fst entry < harassment_window cfg) log'
     ∧ (length log' ≤ length log + 1)%nat
     ∧ (0 < harassment_window cfg → ∃ keyword, last log' = Some (now, keyword))).
Proof.
  intros He Hreach Hesc pid log log'.
  assert (Hneg : is_negative_tier (keyword_tier (content_lower e)) = true).
  { by destruct (keyword_tier (content_lower e)). }
  pose proof (negative_tier_hit cfg now today message e st He Hreach Hneg) as Hexec.
  cbv zeta in Hexec. fold pid in Hexec.
  split; intros Hraise; rewrite Hraise in Hexec.
  { unfold log'. by rewrite Hexec. }
  assert (Hlog : ∃ keyword,
            _negative_behavior_tracker (execute cfg now today message st)
            = _negative_behavior_tracker
                (record_negative_behavior st now pid keyword (harassment_window cfg))).
  { rewrite Hexec.
    destruct (keyword_tier (content_lower e)) as [keyword | | keyword | | |];
      try discriminate; exists keyword; repeat case_match; reflexivity. }
  destruct Hlog as [keyword Hlog]. unfold log'. rewrite Hlog.
  destruct (record_negative_behavior_log st now pid keyword (harassment_window cfg))
    as (Hall & Hlen & Hlast).
  split; [exact Hall |]. split; [exact Hlen |].
  intros Hwin. exists keyword. by apply Hlast.
Qed.

Lemma negative_hit_log_is_pruned_witness :
  Forall (fun entry => 1000350 - fst entry < harassment_window ∅)
    (default []
       (_negative_behavior_tracker
          (@execute plain_host ∅ 1000350 "2026-01-01"
             (Some (message_from "42" "sb" ""))
             (run_hits ∅ "sb" [1000000; 1000100] initial_state))
        !! ev_person_id (event_of "qq:42" "sb" " " 2))).
Proof.
  destruct (@negative_hit_log_is_pruned plain_host ∅ 1000350 "2026-01-01"
              (Some (message_from "42" "sb" "")) (event_of "qq:42" "sb" " " 2)
              (run_hits ∅ "sb" [1000000; 1000100] initial_state))
    as (_ & Hlogged).
  - vm_compute; reflexivity.
  - split; vm_compute; reflexivity.
  - vm_compute; reflexivity.
  - destruct Hlogged as (Hwindow & _ & _); [vm_compute; reflexivity |].
    exact Hwindow.
Defined.

(** ** The daily counter *)

Section Daily.

Context `{Host}.
Variables (cfg : Config) (now : Z) (today : string).

Lemma check_not_talking_to_me_daily (e : Event) (st st' : State) :
  check_not_talking_to_me cfg now e st = Some st' →
  _daily_normal_gain_tracker st' = _daily_normal_gain_tracker st.
Proof.
  unfold check_not_talking_to_me. intros Hcheck.
  repeat case_match; by simplify_eq.
Qed.

Lemma check_reasoning_daily (e : Event) (st st' : State) :
  check_reasoning cfg now e st = Some st' →
  _daily_normal_gain_tracker st' = _daily_normal_gain_tracker st.
Proof.
  intros Hcheck.
  by destruct (reasoning_tier_gate cfg now e st st' Hcheck)
    as [-> | [[_ [delta ->]] | [_ [delta ->]]]].
Qed.

Lemma normal_interaction_daily (e : Event) (st : State) :
  1 ≤ daily_limit cfg + normal_delta cfg →
  daily_gain_bounded cfg st →
  daily_gain_bounded cfg (normal_interaction cfg now today e st).
Proof.
  intros Hroom Hbound. unfold normal_interaction.
  set (pid := ev_person_id e).
  set (stored := default (today, 0) (_daily_normal_gain_tracker st !! pid)).
  set (tracker := if bool_decide (stored.1 ≠ today) then (today, 0) else stored).
  assert (Htracker : tracker.2 ≤ daily_limit cfg + normal_delta cfg - 1).
  { unfold tracker. destruct (bool_decide (stored.1 ≠ today)); [cbn; lia |].
    unfold stored.
    destruct (_daily_normal_gain_tracker st !! pid) as [[date count] |] eqn:Hrow;
      [| cbn; lia].
    cbn. exact (Hbound pid date count Hrow). }
  destruct (content_len_no_space e >=? min_normal_len cfg); [| exact Hbound].
  destruct (now - default 0 (_normal_interaction_tracker st !! pid)
            <? normal_cooldown cfg); [exact Hbound |].
  destruct (Z.geb_spec tracker.2 (daily_limit cfg)) as [Hfull | Hfree];
    intros p date count; unfold_state_updates;
    destruct (decide (pid = p)) as [<- | Hne];
    rewrite ?lookup_insert_eq, ?lookup_insert_ne by done;
    try (intros Hrow; exact (Hbound p date count Hrow)).
  - destruct tracker as [d c]. intros [= <- <-]. exact Htracker.
  - intros [= <- <-]. lia.
Qed.

Lemma keyword_checks_daily (e : Event) (st : State) :
  1 ≤ daily_limit cfg + normal_delta cfg →
  daily_gain_bounded cfg st →
  daily_gain_bounded cfg (keyword_checks cfg now today e st).
Proof.
  intros Hroom Hbound. rewrite keyword_checks_by_tier.
  destruct (keyword_tier (content_lower e));
    try (by apply normal_interaction_daily);
    unfold severe_hit, mild_negative_hit, negative_hit, affectionate_hit,
      positive_hit;
    repeat case_match; exact Hbound.
Qed.

End Daily.

(** X11.  Where a gain fits under the cap at all ([daily_normal_limit +
    normal_delta >= 1]), no event of the post-response handler brings the
    counter stored for a person in [_daily_normal_gain_tracker] above
    [daily_normal_limit + normal_delta - 1].  This bounds the stored counter
    only: the counter starts again at 0 whenever the date of the event
    differs from the stored one, and is lost with the process. *)
Theorem daily_counter_stays_under_cap `{Host} (cfg : Config) (now : Z)
    (today : string) (message : option MaiMessages) (st : State) :
  1 ≤ daily_limit cfg + normal_delta cfg →
  daily_gain_bounded cfg st →
  daily_gain_bounded cfg (execute cfg now today message st).
Proof.
  intros Hroom Hbound. unfold execute.
  destruct (read_event cfg message) as [e |]; [| exact Hbound].
  unfold score_event.
  destruct (check_not_talking_to_me cfg now e st) as [st' |] eqn:Hguard.
  { unfold daily_gain_bounded.
    by rewrite (check_not_talking_to_me_daily cfg now e st st' Hguard). }
  destruct (check_reasoning cfg now e st) as [st' |] eqn:Hreason.
  { unfold daily_gain_bounded.
    by rewrite (check_reasoning_daily cfg now e st st' Hreason). }
  by apply keyword_checks_daily.
Qed.

Lemma daily_counter_stays_under_cap_witness :
  daily_gain_bounded ∅
    (@execute plain_host ∅ 1000000 "2026-01-02"
       (Some (message_from "42" "hello world" ""))
       (state_with_daily_gain "2026-01-02" 9)).
Proof.
  apply (@daily_counter_stays_under_cap plain_host ∅).
  - vm_compute; discriminate.
  - intros pid date count Hrow.
    unfold state_with_daily_gain in Hrow. cbn in Hrow.
    destruct (decide ("qq:42" = pid)) as [<- | Hne].
    + rewrite lookup_insert_eq in Hrow. injection Hrow as <- <-.
      vm_compute; discriminate.
    + rewrite lookup_insert_ne, lookup_empty in Hrow by done. discriminate.
Defined.

(** ** Rows over time *)

Lemma row_evolves_refl (r : Favorability) : row_evolves r r.
Proof. unfold row_evolves. repeat split; lia. Qed.

Lemma table_evolves_refl (t : gmap string Favorability) : table_evolves t t.
Proof. intros pid old Hrow. exists old. split; [done | apply row_evolves_refl]. Qed.

Lemma table_evolves_trans (t1 t2 t3 : gmap string Favorability) :
  table_evolves t1 t2 → table_evolves t2 t3 → table_evolves t1 t3.
Proof.
  intros H12 H23 pid old Hrow.
  destruct (H12 pid old Hrow) as (mid & Hmid & E1).
  destruct (H23 pid mid Hmid) as (new & Hnew & E2).
  exists new. split; [done |].
  unfold row_evolves in *. repeat split; lia.
Qed.

Lemma add_favorability_evolves (w : World) (now : Z) (pid : string) (delta : Z)
    (itype : string) :
  table_evolves (table w) (table (snd (add_favorability w now pid delta itype))).
Proof.
  destruct (bool_cases (read_raises w) (write_raises w)) as [[Hr Hw] | Hf].
  2:{ rewrite add_favorability_faulty by done. apply table_evolves_refl. }
  unfold add_favorability, get_or_none, save, create.
  rewrite Hr. cbn [mbind result_bind].
  intros p old Hrow.
  destruct (table w !! pid) as [record |] eqn:Hpid; rewrite Hw;
    cbn [mbind result_bind snd table with_table];
    (destruct (decide (pid = p)) as [<- | Hne];
     [ rewrite lookup_insert_eq | rewrite lookup_insert_ne by done ]);
    try (exists old; split; [done | apply row_evolves_refl]);
    try congruence.
  assert (record = old) as -> by congruence.
  eexists. split; [reflexivity |].
  unfold row_evolves. cbn.
  repeat split; repeat case_bool_decide; lia.
Qed.

Lemma set_favorability_evolves (w : World) (now : Z) (pid : string) (value : Z) :
  table_evolves (table w) (table (snd (set_favorability w now pid value))).
Proof.
  destruct (bool_cases (read_raises w) (write_raises w)) as [[Hr Hw] | Hf].
  2:{ rewrite set_favorability_faulty by done. apply table_evolves_refl. }
  unfold set_favorability, get_or_none, save, create.
  rewrite Hr. cbn [mbind result_bind].
  intros p old Hrow.
  destruct (table w !! pid) as [record |] eqn:Hpid; rewrite Hw;
    cbn [snd table with_table];
    (destruct (decide (pid = p)) as [<- | Hne];
     [ rewrite lookup_insert_eq | rewrite lookup_insert_ne by done ]);
    try (exists old; split; [done | apply row_evolves_refl]);
    try congruence.
  assert (record = old) as -> by congruence.
  eexists. split; [reflexivity |].
  unfold row_evolves. cbn. repeat split; lia.
Qed.

Lemma act_evolves `{Host} (st : State) (a : Action) :
  table_evolves (table (world st)) (table (world (act st a))).
Proof.
  destruct a as [cfg now today message | cfg now message | now pid value | r w];
    cbn [act].
  - destruct (execute_world cfg now today message st)
      as [pid [-> | (delta & itype & ->)]];
      [apply table_evolves_refl | apply add_favorability_evolves].
  - destruct (on_message_world cfg now message st)
      as [pid [-> | (delta & itype & ->)]];
      [apply table_evolves_refl | apply add_favorability_evolves].
  - cbn [world set_world]. apply set_favorability_evolves.
  - apply table_evolves_refl.
Qed.

(** X12.  Along any run of the engine (messages seen by either handler, calls of
    [set_favorability], the store failing or not), no row is ever removed,
    the creation time of a row never changes, and none of its three counters
    ever goes down. *)
Theorem rows_are_never_lost_or_rewound `{Host} (actions : list Action) (st : State)
    (pid : string) (old : Favorability) :
  table (world st) !! pid = Some old →
  ∃ new, table (world (run actions st)) !! pid = Some new
         ∧ created_at new = created_at old
         ∧ total_interactions old ≤ total_interactions new
         ∧ positive_interactions old ≤ positive_interactions new
         ∧ negative_interactions old ≤ negative_interactions new.
Proof.
  assert (Hrun : table_evolves (table (world st)) (table (world (run actions st)))).
  { unfold run. revert st.
    induction actions as [| a actions IH]; intros st; [apply table_evolves_refl |].
    cbn [fold_left].
    eapply table_evolves_trans; [apply act_evolves | apply IH]. }
  intros Hrow. destruct (Hrun pid old Hrow) as (new & Hnew & Hev).
  exists new. split; [done | exact Hev].
Qed.

Lemma rows_are_never_lost_or_rewound_witness :
  ∃ new,
    table (world (@run plain_host
                    [ AfterLLM ∅ 1000000 "2026-01-01"
                        (Some (message_from "42" "nmsl" ""));
                      SetFavorability 1000001 "qq:42" (-1000) ]
                    state_with_score_10)) !! "qq:42" = Some new
    ∧ created_at new = 980000
    ∧ 3 ≤ total_interactions new.
Proof.
  destruct (@rows_are_never_lost_or_rewound plain_host
              [ AfterLLM ∅ 1000000 "2026-01-01" (Some (message_from "42" "nmsl" ""));
                SetFavorability 1000001 "qq:42" (-1000) ]
              state_with_score_10 "qq:42" row_at_10)
    as (new & Hnew & Hcreated & Htotal & _).
  - vm_compute; reflexivity.
  - exists new. split; [exact Hnew |]. split; [exact Hcreated | exact Htotal].
Defined.

(** X13.  The plugin's write paths keep the counters sensible: with no counter
    negative and the positive and negative interactions within the total
    before, the same holds after [add_favorability] and after
    [set_favorability], for every interaction type and whether or not the
    store raises. *)
Theorem writes_keep_counters_consistent (w : World) (now : Z) (pid : string)
    (delta value : Z) (itype : string) :
  counters_consistent (table w) →
  counters_consistent (table (snd (add_favorability w now pid delta itype)))
  ∧ counters_consistent (table (snd (set_favorability w now pid value))).
Proof.
  intros Hcount.
  destruct (bool_cases (read_raises w) (write_raises w)) as [[Hr Hw] | Hf].
  2:{ by rewrite add_favorability_faulty, set_favorability_faulty. }
  unfold add_favorability, set_favorability, get_or_none, save, create.
  rewrite Hr. cbn [mbind result_bind].
  destruct (table w !! pid) as [record |] eqn:Hpid; rewrite Hw;
    cbn [mbind result_bind snd table with_table];
    (split; intros p r;
     (destruct (decide (pid = p)) as [<- | Hne];
      [ rewrite lookup_insert_eq; intros [= <-]; cbn
      | rewrite lookup_insert_ne by done; apply Hcount ]));
    try (pose proof (Hcount pid record Hpid));
    repeat case_bool_decide; subst; try discriminate; lia.
Qed.

Lemma writes_keep_counters_consistent_witness :
  counters_consistent
    (table (snd (add_favorability healthy_world 0 "alice" 3 "positive"))).
Proof.
  apply (writes_keep_counters_consistent healthy_world 0 "alice" 3 0 "positive").
  intros pid record Hrow. cbn in Hrow. by rewrite lookup_empty in Hrow.
Defined.

(** ** Writing and reading back *)

Lemma set_favorability_again (w : World) (now : Z) (pid : string) (value : Z) :
  read_raises w = false → write_raises w = false →
  set_favorability (snd (set_favorability w now pid value)) now pid value
  = (true, snd (set_favorability w now pid value)).
Proof.
  intros Hr Hw.
  unfold set_favorability, get_or_none, save, create.
  rewrite Hr. cbn [mbind result_bind].
  destruct (table w !! pid) as [record |]; rewrite Hw;
    cbn [snd with_table table read_raises write_raises error_log];
    rewrite Hr; cbn [mbind result_bind]; rewrite lookup_insert_eq, Hw;
    cbn [with_table table read_raises write_raises error_log
         total_interactions positive_interactions negative_interactions
         created_at];
    by rewrite insert_insert_eq.
Qed.

(** X14.  With a store that answers: what [set_favorability] has stored is what
    [get_favorability] and [get_favorability_record] read back, clamped and
    under the label of its band; setting the same value again at the same
    time changes nothing; and a delta added afterwards starts from the
    clamped value. *)
Theorem set_then_read_back (w : World) (now : Z) (pid : string) (value delta : Z)
    (itype : string) :
  read_raises w = false → write_raises w = false →
  let w1 := snd (set_favorability w now pid value) in
  get_favorability w1 pid = (clamp_score value, w1)
  ∧ (∃ record,
       get_favorability_record w1 pid = (Some record, w1)
       ∧ favorability record = clamp_score value
       ∧ level record = get_favorability_level (clamp_score value))
  ∧ set_favorability w1 now pid value = (true, w1)
  ∧ fst (add_favorability w1 now pid delta itype)
    = clamp_score (clamp_score value + delta).
Proof.
  intros Hr Hw w1.
  destruct (set_favorability_healthy w now pid value Hr Hw)
    as (record & Hset & Hfav & Hlevel).
  assert (Hw1 : w1 = with_table w (<[pid := record]> (table w))).
  { unfold w1. by rewrite Hset. }
  assert (Hrow : table w1 !! pid = Some record).
  { rewrite Hw1. cbn. apply lookup_insert_eq. }
  assert (Hr1 : read_raises w1 = false) by (by rewrite Hw1).
  assert (Hw1' : write_raises w1 = false) by (by rewrite Hw1).
  split; [| split; [| split]].
  - unfold get_favorability, get_or_none. by rewrite Hr1, Hrow, Hfav.
  - exists record. unfold get_favorability_record, get_or_none.
    rewrite Hr1, Hrow. split; [done |]. split; [done |]. by rewrite Hlevel, Hfav.
  - by apply set_favorability_again.
  - destruct (add_favorability_healthy w1 now pid delta itype Hr1 Hw1')
      as (r & -> & _).
    cbn [fst]. unfold current_score. by rewrite Hrow, Hfav.
Qed.

Lemma set_then_read_back_witness :
  get_favorability (snd (set_favorability healthy_world 0 "alice" 999)) "alice"
  = (150, snd (set_favorability healthy_world 0 "alice" 999)).
Proof.
  exact (proj1 (set_then_read_back healthy_world 0 "alice" 999 0 "neutral"
                  eq_refl eq_refl)).
Defined.

(** ** A delta of zero *)

(** X15.  A mild-negative keyword is scored with [mild_negative_delta] even when
    that delta is 0, as it is by default: with a store that answers and a
    stored score inside the range, the score stays, but the event is counted
    as a negative interaction and starts the negative cooldown. *)
Theorem zero_delta_hit_is_counted `{Host} (cfg : Config) (now : Z) (today : string)
    (message : option MaiMessages) (e : Event) (st : State) (keyword : str)
    (old : Favorability) :
  read_event cfg message = Some e →
  reaches_keyword_checks cfg now e st →
  keyword_tier (content_lower e) = MildNegative keyword →
  negative_cooldown cfg ≤ now - last_negative st (ev_person_id e) →
  mild_negative_delta cfg = 0 →
  read_raises (world st) = false → write_raises (world st) = false →
  table (world st) !! ev_person_id e = Some old →
  -50 ≤ favorability old ≤ 150 →
  let st' := execute cfg now today message st in
  ∃ new,
    table (world st') !! ev_person_id e = Some new
    ∧ favorability new = favorability old
    ∧ total_interactions new = total_interactions old + 1
    ∧ negative_interactions new = negative_interactions old + 1
    ∧ positive_interactions new = positive_interactions old
    ∧ last_negative st' (ev_person_id e) = now.
Proof.
  intros He Hreach Htier Hcool Hzero Hr Hw Hrow Hrange st'.
  assert (Hneg : is_negative_tier (keyword_tier (content_lower e)) = true)
    by (by rewrite Htier).
  pose proof (negative_tier_hit cfg now today message e st He Hreach Hneg) as Hexec.
  cbv zeta in Hexec. rewrite Htier in Hexec.
  cbn [escalates is_escalating_tier andb logged_state tier_delta tier_raises]
    in Hexec.
  destruct (Z.ltb_spec (now - last_negative st (ev_person_id e))
              (negative_cooldown cfg)); [lia |].
  unfold st'. rewrite Hexec, Hzero, negative_interaction_set.
  cbn [world set_negative_interaction apply_delta set_world].
  unfold add_favorability, get_or_none, save. rewrite Hr.
  cbn [mbind result_bind]. rewrite Hrow, Hw.
  cbn [mbind result_bind snd table with_table]. rewrite lookup_insert_eq.
  eexists. split; [reflexivity |]. cbn.
  rewrite Z.add_0_r, clamp_score_id by done. auto.
Qed.

Lemma zero_delta_hit_is_counted_witness :
  stored_score
    (@execute plain_host ∅ 1000000 "2026-01-01"
       (Some (message_from "42" "emmm" "")) state_with_score_10) "qq:42"
  = Some 10
  ∧ last_negative
      (@execute plain_host ∅ 1000000 "2026-01-01"
         (Some (message_from "42" "emmm" "")) state_with_score_10) "qq:42"
    = 1000000.
Proof.
  destruct (@zero_delta_hit_is_counted plain_host ∅ 1000000 "2026-01-01"
              (Some (message_from "42" "emmm" "")) (event_of "qq:42" "emmm" " " 4)
              state_with_score_10 (u "emmm") row_at_10)
    as (new & Hnew & Hfav & _ & _ & _ & Hlast).
  - vm_compute; reflexivity.
  - split; vm_compute; reflexivity.
  - vm_compute; reflexivity.
  - vm_compute; discriminate.
  - vm_compute; reflexivity.
  - reflexivity.
  - reflexivity.
  - vm_compute; reflexivity.
  - vm_compute. split; discriminate.
  - split; [| exact Hlast].
    unfold stored_score. cbn [event_of ev_person_id] in Hnew.
    rewrite Hnew. cbn. by rewrite Hfav.
Defined.


(** ** The administration script against the engine *)

Lemma manager_level_against_engine (s : Z) :
  0 ≤ s ≤ 150 →
  (favorability_manager.get_favorability_level s = get_favorability_level s
   ↔ s < 120).
Proof.
  intros Hs.
  unfold favorability_manager.get_favorability_level, get_favorability_level.
  repeat (match goal with
          | |- context [?a >=? ?b] =>
            let E := fresh "E" in destruct (Z.geb_spec a b) as [E | E]
          end); try lia; split; intros Heq; try lia; try reflexivity;
    discriminate.
Qed.

Lemma modify_favorability_faulty (w : World) (now : Z) (pid : string)
    (new_value : Z) :
  read_raises w = true ∨ write_raises w = true →
  favorability_manager.modify_favorability w now pid new_value = Raise.
Proof.
  unfold favorability_manager.modify_favorability, get_or_none, save, create.
  intros Hfault. destruct (read_raises w) eqn:Hr; [reflexivity |].
  destruct Hfault as [Hf | Hf]; [discriminate |].
  cbn [mbind result_bind]. by destruct (table w !! pid); rewrite Hf.
Qed.

Lemma modify_favorability_healthy (w : World) (now : Z) (pid : string)
    (new_value : Z) :
  read_raises w = false → write_raises w = false →
  ∃ record,
    favorability_manager.modify_favorability w now pid new_value
    = Ok (with_table w (<[pid := record]> (table w)))
    ∧ favorability record = Z.max 0 (Z.min 150 new_value).
Proof.
  unfold favorability_manager.modify_favorability, get_or_none, save, create.
  intros Hr Hw. rewrite Hr. cbn [mbind result_bind].
  destruct (table w !! pid) as [old |]; rewrite Hw; eexists; by split.
Qed.

(** X16.  [modify_favorability] of the script.  When the store raises, the
    exception reaches the caller ([Raise]) instead of being handled.  When
    the store answers, the row written has a score in [0,150], hence inside
    the range of the engine; it keeps the counters and the creation time of
    the row it replaces; and its label is the engine's label of its score
    exactly when that score is below 120. *)
Theorem manager_write_against_engine (w : World) (now : Z) (pid : string)
    (new_value : Z) :
  (read_raises w = true ∨ write_raises w = true →
   favorability_manager.modify_favorability w now pid new_value = Raise)
  ∧ (read_raises w = false → write_raises w = false →
     ∃ record,
       favorability_manager.modify_favorability w now pid new_value
       = Ok (with_table w (<[pid := record]> (table w)))
       ∧ favorability record = Z.max 0 (Z.min 150 new_value)
       ∧ -50 ≤ favorability record ≤ 150
       ∧ (level record = get_favorability_level (favorability record)
          ↔ favorability record < 120)
       ∧ match table w !! pid with
         | Some old =>
           total_interactions record = total_interactions old
           ∧ positive_interactions record = positive_interactions old
           ∧ negative_interactions record = negative_interactions old
           ∧ created_at record = created_at old
         | None =>
           total_interactions record = 0
           ∧ positive_interactions record = 0
           ∧ negative_interactions record = 0
           ∧ created_at record = now
         end).
Proof.
  unfold favorability_manager.modify_favorability, get_or_none, save, create.
  split.
  - intros Hfault. destruct (read_raises w) eqn:Hr; [reflexivity |].
    destruct Hfault as [Hf | Hf]; [discriminate |].
    cbn [mbind result_bind]. by destruct (table w !! pid); rewrite Hf.
  - intros Hr Hw. rewrite Hr. cbn [mbind result_bind].
    destruct (table w !! pid) as [old |]; rewrite Hw;
      eexists; (split; [reflexivity |]);
      cbn [favorability level total_interactions positive_interactions
           negative_interactions created_at];
      (split; [reflexivity |]); (split; [lia |]);
      (split; [apply manager_level_against_engine; lia | auto]).
Qed.

(** X17.  A label left stale by the script lasts until the engine next scores the
    person: after [modify_favorability] and then [add_favorability] for the
    same person, with a store that answers, the row holds the clamped sum
    under the label of its band. *)
Theorem engine_rebands_after_manager_write (w w1 : World) (now now' : Z)
    (pid : string) (new_value delta : Z) (itype : string) :
  favorability_manager.modify_favorability w now pid new_value = Ok w1 →
  ∃ record,
    table (snd (add_favorability w1 now' pid delta itype)) !! pid = Some record
    ∧ favorability record = clamp_score (Z.max 0 (Z.min 150 new_value) + delta)
    ∧ level record = get_favorability_level (favorability record).
Proof.
  intros Hmodify.
  destruct (bool_cases (read_raises w) (write_raises w)) as [[Hr Hw] | Hf].
  2:{ rewrite (modify_favorability_faulty w now pid new_value Hf) in Hmodify.
      discriminate. }
  destruct (modify_favorability_healthy w now pid new_value Hr Hw)
    as (row & Heq & Hfav).
  rewrite Heq in Hmodify. injection Hmodify as <-.
  destruct (add_favorability_healthy (with_table w (<[pid := row]> (table w)))
              now' pid delta itype Hr Hw) as (record & -> & Hnew & Hlevel & _).
  exists record. cbn [snd table with_table]. rewrite lookup_insert_eq.
  split; [reflexivity |]. split; [| exact Hlevel].
  rewrite Hnew. unfold current_score. cbn [table with_table].
  by rewrite lookup_insert_eq, Hfav.
Qed.

Lemma engine_rebands_after_manager_write_witness :
  ∃ record,
    table (snd (add_favorability world_after_manager_130 9 "alice" (-1) "negative"))
      !! "alice" = Some record
    ∧ favorability record = 129
    ∧ level record = "至亲".
Proof.
  destruct (engine_rebands_after_manager_write healthy_world
              world_after_manager_130 5 9 "alice" 130 (-1) "negative")
    as (record & Hrow & Hfav & Hlevel).
  - vm_compute; reflexivity.
  - exists record. split; [exact Hrow |]. split; [exact Hfav |].
    rewrite Hlevel, Hfav. reflexivity.
Defined.

(** ** Names and prompts *)

Lemma get_person_name_by_id_nonempty (people : People) (pid : string) :
  is_empty (get_person_name_by_id people pid) = false.
Proof.
  unfold get_person_name_by_id, or_else.
  change (u "用户") with [29992; 25143]%N.
  repeat case_match; try reflexivity; done.
Qed.

Ltac step_found :=
  vm_compute; split; [tauto | split; [reflexivity | split; reflexivity]].

(** The three step functions of the score use the same nine steps: with the
    band, the tone rule and the tone band are given. *)
Lemma score_steps (s : Z) :
  ∃ c, In c [120; 90; 70; 50; 30; 10; -10; -30; -50]
       ∧ get_favorability_level s = get_favorability_level c
       ∧ tone_rule s = tone_rule c
       ∧ _favorability_tone_band s = _favorability_tone_band c.
Proof.
  unfold get_favorability_level, tone_rule, _favorability_tone_band.
  destruct (Z.geb_spec s 120); [exists 120; step_found |].
  destruct (Z.geb_spec s 90); [exists 90; step_found |].
  destruct (Z.geb_spec s 70); [exists 70; step_found |].
  destruct (Z.geb_spec s 50); [exists 50; step_found |].
  destruct (Z.geb_spec s 30); [exists 30; step_found |].
  destruct (Z.geb_spec s 10); [exists 10; step_found |].
  destruct (Z.geb_spec s (-10)); [exists (-10); step_found |].
  destruct (Z.geb_spec s (-30)); [exists (-30); step_found |].
  exists (-50); step_found.
Qed.

Ltac step_cases H :=
  cbn [In] in H;
  repeat (destruct H as [H | H]; [subst |]); [.. | destruct H].

(** X18.  The tone of the prompt follows the band: two scores have the same tone
    rule, and the same tone band, exactly when they have the same relationship
    level, and the tone band names that level between its brackets. *)
Theorem tone_follows_band (s1 s2 : Z) :
  (get_favorability_level s1 = get_favorability_level s2
   ↔ tone_rule s1 = tone_rule s2)
  ∧ (get_favorability_level s1 = get_favorability_level s2
     ↔ _favorability_tone_band s1 = _favorability_tone_band s2)
  ∧ py_in (u "(" ++ u (get_favorability_level s1) ++ u ")")
      (_favorability_tone_band s1) = true.
Proof.
  destruct (score_steps s1) as (c1 & Hc1 & -> & -> & ->).
  destruct (score_steps s2) as (c2 & Hc2 & -> & -> & ->).
  step_cases Hc1; step_cases Hc2;
    (split; [| split; [| vm_compute; reflexivity]]);
    split; intros Heq;
    first [ by (vm_compute in Heq; discriminate) | reflexivity ].
Qed.

(** X19.  The relationship prompt is never the empty default of [prompts.get]: it
    is the name of the person, never empty, followed by the text of the band
    of the person's score, whether or not the two stores answer. *)
Theorem relationship_prompt_is_never_empty (w : World) (people : People)
    (pid : string) :
  ∃ rest,
    fst (get_relationship_prompt w people pid)
    = get_person_name_by_id people pid ++ rest
    ∧ is_empty rest = false
    ∧ is_empty (get_person_name_by_id people pid) = false
    ∧ dict_get relationship_prompts
        (get_favorability_level (fst (get_favorability w pid))) = Some rest.
Proof.
  unfold get_relationship_prompt.
  destruct (get_favorability w pid) as [fav w1]. cbn [fst].
  destruct (score_steps fav) as (c & Hc & -> & _).
  step_cases Hc;
    (destruct (dict_get relationship_prompts _) as [rest |] eqn:Hget;
     [| vm_compute in Hget; discriminate];
     exists rest; split; [reflexivity |];
     split; [vm_compute in Hget; by injection Hget as <- |];
     split; [apply get_person_name_by_id_nonempty | reflexivity]).
Qed.

Lemma soften_rule_text (fav : Z) (text1 text2 : str) :
  fav < 30 ∨ any_in positive_hints text1 = any_in positive_hints text2 →
  soften_rule fav text1 = soften_rule fav text2.
Proof.
  unfold soften_rule. intros [Hlow | ->]; [| reflexivity].
  destruct (Z.ltb_spec fav 10); [reflexivity |].
  destruct (Z.ltb_spec fav 30); [reflexivity | lia].
Qed.

(** X20.  The tone directive reads the last text of the user only to see whether
    it holds one of the goodwill markers, and not even that when the score is
    below 30: two texts that agree on it, or any two texts below 30, give the
    same directive. *)
Theorem tone_directive_reads_only_goodwill `{Host} (w : World) (people : People)
    (pid : string) (text1 text2 : str) :
  fst (get_favorability w pid) < 30
  ∨ any_in positive_hints (lower text1) = any_in positive_hints (lower text2) →
  get_favorability_role_feedback_prompt w people pid text1
  = get_favorability_role_feedback_prompt w people pid text2.
Proof.
  unfold get_favorability_role_feedback_prompt.
  destruct (get_favorability w pid) as [fav w1]. cbn [fst]. intros Hsame.
  destruct (get_relationship_prompt w1 people pid) as [hint w2].
  unfold role_feedback_text.
  by rewrite (soften_rule_text fav (lower text1) (lower text2) Hsame).
Qed.

Lemma tone_directive_reads_only_goodwill_witness :
  @get_favorability_role_feedback_prompt plain_host (world state_with_score_10)
    no_people "qq:42" (u "谢谢你")
  = @get_favorability_role_feedback_prompt plain_host (world state_with_score_10)
      no_people "qq:42" (u "hello").
Proof.
  apply (@tone_directive_reads_only_goodwill plain_host).
  left. vm_compute; reflexivity.
Defined.

Lemma get_favorability_relabel (w : World) (pid other label : string) :
  get_favorability (relabel w pid label) other
  = (fst (get_favorability w other),
     relabel (snd (get_favorability w other)) pid label).
Proof.
  unfold get_favorability, get_or_none, relabel.
  cbn [read_raises with_table table].
  destruct (read_raises w); [reflexivity |].
  rewrite lookup_alter.
  destruct (decide (pid = other)) as [-> | Hne];
    destruct (table w !! other); reflexivity.
Qed.

(** X21.  What is shown is the band of the score, not the label stored beside it:
    the relationship prompt and the tone directive are the same whatever label
    is stored in the row of a person, and neither of them writes the table. *)
Theorem prompts_recompute_the_band `{Host} (w : World) (people : People)
    (pid target label : string) (text : str) :
  fst (get_relationship_prompt (relabel w target label) people pid)
  = fst (get_relationship_prompt w people pid)
  ∧ fst (get_favorability_role_feedback_prompt (relabel w target label) people pid text)
    = fst (get_favorability_role_feedback_prompt w people pid text)
  ∧ table (snd (get_relationship_prompt w people pid)) = table w
  ∧ table (snd (get_favorability_role_feedback_prompt w people pid text)) = table w.
Proof.
  assert (Htable : ∀ w0 p, table (snd (get_favorability w0 p)) = table w0).
  { intros w0 p. unfold get_favorability, get_or_none.
    by repeat case_match. }
  assert (Hprompt : ∀ w0,
            get_relationship_prompt (relabel w0 target label) people pid
            = (fst (get_relationship_prompt w0 people pid),
               relabel (snd (get_relationship_prompt w0 people pid)) target label)).
  { intros w0. unfold get_relationship_prompt.
    rewrite get_favorability_relabel.
    by destruct (get_favorability w0 pid). }
  split; [by rewrite Hprompt |].
  split.
  - unfold get_favorability_role_feedback_prompt.
    rewrite get_favorability_relabel.
    destruct (get_favorability w pid) as [fav w1]. cbn [fst snd].
    rewrite Hprompt.
    destruct (get_relationship_prompt w1 people pid) as [hint w2].
    cbv beta iota zeta delta [fst snd]. reflexivity.
  - split.
    + unfold get_relationship_prompt.
      pose proof (Htable w pid). by destruct (get_favorability w pid).
    + unfold get_favorability_role_feedback_prompt, get_relationship_prompt.
      pose proof (Htable w pid) as H1.
      destruct (get_favorability w pid) as [fav w1].
      pose proof (Htable w1 pid) as H2.
      destruct (get_favorability w1 pid) as [fav2 w2].
      cbn [snd] in *. congruence.
Qed.

(** ** Statistics *)

Lemma distribution_total_count (d : gmap string Z) (label : string) :
  distribution_total (<[label := default 0 (d !! label) + 1]> d)
  = distribution_total d + 1.
Proof.
  unfold distribution_total.
  destruct (d !! label) as [count |] eqn:Hlabel; cbn [from_option id].
  - rewrite <- insert_delete_eq.
    rewrite map_fold_insert_L; [| intros; lia | apply lookup_delete_eq].
    rewrite (map_fold_delete_L _ 0 label count d); [lia | intros; lia | done].
  - rewrite map_fold_insert_L; [lia | intros; lia | done].
Qed.

(** What the loop of the statistics has counted after the rows [rows]. *)
Lemma count_records (rows : list Favorability) (stats : Stats) :
  let stats' := fold_left count_record rows stats in
  total_users stats' = total_users stats + Z.of_nat (length rows)
  ∧ distribution_total (level_distribution stats')
    = distribution_total (level_distribution stats) + Z.of_nat (length rows)
  ∧ total_fav stats'
    = total_fav stats + foldr (fun record acc => favorability record + acc) 0 rows
  ∧ (∀ label,
       default 0 (level_distribution stats' !! label)
       = default 0 (level_distribution stats !! label)
         + Z.of_nat (length (List.filter
                               (fun record => bool_decide (level record = label))
                               rows)))
  ∧ (∀ label, is_Some (level_distribution stats !! label) →
              is_Some (level_distribution stats' !! label)).
Proof.
  revert stats. induction rows as [| record rows IH]; intros stats; cbv zeta.
  - cbn. repeat split; try lia; auto.
  - cbn [fold_left].
    destruct (IH (count_record stats record)) as (Husers & Htotal & Hfav & Hlabel & Hkeys).
    cbv zeta in *.
    rewrite Husers, Htotal, Hfav.
    cbn [count_record total_users level_distribution total_fav length foldr].
    rewrite distribution_total_count.
    split; [lia |]. split; [lia |]. split; [lia |]. split.
    + intros label. rewrite Hlabel.
      cbn [count_record level_distribution List.filter].
      destruct (decide (level record = label)) as [<- | Hne].
      * rewrite lookup_insert_eq, bool_decide_eq_true_2 by done.
        cbn [from_option id length]. lia.
      * rewrite lookup_insert_ne, bool_decide_eq_false_2 by done. lia.
    + intros label Hkey. apply Hkeys.
      cbn [count_record level_distribution].
      destruct (decide (level record = label)) as [<- | Hne];
        [rewrite lookup_insert_eq; by eexists | by rewrite lookup_insert_ne].
Qed.

Lemma sum_of_scores_in_range (rows : list Favorability) :
  Forall (fun record => -50 ≤ favorability record ≤ 150) rows →
  -50 * Z.of_nat (length rows)
  ≤ foldr (fun record acc => favorability record + acc) 0 rows
  ≤ 150 * Z.of_nat (length rows).
Proof.
  induction 1 as [| record rows Hrecord _ IH]; cbn [foldr length]; lia.
Qed.

(** X22.  [get_all_favorability_stats], when the store answers: the number of users
    is the number of rows; every row is counted once, under the label stored
    in it, so that the counts of the distribution add up to the number of
    users; each of the nine band labels has an entry, also without rows; and
    with every score in [-50,150] the sum of the scores, from which the
    average is taken, lies between -50 and 150 times the number of users.
    When the store raises, the result is the empty dict and the failure is
    logged.  The table is never written. *)
Theorem stats_count_every_row_once (w : World) :
  match fst (get_all_favorability_stats w) with
  | Some stats =>
    read_raises w = false
    ∧ total_users stats = Z.of_nat (size (table w))
    ∧ distribution_total (level_distribution stats) = total_users stats
    ∧ (∀ label,
         default 0 (level_distribution stats !! label)
         = Z.of_nat (length (List.filter
                               (fun record => bool_decide (level record = label))
                               (select_rows w))))
    ∧ (∀ b, is_Some (level_distribution stats !! band_label b))
    ∧ (scores_in_range (table w) →
       -50 * total_users stats ≤ total_fav stats ≤ 150 * total_users stats)
  | None =>
    read_raises w = true
    ∧ error_log (snd (get_all_favorability_stats w))
      = error_log w ++ ["获取好感度统计失败"]
  end
  ∧ table (snd (get_all_favorability_stats w)) = table w.
Proof.
  unfold get_all_favorability_stats.
  destruct (read_raises w); cbn [fst snd]; [by repeat split |].
  split; [| reflexivity].
  destruct (count_records (select_rows w) empty_stats)
    as (Husers & Htotal & Hfav & Hlabel & Hkeys).
  cbv zeta in *. fold (select_rows w).
  assert (Hlen : length (select_rows w) = size (table w)).
  { unfold select_rows. by rewrite length_fmap, length_map_to_list. }
  split; [reflexivity |].
  split; [rewrite Husers, Hlen; cbn; lia |].
  split; [rewrite Htotal, Husers; reflexivity |].
  split.
  { intros label. rewrite Hlabel.
    assert (Hzero : default 0 (level_distribution empty_stats !! label) = 0).
    { cbn [empty_stats level_distribution list_to_map foldr uncurry].
      repeat (rewrite lookup_insert; case_decide; [reflexivity |]).
      by rewrite lookup_empty. }
    lia. }
  split.
  { intros b. apply Hkeys. destruct b; vm_compute; by eexists. }
  intros Hrange. rewrite Hfav, Husers. cbn [empty_stats total_fav total_users].
  assert (Hall : Forall (fun record => -50 ≤ favorability record ≤ 150)
                   (select_rows w)).
  { apply Forall_forall. intros record Hin. unfold select_rows in Hin.
    apply list_elem_of_fmap in Hin as ([pid r] & -> & Hin).
    apply elem_of_map_to_list in Hin. exact (Hrange pid r Hin). }
  pose proof (sum_of_scores_in_range _ Hall). lia.
Qed.
(** ** The prompt injector and the query command *)

Lemma drop_while_keep (f : N → bool) (s rest : str) :
  drop_while f s ≠ [] → drop_while f (s ++ rest) = drop_while f s ++ rest.
Proof.
  induction s as [| c s IH]; [done |]. cbn [drop_while app].
  destruct (f c); [exact IH | done].
Qed.

Lemma drop_while_all (f : N → bool) (s rest : str) :
  drop_while f s = [] → drop_while f (s ++ rest) = drop_while f rest.
Proof.
  induction s as [| c s IH]; [done |]. cbn [drop_while app].
  destruct (f c); [exact IH | done].
Qed.

Lemma drop_while_last (f : N → bool) (s : str) (c : N) :
  f c = false → drop_while f (s ++ [c]) ≠ [].
Proof.
  intros Hc. induction s as [| d s IH]; cbn [drop_while app].
  - by rewrite Hc.
  - by destruct (f d).
Qed.

Lemma rstrip_app (a b : str) : rstrip b ≠ [] → rstrip (a ++ b) = a ++ rstrip b.
Proof.
  unfold rstrip. intros Hb. rewrite rev_app_distr.
  rewrite drop_while_keep.
  - by rewrite rev_app_distr, rev_involutive.
  - intros Hnil. apply Hb. by rewrite Hnil.
Qed.

Lemma rstrip_head (c : N) (s : str) : isspace c = false → rstrip (c :: s) ≠ [].
Proof.
  unfold rstrip. intros Hc Hnil. cbn [rev] in Hnil.
  pose proof (drop_while_last isspace (rev s) c Hc) as Hlast.
  destruct (drop_while isspace (rev s ++ [c])) as [| d rest]; [done |].
  cbn [rev] in Hnil. by destruct (rev rest).
Qed.

(** [f"{prompt}\n\n{block}".strip()] for a block that starts with a code
    point that is no white space. *)
Lemma strip_appended_block (prompt : str) (c : N) (block : str) :
  isspace c = false →
  strip (prompt ++ nl ++ nl ++ c :: block)
  = (if is_empty (lstrip prompt) then [] else lstrip prompt ++ nl ++ nl)
    ++ rstrip (c :: block).
Proof.
  intros Hc. unfold strip.
  destruct (lstrip prompt) as [| d rest] eqn:Hprompt; cbn [is_empty].
  - unfold lstrip in *. rewrite (drop_while_all _ _ _ Hprompt).
    change (nl ++ nl ++ c :: block) with (10 :: 10 :: c :: block)%N.
    cbn [drop_while]. change (isspace 10) with true. cbv iota.
    by rewrite Hc.
  - unfold lstrip in *. rewrite drop_while_keep by by rewrite Hprompt.
    rewrite Hprompt.
    replace ((d :: rest) ++ nl ++ nl ++ c :: block)
      with (((d :: rest) ++ nl ++ nl) ++ c :: block) by by rewrite <- !app_assoc.
    by rewrite rstrip_app by by apply rstrip_head.
Qed.

Lemma role_feedback_text_head (name : str) (level : string) (fav : Z)
    (last hint : str) :
  ∃ rest, role_feedback_text name level fav last hint = 91%N :: rest.
Proof.
  unfold role_feedback_text.
  destruct (u "[关系与语气调节（好感度系统）]") as [| c title] eqn:Htitle;
    vm_compute in Htitle; [discriminate |].
  injection Htitle as <- _. by eexists.
Qed.

Lemma get_favorability_table (w : World) (pid : string) :
  table (snd (get_favorability w pid)) = table w.
Proof. unfold get_favorability, get_or_none. by repeat case_match. Qed.

Lemma get_favorability_record_table (w : World) (pid : string) :
  table (snd (get_favorability_record w pid)) = table w.
Proof. unfold get_favorability_record, get_or_none. by repeat case_match. Qed.

Lemma role_feedback_prompt_table `{Host} (w : World) (people : People)
    (pid : string) (text : str) :
  table (snd (get_favorability_role_feedback_prompt w people pid text)) = table w.
Proof.
  unfold get_favorability_role_feedback_prompt, get_relationship_prompt.
  pose proof (get_favorability_table w pid) as H1.
  destruct (get_favorability w pid) as [fav w1].
  pose proof (get_favorability_table w1 pid) as H2.
  destruct (get_favorability w1 pid) as [fav2 w2].
  cbn [snd] in *. congruence.
Qed.

Lemma role_feedback_prompt_head `{Host} (w : World) (people : People)
    (pid : string) (text : str) :
  ∃ rest,
    fst (get_favorability_role_feedback_prompt w people pid text) = 91%N :: rest.
Proof.
  unfold get_favorability_role_feedback_prompt.
  destruct (get_favorability w pid) as [fav w1].
  destruct (get_relationship_prompt w1 people pid) as [hint w2].
  cbv beta iota zeta delta [fst]. apply role_feedback_text_head.
Qed.

(** X23.  The prompt injector.  Every guard comes before the first read of the
    store: where the handler returns no message, nothing has been read and
    nothing logged.  Where it returns the message, only the prompt has
    changed: it is the old prompt without its leading white space, two line
    feeds, and the tone directive of the sender without its trailing line
    feed; a prompt of white space only is dropped.  The table is never
    written. *)
Theorem injector_appends_the_directive `{Host} (cfg : Config) (w : World)
    (people : People) (message : PromptMessage) :
  let r := FavorabilityPromptInjectorHandler.execute cfg w people (Some message) in
  table (snd r) = table w
  ∧ (fst r = None → snd r = w)
  ∧ (∀ message', fst r = Some message' →
       pm_message message' = pm_message message
       ∧ is_empty (llm_prompt message) = false
       ∧ ∃ info,
           message_base_info (pm_message message) = Some info
           ∧ let pid := get_person_id (platform info) (user_id info) in
             let block :=
               fst (get_favorability_role_feedback_prompt
                      (snd (get_favorability w pid)) people pid
                      (plain_text (pm_message message))) in
             llm_prompt message'
             = (if is_empty (lstrip (llm_prompt message)) then []
                else lstrip (llm_prompt message) ++ nl ++ nl)
               ++ rstrip block).
Proof.
  cbv zeta. unfold FavorabilityPromptInjectorHandler.execute.
  destruct (negb (truthy (get_config cfg "favorability.enabled" (PyBool true))));
    [by repeat split |].
  destruct (negb (truthy (get_config cfg "favorability.inject_prompt_enabled"
                            (PyBool true))));
    [by repeat split |].
  destruct (is_empty (llm_prompt message)) eqn:Hprompt; [by repeat split |].
  destruct (message_base_info (pm_message message)) as [info |];
    [| by repeat split].
  destruct (is_empty (platform info) || is_empty (user_id info));
    [by repeat split |].
  pose proof (get_favorability_table w
                (get_person_id (platform info) (user_id info))) as Hread.
  destruct (get_favorability w (get_person_id (platform info) (user_id info)))
    as [fav w1] eqn:Hfav.
  pose proof (role_feedback_prompt_table w1 people
                (get_person_id (platform info) (user_id info))
                (plain_text (pm_message message))) as Htable.
  destruct (role_feedback_prompt_head w1 people
              (get_person_id (platform info) (user_id info))
              (plain_text (pm_message message))) as [rest Hhead].
  destruct (get_favorability_role_feedback_prompt w1 people
              (get_person_id (platform info) (user_id info))
              (plain_text (pm_message message))) as [block w2] eqn:Hblock.
  cbn [fst snd] in *. subst block.
  split; [congruence |]. split; [discriminate |].
  intros message' [= <-]. cbn [pm_message llm_prompt].
  split; [reflexivity |]. split; [reflexivity |].
  exists info. split; [reflexivity |].
  cbv zeta. rewrite Hfav. cbn [snd]. rewrite Hblock. cbn [fst].
  by apply strip_appended_block.
Qed.

(** X24.  On a store that raises on a read, the injector, whenever it
    returns the message (its guards do not read the store), has logged the
    failed read three times: [execute], the tone directive and the
    relationship prompt each read the score again. *)
Theorem injector_reads_the_score_three_times `{Host} (cfg : Config) (w : World)
    (people : People) (message : PromptMessage) :
  read_raises w = true →
  fst (FavorabilityPromptInjectorHandler.execute cfg w people (Some message)) ≠ None →
  error_log (snd (FavorabilityPromptInjectorHandler.execute cfg w people
                    (Some message)))
  = error_log w ++ ["获取好感度失败"; "获取好感度失败"; "获取好感度失败"].
Proof.
  intros Hraise. unfold FavorabilityPromptInjectorHandler.execute.
  destruct (negb (truthy (get_config cfg "favorability.enabled" (PyBool true))));
    [done |].
  destruct (negb (truthy (get_config cfg "favorability.inject_prompt_enabled"
                            (PyBool true))));
    [done |].
  destruct (is_empty (llm_prompt message)); [done |].
  destruct (message_base_info (pm_message message)) as [info |]; [| done].
  destruct (is_empty (platform info) || is_empty (user_id info)); [done |].
  intros _.
  unfold get_favorability_role_feedback_prompt, get_relationship_prompt,
    get_favorability, get_or_none.
  rewrite Hraise. cbn [logger_error read_raises]. rewrite Hraise.
  cbn [logger_error read_raises]. rewrite Hraise.
  cbv beta iota zeta delta [fst snd logger_error error_log].
  by rewrite <- !app_assoc.
Qed.

Lemma injector_reads_the_score_three_times_witness :
  error_log (snd (@FavorabilityPromptInjectorHandler.execute plain_host ∅
                    read_failing_world no_people
                    (Some (with_prompt (message_from "42" "hello" "") "You are Sakuya."))))
  = error_log read_failing_world
    ++ ["获取好感度失败"; "获取好感度失败"; "获取好感度失败"].
Proof.
  apply (@injector_reads_the_score_three_times plain_host);
    [reflexivity | vm_compute; discriminate].
Defined.

Lemma get_favorability_record_relabel (w : World) (pid target label : string) :
  (∀ name level fav,
     FavorabilityCommand.reply_text name level fav
       (fst (get_favorability_record (relabel w target label) pid))
     = FavorabilityCommand.reply_text name level fav
         (fst (get_favorability_record w pid)))
  ∧ snd (get_favorability_record (relabel w target label) pid)
    = relabel (snd (get_favorability_record w pid)) target label.
Proof.
  unfold get_favorability_record, get_or_none, relabel.
  cbn [read_raises with_table table].
  destruct (read_raises w); [by split |].
  rewrite lookup_alter.
  destruct (decide (target = pid)) as [-> | Hne];
    destruct (table w !! pid); by split.
Qed.

(** X25.  The query command.  It reads and never writes; without a sender or a
    platform it sends the apology and does not touch the store; it always
    intercepts at level 2; and what it sends is computed from the score and
    the counters, not from the label stored in the row. *)
Theorem command_reads_and_never_writes `{Host} (w : World) (people : People)
    (user_info : option CommandSender) (platform : str) (target label : string) :
  let r := FavorabilityCommand.execute w people user_info platform in
  table (snd r) = table w
  ∧ intercept_level (fst r) = 2
  ∧ fst (FavorabilityCommand.execute (relabel w target label) people
           user_info platform) = fst r
  ∧ (user_info = None ∨ platform = [] →
     snd r = w ∧ sent_text (fst r) = u "无法获取你的信息哦~").
Proof.
  cbv zeta. unfold FavorabilityCommand.execute.
  destruct user_info as [sender |]; [| by repeat split].
  destruct platform as [| c platform]; cbn [is_empty]; [by repeat split |].
  set (pid := get_person_id (c :: platform) (cs_user_id sender)).
  rewrite get_favorability_relabel.
  pose proof (get_favorability_table w pid) as Hread.
  destruct (get_favorability w pid) as [fav w1]. cbn [fst snd] in *.
  destruct (get_favorability_record_relabel w1 pid target label) as [Hreply _].
  pose proof (get_favorability_record_table w1 pid) as Hrecord.
  destruct (get_favorability_record w1 pid) as [record w2].
  destruct (get_favorability_record (relabel w1 target label) pid)
    as [record' w2'].
  cbn [fst snd intercept_level] in *.
  split; [congruence |]. split; [reflexivity |].
  split; [by rewrite Hreply |].
  intros [Hnone | Hnil]; discriminate.
Qed.

(** X26.  The emoji table of the command has six of the nine bands: the line of
    the relationship level starts without an emoji exactly for the scores
    from 120 up and for those below -10. *)
Theorem command_emoji_for_six_bands (fav : Z) :
  dict_get FavorabilityCommand.level_emoji (get_favorability_level fav) = None
  ↔ (120 ≤ fav ∨ fav < -10).
Proof.
  unfold get_favorability_level.
  repeat (match goal with
          | |- context [ Z.geb fav ?c ] => destruct (Z.geb_spec fav c)
          end);
    (split;
     [ intros Hnone; first [ lia | vm_compute in Hnone; discriminate ]
     | intros Hrange; first [ lia | vm_compute; reflexivity ] ]).
Qed.
